(** * Cage output management and frame compositing (src/output.c)

    A shallow embedding of [render_surface], [view_for_each_surface],
    [handle_output_frame], [handle_output_destroy] and [handle_new_output],
    with the C heap, the wl_signal listener lists and the sequence of calls
    into wlroots and libwayland made explicit. *)

From Stdlib Require Import ZArith Lia Bool.
From Stdlib Require Import Floats.SpecFloat.
From stdpp Require Import base option list gmap strings relations.

Local Open Scope Z_scope.

(** ** C scalars *)

Definition INT_MIN : Z := - 2 ^ 31.
Definition INT_MAX : Z := 2 ^ 31 - 1.

Definition in_int (z : Z) : bool := (INT_MIN <=? z) && (z <=? INT_MAX).

(** [int] arithmetic; signed overflow is undefined, which is [None]. *)
Definition int_checked (z : Z) : option Z := if in_int z then Some z else None.
Definition int_add (a b : Z) : option Z := int_checked (a + b).

(** IEEE 754 binary64 ([double]) and binary32 ([float]) are both carried by
    [spec_float]; their operations differ in precision and exponent range.
    Expressions are evaluated in the precision of their C type
    (FLT_EVAL_METHOD 0).

    [float_of_int] is the conversion of an [int] to a floating type: the
    float, of precision [prec] and exponent range [emax], nearest to the
    integer. *)
Definition float_of_int (prec emax : Z) (z : Z) : spec_float :=
  binary_normalize prec emax z 0 false.

Module Double.
Definition prec : Z := 53.
Definition emax : Z := 1024.
Definition add : spec_float -> spec_float -> spec_float := SFadd prec emax.
Definition mul : spec_float -> spec_float -> spec_float := SFmul prec emax.
Definition of_int (z : Z) : spec_float := float_of_int prec emax z.
Definition zero : spec_float := S754_zero false.
End Double.

Module Float.
Definition prec : Z := 24.
Definition emax : Z := 128.
Definition mul : spec_float -> spec_float -> spec_float := SFmul prec emax.
Definition of_int (z : Z) : spec_float := float_of_int prec emax z.
(** The promotion [float -> double] of the usual arithmetic conversions;
    every binary32 value is a binary64 value, so nothing is rounded. *)
Definition to_double (f : spec_float) : spec_float :=
  match f with
  | S754_finite s m e => binary_normalize Double.prec Double.emax (cond_Zopp s (Zpos m)) e s
  | _ => f
  end.
End Float.

(** Conversion of a floating value to [int]: the fractional part is
    discarded (truncation toward zero); the behaviour is undefined when the
    truncated value is not representable, and for NaN and the infinities. *)
Definition trunc_float (f : spec_float) : option Z :=
  match f with
  | S754_zero _ => Some 0
  | S754_finite s m e =>
      Some (cond_Zopp s (match e with
                         | Zneg k => Z.shiftr (Zpos m) (Zpos k)
                         | _ => Z.shiftl (Zpos m) e
                         end))
  | _ => None
  end.

Definition int_of_float (f : spec_float) : option Z :=
  z ← trunc_float f; int_checked z.

(** ** Data model *)

Inductive wl_output_transform :=
  | WL_OUTPUT_TRANSFORM_NORMAL
  | WL_OUTPUT_TRANSFORM_90
  | WL_OUTPUT_TRANSFORM_180
  | WL_OUTPUT_TRANSFORM_270
  | WL_OUTPUT_TRANSFORM_FLIPPED
  | WL_OUTPUT_TRANSFORM_FLIPPED_90
  | WL_OUTPUT_TRANSFORM_FLIPPED_180
  | WL_OUTPUT_TRANSFORM_FLIPPED_270.

(** Modelled from the spec: wlroots' [wlr_output_transform_invert] (not under
    src/), "the inverse of the surface's committed output-transform": the
    two unflipped quarter turns swap, every other transform is its own
    inverse. *)
Definition wlr_output_transform_invert (tr : wl_output_transform) : wl_output_transform :=
  match tr with
  | WL_OUTPUT_TRANSFORM_90 => WL_OUTPUT_TRANSFORM_270
  | WL_OUTPUT_TRANSFORM_270 => WL_OUTPUT_TRANSFORM_90
  | _ => tr
  end.

Record timespec := { tv_sec : Z; tv_nsec : Z }.

(** Pointers into the C heap and opaque wlroots handles. *)
Definition addr := positive.

Record wlr_surface_state := {
  current_width : Z;
  current_height : Z;
  current_transform : wl_output_transform;
}.

(** [struct wlr_surface], as far as output.c reads it. [surface_has_buffer]
    and [surface_texture] are what [wlr_surface_has_buffer] and
    [wlr_surface_get_texture] answer for it. *)
Record wlr_surface := {
  surface_id : addr;
  surface_has_buffer : bool;
  surface_texture : option addr;
  surface_current : wlr_surface_state;
  surface_renderer : addr;
}.

#[global] Instance wl_output_transform_eq_dec : EqDecision wl_output_transform.
Proof. solve_decision. Defined.
#[global] Instance wlr_surface_state_eq_dec : EqDecision wlr_surface_state.
Proof. solve_decision. Defined.
#[global] Instance wlr_surface_eq_dec : EqDecision wlr_surface.
Proof. solve_decision. Defined.

Definition wlr_surface_has_buffer (s : wlr_surface) : bool := surface_has_buffer s.
Definition wlr_surface_get_texture (s : wlr_surface) : option addr := surface_texture s.

(** The surface tree hanging off an xdg surface: a surface with its
    sub-surfaces (and popups), each at an offset from its parent. *)
#[local] Unset Elimination Schemes.
Inductive surface_tree :=
  | SurfaceNode (s : wlr_surface) (children : list (Z * Z * surface_tree)).

#[local] Set Elimination Schemes.

Record wlr_xdg_surface := { xdg_tree : surface_tree }.

Inductive cg_view_type :=
  | CAGE_XDG_SHELL_VIEW
  | CAGE_OTHER_VIEW (tag : Z).

Record cg_view := {
  view_type : cg_view_type;
  view_x : Z;
  view_y : Z;
  view_xdg_surface : wlr_xdg_surface;
}.

Record wlr_output_mode := {
  mode_width : Z;
  mode_height : Z;
  mode_refresh : Z;
}.

(** A [struct wl_listener] is identified by the object that embeds it. *)
Inductive listener :=
  | server_new_output
  | output_frame (o : addr)
  | output_destroy (o : addr).

#[global] Instance listener_eq_dec : EqDecision listener.
Proof. solve_decision. Defined.

(** The functions of output.c that are installed as [notify] callbacks. *)
Inductive notify_func :=
  | fn_handle_new_output
  | fn_handle_output_frame
  | fn_handle_output_destroy.

(** [struct wlr_output]; a [wl_signal] is the list of its listeners, in the
    order [wl_signal_add] appended them. *)
Record wlr_output := {
  output_name : string;
  output_modes : list wlr_output_mode;
  output_current_mode : option wlr_output_mode;
  output_width : Z;
  output_height : Z;
  output_scale : spec_float;
  output_transform : wl_output_transform;
  events_frame : list listener;
  events_destroy : list listener;
}.

(** [struct cg_output]. The back-reference to the only [cg_server] is
    implicit. *)
Record cg_output := {
  cg_wlr_output : option addr;
  frame_notify : option notify_func;
  destroy_notify : option notify_func;
}.

Record wlr_output_layout_output := {
  lo_output : addr;
  lo_x : Z;
  lo_y : Z;
}.

(** [struct cg_server]; [views] is the wl_list of views, head first. *)
Record cg_server := {
  backend_renderer : addr;
  output_layout : list wlr_output_layout_output;
  views : list cg_view;
  output : option addr;
  new_output_notify : option notify_func;
}.

Inductive wlr_log_importance := WLR_ERROR | WLR_INFO | WLR_DEBUG.

Record wlr_box := { box_x : Z; box_y : Z; box_width : Z; box_height : Z }.

(** The matrix [wlr_matrix_project_box] builds, kept symbolic: the box, the
    texture transform, the rotation and the output whose [transform_matrix]
    is the projection. *)
Record matrix := {
  matrix_box : wlr_box;
  matrix_transform : wl_output_transform;
  matrix_rotation : Z;
  matrix_projection : addr;
}.

(** Calls into wlroots, libwayland and libc that act on the outside world,
    in the order they are made. *)
Inductive call :=
  | wlr_log (lvl : wlr_log_importance) (fmt : string)
  | wlr_output_make_current (o : addr) (ok : bool)
  | clock_gettime (now : timespec)
  | wlr_renderer_begin (r : addr) (width height : Z)
  | wlr_renderer_clear (r : addr) (color : list spec_float)
  | wlr_render_texture_with_matrix (r : addr) (texture : addr) (m : matrix) (alpha : Z)
  | wlr_surface_send_frame_done (s : addr) (when : timespec)
  | wlr_renderer_end (r : addr)
  | wlr_output_swap_buffers (o : addr)
  | wlr_output_set_mode (o : addr) (mode : wlr_output_mode)
  | wlr_output_layout_add_auto (o : addr)
  | wlr_xcursor_manager_load (scale : spec_float) (ret : Z)
  | wlr_xcursor_manager_set_cursor_image (name : string)
  | wlr_cursor_warp (x y : Z)
  | free (p : addr)
  | wl_display_terminate.

(** What the outside world answers: whether the k-th query finds the
    rendering context available, what CLOCK_MONOTONIC reads, and what
    loading the cursor theme returns. *)
Record environment := {
  env_make_current : nat -> bool;
  env_clock : nat -> timespec;
  env_xcursor_load : nat -> Z;
  env_effective_resolution : wlr_output -> Z * Z;
}.

Record world := {
  w_server : cg_server;
  w_heap : gmap addr cg_output;
  w_devices : gmap addr wlr_output;
  w_backend_new_output : list listener;
  w_display_running : bool;
  w_calls : list call;
  w_env : environment;
  w_queries : nat;
}.

(** ** The state-and-fault monad of the handlers *)

Inductive fault :=
  | invalid_pointer        (* a freed or never allocated object is accessed *)
  | null_callback          (* a NULL [notify] is called *)
  | undefined_arithmetic.  (* signed overflow, unrepresentable conversion *)

Inductive outcome (A : Type) :=
  | Ok (a : A) (w : world)
  | Fault (f : fault).
Arguments Ok {A} a w.
Arguments Fault {A} f.

Definition M (A : Type) : Type := world -> outcome A.

#[global] Instance M_ret : MRet M := fun A a w => Ok a w.
#[global] Instance M_bind : MBind M := fun A B k c w =>
  match c w with
  | Ok a w' => k a w'
  | Fault f => Fault f
  end.

Definition fail {A} (f : fault) : M A := fun _ => Fault f.
Definition get : M world := fun w => Ok w w.
Definition put (w' : world) : M unit := fun _ => Ok tt w'.
Definition lift {A} (f : fault) (o : option A) : M A :=
  match o with
  | Some a => mret a
  | None => fail f
  end.

Definition set_server (s : cg_server) (w : world) : world :=
  {| w_server := s; w_heap := w_heap w; w_devices := w_devices w;
     w_backend_new_output := w_backend_new_output w;
     w_display_running := w_display_running w; w_calls := w_calls w;
     w_env := w_env w; w_queries := w_queries w |}.

Definition set_heap (h : gmap addr cg_output) (w : world) : world :=
  {| w_server := w_server w; w_heap := h; w_devices := w_devices w;
     w_backend_new_output := w_backend_new_output w;
     w_display_running := w_display_running w; w_calls := w_calls w;
     w_env := w_env w; w_queries := w_queries w |}.

Definition set_devices (d : gmap addr wlr_output) (w : world) : world :=
  {| w_server := w_server w; w_heap := w_heap w; w_devices := d;
     w_backend_new_output := w_backend_new_output w;
     w_display_running := w_display_running w; w_calls := w_calls w;
     w_env := w_env w; w_queries := w_queries w |}.

Definition set_backend_new_output (l : list listener) (w : world) : world :=
  {| w_server := w_server w; w_heap := w_heap w; w_devices := w_devices w;
     w_backend_new_output := l;
     w_display_running := w_display_running w; w_calls := w_calls w;
     w_env := w_env w; w_queries := w_queries w |}.

Definition set_display_running (b : bool) (w : world) : world :=
  {| w_server := w_server w; w_heap := w_heap w; w_devices := w_devices w;
     w_backend_new_output := w_backend_new_output w;
     w_display_running := b; w_calls := w_calls w;
     w_env := w_env w; w_queries := w_queries w |}.

Definition set_calls (c : list call) (w : world) : world :=
  {| w_server := w_server w; w_heap := w_heap w; w_devices := w_devices w;
     w_backend_new_output := w_backend_new_output w;
     w_display_running := w_display_running w; w_calls := c;
     w_env := w_env w; w_queries := w_queries w |}.

Definition set_queries (n : nat) (w : world) : world :=
  {| w_server := w_server w; w_heap := w_heap w; w_devices := w_devices w;
     w_backend_new_output := w_backend_new_output w;
     w_display_running := w_display_running w; w_calls := w_calls w;
     w_env := w_env w; w_queries := n |}.

Definition modify (f : world -> world) : M unit := fun w => Ok tt (f w).

(** A call is appended to the record of calls. *)
Definition do_call (c : call) : M unit :=
  modify (fun w => set_calls (w_calls w ++ [c]) w).

(** A question to the outside world uses up one answer. *)
Definition ask {A} (q : environment -> nat -> A) : M A := fun w =>
  Ok (q (w_env w) (w_queries w)) (set_queries (S (w_queries w)) w).

(** Dereferencing a [struct cg_output *] and a [struct wlr_output *]. *)
Definition load_output (o : addr) : M cg_output :=
  w ← get; lift invalid_pointer (w_heap w !! o).
Definition load_device (d : addr) : M wlr_output :=
  w ← get; lift invalid_pointer (w_devices w !! d).
Definition store_output (o : addr) (f : cg_output -> cg_output) : M unit :=
  _ ← load_output o; modify (fun w => set_heap (alter f o (w_heap w)) w).
Definition store_device (d : addr) (f : wlr_output -> wlr_output) : M unit :=
  _ ← load_device d; modify (fun w => set_devices (alter f d (w_devices w)) w).
Definition get_server : M cg_server := w ← get; mret (w_server w).
Definition store_server (f : cg_server -> cg_server) : M unit :=
  modify (fun w => set_server (f (w_server w)) w).

(** [for] loops over a list. *)
Fixpoint for_each {A} (l : list A) (body : A -> M unit) : M unit :=
  match l with
  | [] => mret tt
  | a :: l' => _ ← body a; for_each l' body
  end.

(** ** Rendering (output.c, lines 27-120) *)

(** [struct render_data]. [view] is filled in by the frame handler's loop;
    [when] and [output_layout] point to objects that do not change during a
    frame and are held by value. *)
Record render_data := {
  rd_output_layout : list wlr_output_layout_output;
  rd_output : addr;
  rd_view : option cg_view;
  rd_when : timespec;
}.

Definition set_rd_view (v : cg_view) (rdata : render_data) : render_data :=
  {| rd_output_layout := rd_output_layout rdata; rd_output := rd_output rdata;
     rd_view := Some v; rd_when := rd_when rdata |}.

(** Modelled from the spec: wlroots' [wlr_output_layout_output_coords] (not
    under src/), the layout service's "coords_in_layout(device) -> (x,y)",
    which "resolve[s] the output's origin within the shared layout";
    [lo_x], [lo_y] are the coordinates it resolves for the output. The values
    passed in are left as they are for an output that is not in the layout. *)
Definition wlr_output_layout_output_coords (layout : list wlr_output_layout_output)
    (reference : addr) (lx ly : spec_float) : spec_float * spec_float :=
  match List.find (fun l => Pos.eqb (lo_output l) reference) layout with
  | Some l => (Double.of_int (lo_x l), Double.of_int (lo_y l))
  | None => (lx, ly)
  end.

(** The [struct wlr_box] initialiser of [render_surface]: [ox], [oy] are
    [double], [scale] is [float], the members are [int]. *)
Definition surface_box (ox oy : spec_float) (scale : spec_float)
    (current : wlr_surface_state) : option wlr_box :=
  x ← int_of_float (Double.mul ox (Float.to_double scale));
  y ← int_of_float (Double.mul oy (Float.to_double scale));
  width ← int_of_float (Float.mul (Float.of_int (current_width current)) scale);
  height ← int_of_float (Float.mul (Float.of_int (current_height current)) scale);
  Some {| box_x := x; box_y := y; box_width := width; box_height := height |}.

Definition render_surface (surface : wlr_surface) (sx sy : Z) (rdata : render_data) : M unit :=
  let view := rd_view rdata in
  let output := rd_output rdata in
  if negb (wlr_surface_has_buffer surface) then mret tt
  else
    match wlr_surface_get_texture surface with
    | None => do_call (wlr_log WLR_DEBUG "Cannot obtain surface texture")
    | Some texture =>
        let '(ox, oy) :=
          wlr_output_layout_output_coords (rd_output_layout rdata) output
            Double.zero Double.zero in
        view ← lift invalid_pointer view;
        dx ← lift undefined_arithmetic (int_add (view_x view) sx);
        dy ← lift undefined_arithmetic (int_add (view_y view) sy);
        let ox := Double.add ox (Double.of_int dx) in
        let oy := Double.add oy (Double.of_int dy) in
        out ← load_device output;
        box ← lift undefined_arithmetic
                (surface_box ox oy (output_scale out) (surface_current surface));
        let transform :=
          wlr_output_transform_invert (current_transform (surface_current surface)) in
        let matrix :=
          {| matrix_box := box; matrix_transform := transform;
             matrix_rotation := 0; matrix_projection := output |} in
        do_call (wlr_render_texture_with_matrix (surface_renderer surface) texture matrix 1);;
        do_call (wlr_surface_send_frame_done (surface_id surface) (rd_when rdata))
    end.

(** Modelled from the spec: wlroots' [wlr_xdg_surface_for_each_surface] (not
    under src/), which "recursively visits every drawable surface belonging
    to [view]'s content-item tree, in depth order, calling
    [visitor(surface, offset_x, offset_y)] for each, where the offset is the
    surface's position relative to the view's root surface". *)
Fixpoint surface_for_each_surface (t : surface_tree) (x y : Z) : list (wlr_surface * Z * Z) :=
  match t with
  | SurfaceNode s children =>
      (s, x, y) ::
      flat_map (fun c => surface_for_each_surface c.2 (x + c.1.1) (y + c.1.2)) children
  end.

Definition wlr_surface_iterator_func_t : Type := wlr_surface -> Z -> Z -> render_data -> M unit.

Definition wlr_xdg_surface_for_each_surface (xdg : wlr_xdg_surface)
    (iterator : wlr_surface_iterator_func_t) (rdata : render_data) : M unit :=
  for_each (surface_for_each_surface (xdg_tree xdg) 0 0)
    (fun v => iterator v.1.1 v.1.2 v.2 rdata).

Definition view_for_each_surface (view : cg_view) (rdata : render_data)
    (iterator : wlr_surface_iterator_func_t) : M unit :=
  match view_type view with
  | CAGE_XDG_SHELL_VIEW =>
      wlr_xdg_surface_for_each_surface (view_xdg_surface view) iterator rdata
  | _ => do_call (wlr_log WLR_ERROR "Unrecognized view type: %d")
  end.

(** [wl_container_of(listener, output, frame)] and its [destroy] twin. *)
Definition container_of_frame (l : listener) : M addr :=
  match l with
  | output_frame o => mret o
  | _ => fail invalid_pointer
  end.
Definition container_of_destroy (l : listener) : M addr :=
  match l with
  | output_destroy o => mret o
  | _ => fail invalid_pointer
  end.

(** {0.3, 0.3, 0.3, 1.0} as binary32 values. *)
Definition clear_color : list spec_float :=
  [ S754_finite false 10066330 (-25); S754_finite false 10066330 (-25);
    S754_finite false 10066330 (-25); S754_finite false 8388608 (-23) ].

Definition handle_output_frame (l : listener) : M unit :=
  o ← container_of_frame l;
  output ← load_output o;
  server ← get_server;
  let renderer := backend_renderer server in
  wlr_out ← lift invalid_pointer (cg_wlr_output output);
  _ ← load_device wlr_out;
  ok ← ask env_make_current;
  do_call (wlr_output_make_current wlr_out ok);;
  if negb ok then do_call (wlr_log WLR_DEBUG "Cannot make damage output current")
  else
    now ← ask env_clock;
    do_call (clock_gettime now);;
    dev ← load_device wlr_out;
    w ← get;
    let '(width, height) := env_effective_resolution (w_env w) dev in
    do_call (wlr_renderer_begin renderer width height);;
    do_call (wlr_renderer_clear renderer clear_color);;
    let rdata :=
      {| rd_output_layout := output_layout server; rd_output := wlr_out;
         rd_view := None; rd_when := now |} in
    for_each (rev (views server))
      (fun view => view_for_each_surface view (set_rd_view view rdata) render_surface);;
    do_call (wlr_renderer_end renderer);;
    do_call (wlr_output_swap_buffers wlr_out).

(** ** Output lifecycle (output.c, lines 122-177) *)

Definition remove_listener (l : listener) (ls : list listener) : list listener :=
  filter (fun l' => l' ≠ l) ls.

Definition device_remove_listener (l : listener) (d : wlr_output) : wlr_output :=
  {| output_name := output_name d; output_modes := output_modes d;
     output_current_mode := output_current_mode d;
     output_width := output_width d; output_height := output_height d;
     output_scale := output_scale d; output_transform := output_transform d;
     events_frame := remove_listener l (events_frame d);
     events_destroy := remove_listener l (events_destroy d) |}.

(** Whether the link of a listener is in some signal's list. *)
Definition linked (l : listener) (w : world) : Prop :=
  l ∈ w_backend_new_output w ∨
  map_Exists (fun _ d => l ∈ events_frame d ∨ l ∈ events_destroy d) (w_devices w).

#[global] Instance linked_dec l w : Decision (linked l w).
Proof. unfold linked. apply _. Defined.

(** libwayland's [wl_list_remove] on the link of a listener: the link
    leaves the list it is in. On a link that is in no list (zeroed, or
    removed before) it dereferences NULL. *)
Definition unlink (l : listener) (w : world) : world :=
  set_backend_new_output (remove_listener l (w_backend_new_output w))
    (set_devices (device_remove_listener l <$> w_devices w) w).

Definition wl_list_remove (l : listener) : M unit :=
  w ← get;
  if decide (linked l w) then modify (unlink l) else fail invalid_pointer.

Definition set_events_frame (ls : list listener) (d : wlr_output) : wlr_output :=
  {| output_name := output_name d; output_modes := output_modes d;
     output_current_mode := output_current_mode d;
     output_width := output_width d; output_height := output_height d;
     output_scale := output_scale d; output_transform := output_transform d;
     events_frame := ls; events_destroy := events_destroy d |}.

Definition set_events_destroy (ls : list listener) (d : wlr_output) : wlr_output :=
  {| output_name := output_name d; output_modes := output_modes d;
     output_current_mode := output_current_mode d;
     output_width := output_width d; output_height := output_height d;
     output_scale := output_scale d; output_transform := output_transform d;
     events_frame := events_frame d; events_destroy := ls |}.

(** libwayland's [wl_signal_add] on [wlr_output->events.frame] and
    [wlr_output->events.destroy]: the listener goes to the end of the list. *)
Definition wl_signal_add_frame (d : addr) (l : listener) : M unit :=
  store_device d (fun dev => set_events_frame (events_frame dev ++ [l]) dev).
Definition wl_signal_add_destroy (d : addr) (l : listener) : M unit :=
  store_device d (fun dev => set_events_destroy (events_destroy dev ++ [l]) dev).

Definition set_output (o : option addr) (s : cg_server) : cg_server :=
  {| backend_renderer := backend_renderer s; output_layout := output_layout s;
     views := views s; output := o; new_output_notify := new_output_notify s |}.

Definition set_output_layout (l : list wlr_output_layout_output) (s : cg_server) : cg_server :=
  {| backend_renderer := backend_renderer s; output_layout := l;
     views := views s; output := output s; new_output_notify := new_output_notify s |}.

Definition set_views (vs : list cg_view) (s : cg_server) : cg_server :=
  {| backend_renderer := backend_renderer s; output_layout := output_layout s;
     views := vs; output := output s; new_output_notify := new_output_notify s |}.

Definition handle_output_destroy (l : listener) : M unit :=
  o ← container_of_destroy l;
  _ ← load_output o;
  wl_list_remove (output_destroy o);;
  wl_list_remove (output_frame o);;
  do_call (free o);;
  modify (fun w => set_heap (delete o (w_heap w)) w);;
  store_server (set_output None);;
  (* Since there is no use in continuing without our (single) output,
     terminate. *)
  do_call wl_display_terminate;;
  modify (set_display_running false).

(** Modelled from the spec: wlroots' [wlr_output_set_mode] (not under src/);
    the device takes the mode and its resolution becomes the mode's (the
    spec's scenario: a device whose selected mode is 1080p is "a 1920x1080
    device"). *)
Definition wlr_output_update_mode (mode : wlr_output_mode) (d : wlr_output) : wlr_output :=
  {| output_name := output_name d; output_modes := output_modes d;
     output_current_mode := Some mode;
     output_width := mode_width mode; output_height := mode_height mode;
     output_scale := output_scale d; output_transform := output_transform d;
     events_frame := events_frame d; events_destroy := events_destroy d |}.

(** Modelled from the spec: the macro DEFAULT_XCURSOR of seat.h (not under
    src/), "the default cursor image". *)
Definition DEFAULT_XCURSOR : string := "left_ptr".

(** [calloc(1, sizeof(struct cg_output))]: a zeroed record at an address
    that is not in use. Allocation is taken to succeed; the handler with a
    failing allocation is [handle_new_output_alloc] below. *)
Definition calloc_cg_output : M addr :=
  w ← get;
  let o := fresh (dom (w_heap w)) in
  modify (set_heap (<[o := {| cg_wlr_output := None; frame_notify := None;
                             destroy_notify := None |}]> (w_heap w)));;
  mret o.

Definition set_cg_wlr_output (d : addr) (o : cg_output) : cg_output :=
  {| cg_wlr_output := Some d; frame_notify := frame_notify o;
     destroy_notify := destroy_notify o |}.
Definition set_frame_notify (f : notify_func) (o : cg_output) : cg_output :=
  {| cg_wlr_output := cg_wlr_output o; frame_notify := Some f;
     destroy_notify := destroy_notify o |}.
Definition set_destroy_notify (f : notify_func) (o : cg_output) : cg_output :=
  {| cg_wlr_output := cg_wlr_output o; frame_notify := frame_notify o;
     destroy_notify := Some f |}.

(** Modelled from the spec: wlroots' [wlr_output_layout_add_auto] (not under
    src/), which registers the device "using an automatic-placement policy
    (single-output case: origin at (0,0))". Only the single-output case is
    specified; the device is entered at the origin. *)
Definition layout_add_auto (d : addr) (layout : list wlr_output_layout_output)
    : list wlr_output_layout_output :=
  layout ++ [{| lo_output := d; lo_x := 0; lo_y := 0 |}].

(** libwayland's [wl_list_empty]. *)
Definition wl_list_empty {A} (l : list A) : bool :=
  match l with
  | [] => true
  | _ => false
  end.

(** [server->output], dereferenced. *)
Definition server_output : M addr :=
  s ← get_server; lift invalid_pointer (output s).

Definition handle_new_output (l : listener) (data : addr) : M unit :=
  match l with
  | server_new_output =>
      let wlr_out := data in
      dev ← load_device wlr_out;
      (* On outputs that have modes, we need to set one before we can use
         it.  We just pick the last. *)
      (if negb (wl_list_empty (output_modes dev))
       then
         mode ← lift invalid_pointer (last (output_modes dev));
         do_call (wlr_output_set_mode wlr_out mode);;
         store_device wlr_out (wlr_output_update_mode mode)
       else mret tt);;
      p ← calloc_cg_output;
      store_server (set_output (Some p));;
      o ← server_output; store_output o (set_cg_wlr_output wlr_out);;
      o ← server_output; store_output o (set_frame_notify fn_handle_output_frame);;
      o ← server_output; wl_signal_add_frame wlr_out (output_frame o);;
      o ← server_output; store_output o (set_destroy_notify fn_handle_output_destroy);;
      o ← server_output; wl_signal_add_destroy wlr_out (output_destroy o);;
      do_call (wlr_output_layout_add_auto wlr_out);;
      store_server (fun s => set_output_layout (layout_add_auto wlr_out (output_layout s)) s);;
      (* Disconnect the signal now, because we only use one static output. *)
      wl_list_remove server_new_output;;
      dev ← load_device wlr_out;
      r ← ask env_xcursor_load;
      do_call (wlr_xcursor_manager_load (output_scale dev) r);;
      (if negb (r =? 0)
       then do_call (wlr_log WLR_ERROR
                       "Cannot load XCursor theme for output '%s' with scale %f")
       else mret tt);;
      do_call (wlr_xcursor_manager_set_cursor_image DEFAULT_XCURSOR);;
      (* Place the cursor in the center of the screen. *)
      do_call (wlr_cursor_warp (Z.quot (output_width dev) 2) (Z.quot (output_height dev) 2))
  | _ => fail invalid_pointer
  end.

(** Line 153 does not check what [calloc] returns. [handle_new_output]
    above is the handler when the allocation succeeds;
    [handle_new_output_alloc] is the handler with both outcomes of the
    allocation: when memory is exhausted [calloc] returns NULL, which is
    stored in [server->output] and dereferenced at line 154. *)
Definition calloc_or_null (exhausted : bool) : M (option addr) :=
  if exhausted then mret None else p ← calloc_cg_output; mret (Some p).

Definition handle_new_output_alloc (exhausted : bool) (l : listener) (data : addr)
    : M unit :=
  match l with
  | server_new_output =>
      let wlr_out := data in
      dev ← load_device wlr_out;
      (if negb (wl_list_empty (output_modes dev))
       then
         mode ← lift invalid_pointer (last (output_modes dev));
         do_call (wlr_output_set_mode wlr_out mode);;
         store_device wlr_out (wlr_output_update_mode mode)
       else mret tt);;
      p ← calloc_or_null exhausted;
      store_server (set_output p);;
      o ← server_output; store_output o (set_cg_wlr_output wlr_out);;
      o ← server_output; store_output o (set_frame_notify fn_handle_output_frame);;
      o ← server_output; wl_signal_add_frame wlr_out (output_frame o);;
      o ← server_output; store_output o (set_destroy_notify fn_handle_output_destroy);;
      o ← server_output; wl_signal_add_destroy wlr_out (output_destroy o);;
      do_call (wlr_output_layout_add_auto wlr_out);;
      store_server (fun s => set_output_layout (layout_add_auto wlr_out (output_layout s)) s);;
      wl_list_remove server_new_output;;
      dev ← load_device wlr_out;
      r ← ask env_xcursor_load;
      do_call (wlr_xcursor_manager_load (output_scale dev) r);;
      (if negb (r =? 0)
       then do_call (wlr_log WLR_ERROR
                       "Cannot load XCursor theme for output '%s' with scale %f")
       else mret tt);;
      do_call (wlr_xcursor_manager_set_cursor_image DEFAULT_XCURSOR);;
      do_call (wlr_cursor_warp (Z.quot (output_width dev) 2) (Z.quot (output_height dev) 2))
  | _ => fail invalid_pointer
  end.

(** ** Signal delivery *)

(** The [notify] member of a listener, read through the object that
    embeds it. *)
Definition listener_notify (l : listener) : M notify_func :=
  match l with
  | server_new_output => s ← get_server; lift null_callback (new_output_notify s)
  | output_frame o => out ← load_output o; lift null_callback (frame_notify out)
  | output_destroy o => out ← load_output o; lift null_callback (destroy_notify out)
  end.

Definition notify (data : addr) (l : listener) : M unit :=
  f ← listener_notify l;
  match f with
  | fn_handle_new_output => handle_new_output l data
  | fn_handle_output_frame => handle_output_frame l
  | fn_handle_output_destroy => handle_output_destroy l
  end.

(** libwayland's [wl_signal_emit]: every listener that is on the list when
    the signal is emitted is notified, in order. *)
Definition wl_signal_emit (listeners : list listener) (data : addr) : M unit :=
  for_each listeners (notify data).

(** What the backend delivers: a device was attached, a device wants a
    frame, a device is going away. *)
Inductive notification :=
  | new_output_event (d : addr)
  | frame_event (d : addr)
  | destroy_event (d : addr).

Definition deliver (n : notification) : M unit :=
  match n with
  | new_output_event d => w ← get; wl_signal_emit (w_backend_new_output w) d
  | frame_event d => dev ← load_device d; wl_signal_emit (events_frame dev) d
  | destroy_event d => dev ← load_device d; wl_signal_emit (events_destroy dev) d
  end.

(** ** What a tick is expected to call *)

(** A surface is drawn when it has a committed buffer and its texture can be
    obtained; these are the two guards of [render_surface]. *)
Definition drawable (s : wlr_surface) : bool :=
  wlr_surface_has_buffer s && bool_decide (is_Some (wlr_surface_get_texture s)).

(** Lines 53-62 of [render_surface] as one function of the layout, the
    output, its scale, the view, the offset and the committed state. *)
Definition placement (layout : list wlr_output_layout_output) (d : addr)
    (scale : spec_float) (v : cg_view) (sx sy : Z) (current : wlr_surface_state)
    : option wlr_box :=
  let '(ox, oy) := wlr_output_layout_output_coords layout d Double.zero Double.zero in
  dx ← int_add (view_x v) sx;
  dy ← int_add (view_y v) sy;
  surface_box (Double.add ox (Double.of_int dx)) (Double.add oy (Double.of_int dy))
    scale current.

(** The surfaces a view yields to the iterator, with their offsets. *)
Definition yielded (v : cg_view) : list (wlr_surface * Z * Z) :=
  match view_type v with
  | CAGE_XDG_SHELL_VIEW => surface_for_each_surface (xdg_tree (view_xdg_surface v)) 0 0
  | _ => []
  end.

(** The placement of every surface that is to be drawn is defined. *)
Definition placements_defined (layout : list wlr_output_layout_output) (d : addr)
    (scale : spec_float) (vs : list cg_view) : Prop :=
  Forall (fun v =>
    Forall (fun e : wlr_surface * Z * Z =>
      drawable e.1.1 = true ->
      is_Some (placement layout d scale v e.1.2 e.2 (surface_current e.1.1)))
      (yielded v)) vs.

#[global] Instance placements_defined_dec layout d scale vs :
  Decision (placements_defined layout d scale vs).
Proof. unfold placements_defined. apply _. Defined.

(** The calls a handler added to the record. *)
Definition calls_since (w w' : world) : list call :=
  drop (length (w_calls w)) (w_calls w').

Definition is_frame_done (c : call) : bool :=
  match c with
  | wlr_surface_send_frame_done _ _ => true
  | _ => false
  end.

Definition is_draw (c : call) : bool :=
  match c with
  | wlr_render_texture_with_matrix _ _ _ _ => true
  | _ => false
  end.

(** The two calls [render_surface] makes for a surface it draws. *)
Definition draw_calls (d : addr) (when : timespec) (s : wlr_surface) (texture : addr)
    (box : wlr_box) : list call :=
  [ wlr_render_texture_with_matrix (surface_renderer s) texture
      {| matrix_box := box;
         matrix_transform :=
           wlr_output_transform_invert (current_transform (surface_current s));
         matrix_rotation := 0; matrix_projection := d |} 1;
    wlr_surface_send_frame_done (surface_id s) when ].

(** The calls of one [render_surface]; [None] when the placement is
    undefined. *)
Definition surface_calls (layout : list wlr_output_layout_output) (d : addr)
    (scale : spec_float) (when : timespec) (v : cg_view)
    (e : wlr_surface * Z * Z) : option (list call) :=
  let s := e.1.1 in
  if negb (wlr_surface_has_buffer s) then Some []
  else
    match wlr_surface_get_texture s with
    | None => Some [wlr_log WLR_DEBUG "Cannot obtain surface texture"]
    | Some texture =>
        box ← placement layout d scale v e.1.2 e.2 (surface_current s);
        Some (draw_calls d when s texture box)
    end.

Fixpoint concat_calls {A} (f : A -> option (list call)) (l : list A) : option (list call) :=
  match l with
  | [] => Some []
  | a :: l' => cs ← f a; cs' ← concat_calls f l'; Some (cs ++ cs')
  end.

Definition view_calls (layout : list wlr_output_layout_output) (d : addr)
    (scale : spec_float) (when : timespec) (v : cg_view) : option (list call) :=
  match view_type v with
  | CAGE_XDG_SHELL_VIEW =>
      concat_calls (surface_calls layout d scale when v)
        (surface_for_each_surface (xdg_tree (view_xdg_surface v)) 0 0)
  | _ => Some [wlr_log WLR_ERROR "Unrecognized view type: %d"]
  end.

Definition add_calls (cs : list call) (w : world) : world :=
  set_calls (w_calls w ++ cs) w.

Definition run_calls (o : option (list call)) (w : world) : outcome unit :=
  match o with
  | Some cs => Ok tt (add_calls cs w)
  | None => Fault undefined_arithmetic
  end.

(** The calls between [wlr_renderer_clear] and [wlr_renderer_end]. *)
Definition body_calls (layout : list wlr_output_layout_output) (d : addr)
    (scale : spec_float) (when : timespec) (vs : list cg_view) : option (list call) :=
  concat_calls (view_calls layout d scale when) (rev vs).

(** The calls of a whole tick in which the context was made current. *)
Definition frame_calls (w : world) (d : addr) (dev : wlr_output) : option (list call) :=
  let now := env_clock (w_env w) (S (w_queries w)) in
  let server := w_server w in
  let r := backend_renderer server in
  cs ← body_calls (output_layout server) d (output_scale dev) now (views server);
  Some ([ wlr_output_make_current d true; clock_gettime now;
          wlr_renderer_begin r (env_effective_resolution (w_env w) dev).1
            (env_effective_resolution (w_env w) dev).2;
          wlr_renderer_clear r clear_color ]
        ++ cs ++ [ wlr_renderer_end r; wlr_output_swap_buffers d ]).

Definition add_queries (n : nat) (w : world) : world :=
  set_queries (n + w_queries w) w.

(** The surfaces yielded during a tick, in the order they are visited. *)
Definition tick_yield (vs : list cg_view) : list wlr_surface :=
  flat_map (fun v => (fun e : wlr_surface * Z * Z => e.1.1) <$> yielded v) (rev vs).

Definition frame_done_calls (cs : list call) : list call :=
  filter (fun c => is_frame_done c) cs.

Definition draw_texture (c : call) : option addr :=
  match c with
  | wlr_render_texture_with_matrix _ texture _ _ => Some texture
  | _ => None
  end.

(** The textures drawn by a list of calls, in order. *)
Definition drawn_textures (cs : list call) : list addr := omap draw_texture cs.

Definition is_clock_gettime (c : call) : bool :=
  match c with
  | clock_gettime _ => true
  | _ => false
  end.

(** The calls that belong to a render pass. *)
Definition is_render_call (c : call) : bool :=
  match c with
  | wlr_renderer_begin _ _ _ | wlr_renderer_clear _ _
  | wlr_render_texture_with_matrix _ _ _ _ | wlr_surface_send_frame_done _ _
  | wlr_renderer_end _ | wlr_output_swap_buffers _ => true
  | _ => false
  end.

(** How many frame-done signals a list of calls sends to a surface. *)
Definition is_frame_done_for (s : addr) (c : call) : bool :=
  match c with
  | wlr_surface_send_frame_done s' _ => Pos.eqb s' s
  | _ => false
  end.

Definition frame_done_count (s : addr) (cs : list call) : nat :=
  length (filter (fun c => is_frame_done_for s c) cs).

(** The calls of one tick of the output embedding the listener. *)
Definition tick_calls (l : listener) (w : world) : option (list call) :=
  match handle_output_frame l w with
  | Ok _ w' => Some (calls_since w w')
  | Fault _ => None
  end.

(** ** Floats with exactly known values *)

(** [N] shifted left by [k] bits. *)
Definition shl (N : positive) (k : Z) : positive :=
  match k with
  | Zpos p => Pos.iter xO N p
  | _ => N
  end.

(** The number of binary digits of [N]. *)
Definition digits (N : positive) : Z := Zpos (digits2_pos N).

(** The float of sign [s] and magnitude [N * 2 ^ E], its mantissa brought to
    [prec] digits; [N] has at most [prec] digits. *)
Definition normal (prec : Z) (s : bool) (N : positive) (E : Z) : spec_float :=
  S754_finite s (shl N (prec - digits N)) (E - (prec - digits N)).

(** [n / 2 ^ k] with the fractional part discarded. *)
Definition trunc_div (n : Z) (k : Z) : Z := Z.quot n (2 ^ k).

(** ** What the lifecycle handlers are expected to leave behind *)

(** The record of an output that was claimed for a device. *)
Definition claim_record (d : addr) : cg_output :=
  {| cg_wlr_output := Some d;
     frame_notify := Some fn_handle_output_frame;
     destroy_notify := Some fn_handle_output_destroy |}.

(** The device after the mode selection of [handle_new_output], and the
    call the selection makes. *)
Definition select_mode (dev : wlr_output) : wlr_output :=
  match last (output_modes dev) with
  | Some mode => wlr_output_update_mode mode dev
  | None => dev
  end.

Definition select_mode_calls (d : addr) (dev : wlr_output) : list call :=
  match last (output_modes dev) with
  | Some mode => [wlr_output_set_mode d mode]
  | None => []
  end.

(** The device with the two listeners of output [o] added. *)
Definition subscribe (o : addr) (dev : wlr_output) : wlr_output :=
  set_events_destroy (events_destroy dev ++ [output_destroy o])
    (set_events_frame (events_frame dev ++ [output_frame o]) dev).

(** The world of [handle_new_output] just before it disconnects the
    new-output listener. *)
Definition claim (d : addr) (dev : wlr_output) (w : world) : world :=
  let o := fresh (dom (w_heap w)) in
  set_server
    (set_output_layout (layout_add_auto d (output_layout (w_server w)))
       (set_output (Some o) (w_server w)))
    (set_heap (<[o := claim_record d]> (w_heap w))
       (set_devices (<[d := subscribe o (select_mode dev)]> (w_devices w))
          (add_calls (select_mode_calls d dev ++ [wlr_output_layout_add_auto d]) w))).

(** The calls that set up the cursor; [r] is what loading the theme
    returned. *)
Definition cursor_calls (dev : wlr_output) (r : Z) : list call :=
  [wlr_xcursor_manager_load (output_scale dev) r]
  ++ (if negb (r =? 0)
      then [wlr_log WLR_ERROR "Cannot load XCursor theme for output '%s' with scale %f"]
      else [])
  ++ [ wlr_xcursor_manager_set_cursor_image DEFAULT_XCURSOR;
       wlr_cursor_warp (Z.quot (output_width dev) 2) (Z.quot (output_height dev) 2) ].

(** The world [handle_new_output] leaves. *)
Definition attach (d : addr) (dev : wlr_output) (w : world) : world :=
  add_calls (cursor_calls (select_mode dev) (env_xcursor_load (w_env w) (w_queries w)))
    (set_queries (S (w_queries w)) (unlink server_new_output (claim d dev w))).

(** The world [handle_output_destroy] leaves. *)
Definition teardown (o : addr) (w : world) : world :=
  set_display_running false
    (add_calls [free o; wl_display_terminate]
       (set_server (set_output None (w_server w))
          (set_heap (delete o (w_heap w))
             (unlink (output_frame o) (unlink (output_destroy o) w))))).

Definition is_terminate (c : call) : bool :=
  match c with
  | wl_display_terminate => true
  | _ => false
  end.

Definition is_set_mode (c : call) : bool :=
  match c with
  | wlr_output_set_mode _ _ => true
  | _ => false
  end.

(** The state before the backend is started: the server listens for new
    outputs, nothing else is connected, no output exists. *)
Definition initial (w : world) : Prop :=
  w_heap w = ∅ /\
  output (w_server w) = None /\
  w_backend_new_output w = [server_new_output] /\
  map_Forall (fun _ dev => events_frame dev = [] /\ events_destroy dev = [])
    (w_devices w).

(** What can happen: the backend delivers a notification and the handlers
    return, view management changes the stack, the backend creates the
    object of a device. *)
Inductive step : world -> world -> Prop :=
  | step_deliver n w w' : deliver n w = Ok tt w' -> step w w'
  | step_views vs w : step w (set_server (set_views vs (w_server w)) w)
  | step_device d dev w :
      w_devices w !! d = None ->
      events_frame dev = [] -> events_destroy dev = [] ->
      step w (set_devices (<[d := dev]> (w_devices w)) w).

(** The invariant behind the single output. *)
Definition single_output (w : world) : Prop :=
  map_Forall (fun _ dev => (server_new_output ∉ events_frame dev) /\
                           (server_new_output ∉ events_destroy dev)) (w_devices w) /\
  (forall l, l ∈ w_backend_new_output w -> l = server_new_output) /\
  (server_new_output ∈ w_backend_new_output w -> w_heap w = ∅) /\
  (size (w_heap w) <= 1)%nat.

(** Modelled from the spec: the view-management collaborator (view.c, not
    under src/) "exposes the ordered view stack (iteration newest-first)": a
    view is inserted at the head of [server->views]. *)
Definition insert_view (v : cg_view) (vs : list cg_view) : list cg_view := v :: vs.

(** The stack after the views were inserted, in that order, into an empty
    one. *)
Definition stack_of (inserted : list cg_view) : list cg_view :=
  fold_left (fun vs v => insert_view v vs) inserted [].

(** A surface occurs in a surface tree. *)
Inductive in_tree (s : wlr_surface) : surface_tree -> Prop :=
  | in_tree_root children : in_tree s (SurfaceNode s children)
  | in_tree_child r x y c children :
      (x, y, c) ∈ children -> in_tree s c -> in_tree s (SurfaceNode r children).

(** ** A concrete session *)

Module Scenario.

Definition scale_1 : spec_float := S754_finite false 8388608 (-23).
Definition scale_1_5 : spec_float := S754_finite false 12582912 (-23).
Definition scale_2 : spec_float := S754_finite false 8388608 (-22).

Definition mode_720p : wlr_output_mode :=
  {| mode_width := 1280; mode_height := 720; mode_refresh := 60000 |}.
Definition mode_1080p : wlr_output_mode :=
  {| mode_width := 1920; mode_height := 1080; mode_refresh := 60000 |}.

Definition monitor (scale : spec_float) : wlr_output :=
  {| output_name := "HDMI-A-1"; output_modes := [mode_720p; mode_1080p];
     output_current_mode := None; output_width := 0; output_height := 0;
     output_scale := scale; output_transform := WL_OUTPUT_TRANSFORM_NORMAL;
     events_frame := []; events_destroy := [] |}.

Definition surface (id : addr) (has_buffer : bool) (texture : option addr)
    (width height : Z) : wlr_surface :=
  {| surface_id := id; surface_has_buffer := has_buffer; surface_texture := texture;
     surface_current := {| current_width := width; current_height := height;
                           current_transform := WL_OUTPUT_TRANSFORM_90 |};
     surface_renderer := 9%positive |}.

(** A toplevel with a texture, a sub-surface without a buffer and a
    sub-surface whose texture cannot be obtained. *)
Definition ready : wlr_surface := surface 20%positive true (Some 30%positive) 101 51.
Definition unmapped : wlr_surface := surface 21%positive false None 10 10.
Definition not_uploaded : wlr_surface := surface 22%positive true None 10 10.

Definition view_A : cg_view :=
  {| view_type := CAGE_XDG_SHELL_VIEW; view_x := 1; view_y := 3;
     view_xdg_surface :=
       {| xdg_tree := SurfaceNode ready [ (5, 7, SurfaceNode unmapped []);
                                          (6, 8, SurfaceNode not_uploaded []) ] |} |}.

Definition view_B : cg_view :=
  {| view_type := CAGE_XDG_SHELL_VIEW; view_x := 40; view_y := 30;
     view_xdg_surface :=
       {| xdg_tree := SurfaceNode (surface 23%positive true (Some 31%positive) 100 50) [] |} |}.

Definition view_odd : cg_view :=
  {| view_type := CAGE_OTHER_VIEW 7; view_x := 0; view_y := 0;
     view_xdg_surface := {| xdg_tree := SurfaceNode ready [] |} |}.

(** The context is refused the second time it is asked for. *)
Definition env : environment :=
  {| env_make_current := fun n => negb (Nat.eqb n 1);
     env_clock := fun n => {| tv_sec := Z.of_nat n; tv_nsec := 0 |};
     env_xcursor_load := fun _ => 0;
     env_effective_resolution := fun d => (output_width d, output_height d) |}.

(** The state before any device is attached; B was inserted after A. *)
Definition unclaimed (scale : spec_float) : world :=
  {| w_server := {| backend_renderer := 9%positive; output_layout := [];
                    views := [view_B; view_odd; view_A]; output := None;
                    new_output_notify := Some fn_handle_new_output |};
     w_heap := ∅;
     w_devices := {[ 5%positive := monitor scale ]};
     w_backend_new_output := [server_new_output];
     w_display_running := true;
     w_calls := []; w_env := env; w_queries := 0 |}.

(** The world in which a list of notifications has been delivered; a fault
    leaves the world where it was. *)
Definition after (ns : list notification) (w : world) : world :=
  match for_each ns deliver w with
  | Ok _ w' => w'
  | Fault _ => w
  end.

Definition active (scale : spec_float) : world :=
  after [new_output_event 5%positive] (unclaimed scale).

(** The records of the active state: the output at address 1 and the
    device with the last of its modes set. *)
Definition claimed : cg_output :=
  {| cg_wlr_output := Some 5%positive;
     frame_notify := Some fn_handle_output_frame;
     destroy_notify := Some fn_handle_output_destroy |}.

Definition attached (scale : spec_float) : wlr_output :=
  {| output_name := "HDMI-A-1"; output_modes := [mode_720p; mode_1080p];
     output_current_mode := Some mode_1080p;
     output_width := 1920; output_height := 1080;
     output_scale := scale; output_transform := WL_OUTPUT_TRANSFORM_NORMAL;
     events_frame := [output_frame 1%positive];
     events_destroy := [output_destroy 1%positive] |}.

(** [active] is about to have its context refused; [retrying] is the world
    after that tick. *)
Definition retrying (scale : spec_float) : world :=
  after [frame_event 5%positive] (active scale).

(** The world after the device went away. *)
Definition destroyed (scale : spec_float) : world :=
  after [destroy_event 5%positive] (active scale).

End Scenario.

(** ** Further readings of the record of calls *)

Definition is_log (c : call) : bool :=
  match c with
  | wlr_log _ _ => true
  | _ => false
  end.

Definition log_calls (cs : list call) : list call := filter (fun c => is_log c) cs.

(** The calls that [render_surface] and [view_for_each_surface] make. *)
Definition is_surface_call (c : call) : bool :=
  match c with
  | wlr_render_texture_with_matrix _ _ _ _ | wlr_surface_send_frame_done _ _
  | wlr_log _ _ => true
  | _ => false
  end.

(** A surface that reaches the second guard of [render_surface] and fails
    it: a buffer is committed, the texture cannot be obtained. *)
Definition texture_missing (s : wlr_surface) : bool :=
  wlr_surface_has_buffer s && negb (bool_decide (is_Some (wlr_surface_get_texture s))).

(** The log entries a view is expected to cause in one tick. *)
Definition view_logs (v : cg_view) : list call :=
  match view_type v with
  | CAGE_XDG_SHELL_VIEW =>
      flat_map (fun e : wlr_surface * Z * Z =>
                  if texture_missing e.1.1
                  then [wlr_log WLR_DEBUG "Cannot obtain surface texture"] else [])
        (surface_for_each_surface (xdg_tree (view_xdg_surface v)) 0 0)
  | _ => [wlr_log WLR_ERROR "Unrecognized view type: %d"]
  end.

(** What a call does to a surface: it draws a texture, or it tells the
    surface that its frame is done. *)
Inductive surface_event :=
  | drawn (texture : addr)
  | frame_done (s : addr).

Definition surface_event_of (c : call) : option surface_event :=
  match c with
  | wlr_render_texture_with_matrix _ texture _ _ => Some (drawn texture)
  | wlr_surface_send_frame_done s _ => Some (frame_done s)
  | _ => None
  end.

Definition surface_events (cs : list call) : list surface_event := omap surface_event_of cs.

(** The events expected for a surface that is yielded by the walk. *)
Definition events_of_surface (s : wlr_surface) : list surface_event :=
  if wlr_surface_has_buffer s then
    match wlr_surface_get_texture s with
    | Some texture => [drawn texture; frame_done (surface_id s)]
    | None => []
    end
  else [].

(** A call with its timestamp, if it has one, replaced. *)
Definition restamp (t : timespec) (c : call) : call :=
  match c with
  | clock_gettime _ => clock_gettime t
  | wlr_surface_send_frame_done s _ => wlr_surface_send_frame_done s t
  | _ => c
  end.

(** The calls of a tick in which the stack of views is empty. *)
Definition blank_frame (w : world) (d : addr) (dev : wlr_output) : list call :=
  [ wlr_output_make_current d true;
    clock_gettime (env_clock (w_env w) (S (w_queries w)));
    wlr_renderer_begin (backend_renderer (w_server w))
      (env_effective_resolution (w_env w) dev).1
      (env_effective_resolution (w_env w) dev).2;
    wlr_renderer_clear (backend_renderer (w_server w)) clear_color;
    wlr_renderer_end (backend_renderer (w_server w));
    wlr_output_swap_buffers d ].

(** ** Geometry within bounds *)

(** The output lies within 2^20 pixels of the origin of the layout, and so
    does every surface that is to be drawn, whose sides are below 2^14
    pixels. *)
Definition bounded_geometry (l : wlr_output_layout_output) (vs : list cg_view) : Prop :=
  Z.abs (lo_x l) <= 2 ^ 20 /\ Z.abs (lo_y l) <= 2 ^ 20 /\
  Forall (fun v =>
    Forall (fun e : wlr_surface * Z * Z =>
      drawable e.1.1 = true ->
      Z.abs (view_x v + e.1.2) <= 2 ^ 20 /\ Z.abs (view_y v + e.2) <= 2 ^ 20 /\
      0 <= current_width (surface_current e.1.1) < 2 ^ 14 /\
      0 <= current_height (surface_current e.1.1) < 2 ^ 14)
      (yielded v)) vs.

#[global] Instance bounded_geometry_dec l vs : Decision (bounded_geometry l vs).
Proof. unfold bounded_geometry. apply _. Defined.

(** ** The phases of a session *)

Inductive phase :=
  | Unclaimed               (* the server waits for its output *)
  | Active (o d : addr)     (* the output [o] drives the device [d] *)
  | Terminated.             (* the output is gone, the display was told to stop *)

(** No listener is connected to any of the devices. *)
Definition quiet (m : gmap addr wlr_output) : Prop :=
  map_Forall (fun _ dev => events_frame dev = [] /\ events_destroy dev = []) m.

Definition in_phase (p : phase) (w : world) : Prop :=
  new_output_notify (w_server w) = Some fn_handle_new_output /\
  match p with
  | Unclaimed => initial w /\ w_display_running w = true
  | Active o d =>
      w_heap w = {[ o := claim_record d ]} /\
      output (w_server w) = Some o /\
      w_backend_new_output w = [] /\
      (exists dev, w_devices w !! d = Some dev /\
                   events_frame dev = [output_frame o] /\
                   events_destroy dev = [output_destroy o]) /\
      quiet (delete d (w_devices w)) /\
      w_display_running w = true
  | Terminated =>
      w_heap w = ∅ /\ output (w_server w) = None /\ w_backend_new_output w = [] /\
      quiet (w_devices w) /\ w_display_running w = false
  end.

(** The order in which the phases can follow each other. *)
Definition follows (p p' : phase) : Prop :=
  match p, p' with
  | Unclaimed, _ => True
  | Active o d, Active o' d' => o = o' /\ d = d'
  | Active _ _, Terminated => True
  | Terminated, Terminated => True
  | _, _ => False
  end.

(** The device a notification is about. *)
Definition notification_device (n : notification) : addr :=
  match n with
  | new_output_event d | frame_event d | destroy_event d => d
  end.

(** A notification that makes [handle_new_output], the one handler that
    allocates, run: a device is attached while the server still listens for
    new outputs. *)
Definition reaches_allocation (n : notification) (w : world) : Prop :=
  match n with
  | new_output_event _ => server_new_output ∈ w_backend_new_output w
  | _ => False
  end.

(** ** Corner cases of a session *)

Module Corner.

(** A window of a nested backend: it advertises no modes and has a size of
    its own. *)
Definition window : wlr_output :=
  {| output_name := "WL-1"; output_modes := [];
     output_current_mode := None; output_width := 1281; output_height := 721;
     output_scale := Scenario.scale_2; output_transform := WL_OUTPUT_TRANSFORM_NORMAL;
     events_frame := []; events_destroy := [] |}.

(** The cursor theme cannot be loaded; the context is always granted. *)
Definition env : environment :=
  {| env_make_current := fun _ => true;
     env_clock := fun n => {| tv_sec := Z.of_nat n; tv_nsec := 500 |};
     env_xcursor_load := fun _ => 1;
     env_effective_resolution := fun d => (output_width d, output_height d) |}.

(** Nothing is attached, no view exists. *)
Definition unclaimed : world :=
  {| w_server := {| backend_renderer := 9%positive; output_layout := [];
                    views := []; output := None;
                    new_output_notify := Some fn_handle_new_output |};
     w_heap := ∅;
     w_devices := {[ 6%positive := window ]};
     w_backend_new_output := [server_new_output];
     w_display_running := true;
     w_calls := []; w_env := env; w_queries := 0 |}.

Definition active : world := Scenario.after [new_output_event 6%positive] unclaimed.

(** The window once it is claimed by the output at address 1. *)
Definition attached : wlr_output :=
  {| output_name := "WL-1"; output_modes := [];
     output_current_mode := None; output_width := 1281; output_height := 721;
     output_scale := Scenario.scale_2; output_transform := WL_OUTPUT_TRANSFORM_NORMAL;
     events_frame := [output_frame 1%positive];
     events_destroy := [output_destroy 1%positive] |}.

(** A second device is present when the first is attached. *)
Definition two_heads : world :=
  set_devices (<[7%positive := Scenario.monitor Scenario.scale_1]> (w_devices unclaimed))
    unclaimed.

(** A view at the right edge of the [int] range whose sub-surface lies one
    pixel further right. *)
Definition view_far : cg_view :=
  {| view_type := CAGE_XDG_SHELL_VIEW; view_x := INT_MAX; view_y := 0;
     view_xdg_surface :=
       {| xdg_tree := SurfaceNode Scenario.unmapped
                        [ (1, 0, SurfaceNode Scenario.ready []) ] |} |}.

Definition overflowing : world :=
  set_server (set_views [view_far] (w_server active)) active.

End Corner.

(** ** Reasoning about the monad *)

Lemma add_calls_nil w : add_calls [] w = w.
Proof. destruct w; unfold add_calls, set_calls; simpl. by rewrite app_nil_r. Qed.

Lemma add_calls_app cs cs' w : add_calls cs' (add_calls cs w) = add_calls (cs ++ cs') w.
Proof. unfold add_calls, set_calls; simpl. by rewrite app_assoc. Qed.

Lemma do_call_run c w : do_call c w = Ok tt (add_calls [c] w).
Proof. reflexivity. Qed.

Lemma bind_run {A B} (c : M A) (k : A -> M B) w :
  (c ≫= k) w = match c w with Ok a w' => k a w' | Fault f => Fault f end.
Proof. reflexivity. Qed.

#[global] Opaque do_call.

Lemma add_calls_set_queries cs n w :
  add_calls cs (set_queries n w) = set_queries n (add_calls cs w).
Proof. reflexivity. Qed.

Lemma set_queries_set_queries n m w : set_queries n (set_queries m w) = set_queries n w.
Proof. reflexivity. Qed.

Lemma set_queries_calls n w : w_calls (set_queries n w) = w_calls w.
Proof. reflexivity. Qed.

(** Worlds built from calls and questions are brought to one shape. *)
Ltac world_eq :=
  unfold add_queries;
  rewrite ?add_calls_set_queries, ?add_calls_app, ?set_queries_set_queries;
  simpl; rewrite <- ?app_assoc; try reflexivity.

(** Unfolds the plumbing of the monad, leaving the calls folded. *)
Ltac run_monad :=
  repeat first
    [ rewrite do_call_run
    | progress cbv beta iota delta
        [mbind M_bind mret M_ret get put lift fail modify ask load_device
         load_output get_server store_server store_output store_device
         container_of_frame container_of_destroy] ].

Lemma alter_lookup_insert {A} (f : A -> A) (i : addr) (x : A) (m : gmap addr A) :
  m !! i = Some x -> alter f i m = <[i := f x]> m.
Proof.
  intros Hi. apply map_eq. intros j. destruct (decide (i = j)) as [->|Hne].
  - by rewrite lookup_alter_eq, lookup_insert_eq, Hi.
  - by rewrite lookup_alter_ne, lookup_insert_ne.
Qed.

Ltac exec_with Hdev :=
  repeat first
    [ rewrite do_call_run
    | rewrite lookup_insert_eq
    | rewrite alter_insert_eq
    | rewrite (alter_lookup_insert _ _ _ _ Hdev)
    | rewrite Hdev
    | progress cbv beta iota delta
        [mbind M_bind mret M_ret get put lift fail modify ask load_device
         load_output get_server store_server store_output store_device
         container_of_frame container_of_destroy negb
         set_heap set_devices set_server set_calls set_queries
         set_backend_new_output set_display_running add_calls
         w_server w_heap w_devices w_backend_new_output w_display_running
         w_calls w_env w_queries]
    | progress simpl ].

Lemma calls_since_add cs w : calls_since w (add_calls cs w) = cs.
Proof. unfold calls_since, add_calls; simpl. by rewrite drop_app_length. Qed.

Lemma for_each_app {A} (l l' : list A) (body : A -> M unit) w :
  for_each (l ++ l') body w =
  match for_each l body w with
  | Ok _ w' => for_each l' body w'
  | Fault f => Fault f
  end.
Proof.
  revert w. induction l as [|a l IH]; intros w; simpl; [done|].
  rewrite !bind_run. destruct (body a w) as [[] w1|]; [apply IH|done].
Qed.

(** ** The frame handler, call by call *)

Lemma render_surface_run s sx sy layout d when v dev w :
  w_devices w !! d = Some dev ->
  render_surface s sx sy
    {| rd_output_layout := layout; rd_output := d; rd_view := Some v; rd_when := when |} w
  = run_calls (surface_calls layout d (output_scale dev) when v (s, sx, sy)) w.
Proof.
  intros Hdev. unfold render_surface, surface_calls, placement; simpl.
  destruct (wlr_surface_has_buffer s); simpl; [|by rewrite add_calls_nil].
  destruct (wlr_surface_get_texture s) as [texture|]; [|by run_monad].
  destruct (wlr_output_layout_output_coords layout d Double.zero Double.zero) as [ox oy].
  run_monad.
  destruct (int_add (view_x v) sx) as [dx|]; simpl; [|done].
  destruct (int_add (view_y v) sy) as [dy|]; simpl; [|done].
  rewrite Hdev.
  destruct (surface_box _ _ _ _) as [box|]; simpl; [|done].
  run_monad. by rewrite add_calls_app.
Qed.

Lemma for_each_run {A} (f : A -> option (list call)) (body : A -> M unit) (l : list A) w :
  (forall a w', w_devices w' = w_devices w -> body a w' = run_calls (f a) w') ->
  for_each l body w = run_calls (concat_calls f l) w.
Proof.
  intros Hbody. revert w Hbody.
  induction l as [|a l IH]; intros w Hbody; simpl.
  - by rewrite add_calls_nil.
  - rewrite bind_run, (Hbody a w eq_refl).
    destruct (f a) as [cs|]; simpl; [|done].
    rewrite IH by (intros; apply Hbody; by etrans).
    destruct (concat_calls f l) as [cs'|]; simpl; [|done].
    by rewrite add_calls_app.
Qed.

Lemma view_for_each_surface_run layout d when v dev w :
  w_devices w !! d = Some dev ->
  view_for_each_surface v
    {| rd_output_layout := layout; rd_output := d; rd_view := Some v; rd_when := when |}
    render_surface w
  = run_calls (view_calls layout d (output_scale dev) when v) w.
Proof.
  intros Hdev. unfold view_for_each_surface, view_calls.
  destruct (view_type v); [|done].
  unfold wlr_xdg_surface_for_each_surface.
  apply for_each_run. intros [[s sx] sy] w' Hw'; simpl.
  apply render_surface_run. by rewrite Hw'.
Qed.

Lemma handle_output_frame_run o out d dev w :
  w_heap w !! o = Some out ->
  cg_wlr_output out = Some d ->
  w_devices w !! d = Some dev ->
  handle_output_frame (output_frame o) w =
  if env_make_current (w_env w) (w_queries w)
  then run_calls (frame_calls w d dev) (add_queries 2 w)
  else Ok tt (add_calls [ wlr_output_make_current d false;
                          wlr_log WLR_DEBUG "Cannot make damage output current" ]
                (add_queries 1 w)).
Proof.
  intros Ho Hd Hdev. unfold handle_output_frame. run_monad.
  rewrite Ho, Hd. run_monad. rewrite Hdev. run_monad. simpl.
  destruct (env_make_current (w_env w) (w_queries w)); simpl.
  2: { run_monad. f_equal. world_eq. }
  run_monad. simpl. rewrite Hdev.
  unfold frame_calls, body_calls.
  destruct (env_effective_resolution (w_env w) dev) as [width height] eqn:Hres.
  run_monad. simpl. rewrite Hres. run_monad.
  erewrite for_each_run; last first.
  { intros v w' Hw'. apply view_for_each_surface_run. rewrite Hw'. exact Hdev. }
  simpl. destruct (concat_calls _ _) as [cs|]; simpl; [|done].
  run_monad. f_equal. world_eq.
Qed.

(** ** The calls of a frame as lists *)

Lemma concat_calls_is_Some {A} (f : A -> option (list call)) (l : list A) :
  Forall (fun a => is_Some (f a)) l -> is_Some (concat_calls f l).
Proof.
  induction 1 as [|a l [ca Ha] _ [cl Hl]]; simpl; [by eexists|].
  rewrite Ha, Hl. by eexists.
Qed.

Lemma concat_calls_app {A} (f : A -> option (list call)) (l l' : list A) cs :
  concat_calls f (l ++ l') = Some cs ->
  exists c c', concat_calls f l = Some c /\ concat_calls f l' = Some c' /\ cs = c ++ c'.
Proof.
  revert cs. induction l as [|a l IH]; intros cs; simpl.
  - intros H. by exists [], cs.
  - destruct (f a) as [ca|]; simpl; [|done].
    destruct (concat_calls f (l ++ l')) as [cll|]; simpl; [|done].
    intros [= <-].
    destruct (IH cll eq_refl) as (c & c' & -> & Hc' & ->). simpl.
    exists (ca ++ c), c'. by rewrite app_assoc.
Qed.

Lemma concat_calls_cons {A} (f : A -> option (list call)) (a : A) (l : list A) cs :
  concat_calls f (a :: l) = Some cs ->
  exists c c', f a = Some c /\ concat_calls f l = Some c' /\ cs = c ++ c'.
Proof.
  simpl. destruct (f a) as [ca|]; simpl; [|done].
  destruct (concat_calls f l) as [cl|]; simpl; [|done].
  intros [= <-]. by exists ca, cl.
Qed.

(** A property of the calls of each element, kept by concatenation. *)
Lemma concat_calls_proj {A B} (f : A -> option (list call)) (g : list call -> list B)
    (h : A -> list B) (l : list A) cs :
  g [] = [] ->
  (forall c c', g (c ++ c') = g c ++ g c') ->
  (forall a ca, a ∈ l -> f a = Some ca -> g ca = h a) ->
  concat_calls f l = Some cs ->
  g cs = flat_map h l.
Proof.
  intros Hnil Happ. revert cs.
  induction l as [|a l IH]; intros cs Hf; simpl.
  - by intros [= <-].
  - destruct (f a) as [ca|] eqn:Ha; simpl; [|done].
    destruct (concat_calls f l) as [cl|] eqn:Hl; simpl; [|done].
    intros [= <-]. rewrite Happ. f_equal.
    + apply Hf; [left|done].
    + apply IH; [|done]. intros a' ca' Hin. apply Hf. by right.
Qed.

Lemma flat_map_filter_map {A B} (p : A -> bool) (g : A -> B) (l : list A) :
  flat_map (fun a => if p a then [g a] else []) l = g <$> filter (fun a => p a) l.
Proof.
  induction l as [|a l IH]; simpl; [done|].
  rewrite filter_cons, IH. by destruct (p a).
Qed.

Lemma surface_calls_frame_done layout d scale when v e cs :
  surface_calls layout d scale when v e = Some cs ->
  frame_done_calls cs =
  if drawable e.1.1 then [wlr_surface_send_frame_done (surface_id e.1.1) when] else [].
Proof.
  unfold surface_calls, drawable.
  destruct (wlr_surface_has_buffer e.1.1); simpl; [|by intros [= <-]].
  destruct (wlr_surface_get_texture e.1.1) as [texture|]; simpl.
  - destruct (placement _ _ _ _ _ _ _) as [box|]; simpl; [|done].
    by intros [= <-].
  - by intros [= <-].
Qed.

Lemma view_calls_frame_done layout d scale when v cs :
  view_calls layout d scale when v = Some cs ->
  frame_done_calls cs =
  (fun s => wlr_surface_send_frame_done (surface_id s) when) <$>
    filter (fun s => drawable s) ((fun e : wlr_surface * Z * Z => e.1.1) <$> yielded v).
Proof.
  unfold view_calls, yielded. destruct (view_type v); [|by intros [= <-]].
  intros Hcs.
  rewrite <- flat_map_filter_map.
  erewrite (concat_calls_proj _ frame_done_calls); [| done | | | exact Hcs].
  - generalize (surface_for_each_surface (xdg_tree (view_xdg_surface v)) 0 0).
    intros l. induction l as [|e l IH]; simpl; [done|]. by rewrite IH, app_nil_r.
  - intros. apply filter_app.
  - intros e ce _ He. rewrite (surface_calls_frame_done _ _ _ _ _ _ _ He).
    by destruct (drawable e.1.1).
Qed.

Lemma body_calls_frame_done layout d scale when vs cs :
  body_calls layout d scale when vs = Some cs ->
  frame_done_calls cs =
  (fun s => wlr_surface_send_frame_done (surface_id s) when) <$>
    filter (fun s => drawable s) (tick_yield vs).
Proof.
  unfold body_calls, tick_yield. intros Hcs.
  erewrite (concat_calls_proj _ frame_done_calls); [| done | | | exact Hcs].
  2: { intros. apply filter_app. }
  2: { intros v cv _ Hv. apply (view_calls_frame_done _ _ _ _ _ _ Hv). }
  generalize (rev vs). intros l.
  induction l as [|v l IH]; simpl; [done|].
  by rewrite IH, filter_app, fmap_app.
Qed.

Lemma surface_calls_drawn layout d scale when v e cs :
  surface_calls layout d scale when v e = Some cs ->
  drawn_textures cs =
  if drawable e.1.1 then option_list (wlr_surface_get_texture e.1.1) else [].
Proof.
  unfold surface_calls, drawable.
  destruct (wlr_surface_has_buffer e.1.1); simpl; [|by intros [= <-]].
  destruct (wlr_surface_get_texture e.1.1) as [texture|]; simpl.
  - destruct (placement _ _ _ _ _ _ _) as [box|]; simpl; [|done].
    by intros [= <-].
  - by intros [= <-].
Qed.

Lemma flat_map_fmap {A B C} (f : A -> B) (g : B -> list C) (l : list A) :
  flat_map g (f <$> l) = flat_map (fun a => g (f a)) l.
Proof. induction l as [|a l IH]; csimpl; [done|]. by rewrite IH. Qed.

Lemma flat_map_flat_map {A B C} (f : A -> list B) (g : B -> list C) (l : list A) :
  flat_map g (flat_map f l) = flat_map (fun a => flat_map g (f a)) l.
Proof.
  induction l as [|a l IH]; simpl; [done|]. by rewrite flat_map_app, IH.
Qed.

Lemma view_calls_drawn layout d scale when v cs :
  view_calls layout d scale when v = Some cs ->
  drawn_textures cs =
  flat_map (fun e : wlr_surface * Z * Z =>
              if drawable e.1.1 then option_list (wlr_surface_get_texture e.1.1) else [])
    (yielded v).
Proof.
  unfold view_calls, yielded. destruct (view_type v); [|by intros [= <-]].
  intros Hcs.
  erewrite (concat_calls_proj _ drawn_textures); [done | done | | | exact Hcs].
  - intros. apply omap_app.
  - intros e ce _ He. apply (surface_calls_drawn _ _ _ _ _ _ _ He).
Qed.

Lemma body_calls_drawn layout d scale when vs cs :
  body_calls layout d scale when vs = Some cs ->
  drawn_textures cs =
  flat_map (fun s => if drawable s then option_list (wlr_surface_get_texture s) else [])
    (tick_yield vs).
Proof.
  unfold body_calls, tick_yield. intros Hcs.
  rewrite (concat_calls_proj _ drawn_textures
             (fun v => flat_map (fun e : wlr_surface * Z * Z =>
                if drawable e.1.1 then option_list (wlr_surface_get_texture e.1.1)
                else []) (yielded v)) _ _ eq_refl (omap_app _)
             (fun v cv _ Hv => view_calls_drawn _ _ _ _ _ _ Hv) Hcs).
  rewrite flat_map_flat_map. apply flat_map_ext. intros v.
  by rewrite flat_map_fmap.
Qed.

Lemma view_calls_defined layout d scale when v :
  Forall (fun e : wlr_surface * Z * Z =>
    drawable e.1.1 = true ->
    is_Some (placement layout d scale v e.1.2 e.2 (surface_current e.1.1)))
    (yielded v) ->
  is_Some (view_calls layout d scale when v).
Proof.
  unfold view_calls, yielded. destruct (view_type v); [|by eexists].
  intros Hall. apply concat_calls_is_Some.
  eapply Forall_impl; [exact Hall|]. intros e He.
  unfold surface_calls, drawable in *.
  destruct (wlr_surface_has_buffer e.1.1); simpl in *; [|by eexists].
  destruct (wlr_surface_get_texture e.1.1) as [texture|]; [|by eexists].
  destruct He as [box ->]; [by rewrite bool_decide_true by (by eexists)|].
  by eexists.
Qed.

Lemma body_calls_defined layout d scale when vs :
  placements_defined layout d scale vs ->
  is_Some (body_calls layout d scale when vs).
Proof.
  intros Hall. apply concat_calls_is_Some. apply Forall_rev.
  eapply Forall_impl; [exact Hall|]. intros v. apply view_calls_defined.
Qed.

(** A tick in which the context is made current runs to its end. *)
Lemma handle_output_frame_current o out d dev w :
  w_heap w !! o = Some out ->
  cg_wlr_output out = Some d ->
  w_devices w !! d = Some dev ->
  env_make_current (w_env w) (w_queries w) = true ->
  placements_defined (output_layout (w_server w)) d (output_scale dev)
    (views (w_server w)) ->
  exists body,
    body_calls (output_layout (w_server w)) d (output_scale dev)
      (env_clock (w_env w) (S (w_queries w))) (views (w_server w)) = Some body /\
    handle_output_frame (output_frame o) w =
    Ok tt (add_calls
             ([ wlr_output_make_current d true;
                clock_gettime (env_clock (w_env w) (S (w_queries w)));
                wlr_renderer_begin (backend_renderer (w_server w))
                  (env_effective_resolution (w_env w) dev).1
                  (env_effective_resolution (w_env w) dev).2;
                wlr_renderer_clear (backend_renderer (w_server w)) clear_color ]
              ++ body ++
              [ wlr_renderer_end (backend_renderer (w_server w));
                wlr_output_swap_buffers d ])
             (add_queries 2 w)).
Proof.
  intros Ho Hd Hdev Hok Hdef.
  destruct (body_calls_defined _ _ _ (env_clock (w_env w) (S (w_queries w))) _ Hdef)
    as [body Hbody].
  exists body. split; [done|].
  rewrite (handle_output_frame_run _ _ _ _ _ Ho Hd Hdev), Hok.
  unfold frame_calls. by rewrite Hbody.
Qed.

Lemma calls_since_add_queries cs n w :
  calls_since w (add_calls cs (add_queries n w)) = cs.
Proof. unfold calls_since, add_calls, add_queries; simpl. by rewrite drop_app_length. Qed.

(** ** The frame handler: theorems *)

(** C7: when the backend refuses to make the output's context current, the
    frame handler returns normally having only asked for the context and
    logged a debug message: no render-pass call (begin, clear, draw,
    frame-done, end, swap) is made, the server, the heap, the devices, the
    signal lists and the running flag of the display are as before, and the
    next tick asks again and, when granted, renders the whole frame. *)
Theorem frame_aborts_when_context_refused o out d dev w :
  w_heap w !! o = Some out ->
  cg_wlr_output out = Some d ->
  w_devices w !! d = Some dev ->
  env_make_current (w_env w) (w_queries w) = false ->
  placements_defined (output_layout (w_server w)) d (output_scale dev)
    (views (w_server w)) ->
  exists w',
    handle_output_frame (output_frame o) w = Ok tt w' /\
    calls_since w w' =
      [ wlr_output_make_current d false;
        wlr_log WLR_DEBUG "Cannot make damage output current" ] /\
    Forall (fun c => is_render_call c = false) (calls_since w w') /\
    w' = add_calls (calls_since w w') (add_queries 1 w) /\
    w_server w' = w_server w /\ w_heap w' = w_heap w /\
    w_devices w' = w_devices w /\
    w_backend_new_output w' = w_backend_new_output w /\
    w_display_running w' = w_display_running w /\
    (env_make_current (w_env w') (w_queries w') = true ->
     exists w'' body,
       handle_output_frame (output_frame o) w' = Ok tt w'' /\
       calls_since w' w'' =
         [ wlr_output_make_current d true;
           clock_gettime (env_clock (w_env w') (S (w_queries w')));
           wlr_renderer_begin (backend_renderer (w_server w))
             (env_effective_resolution (w_env w) dev).1
             (env_effective_resolution (w_env w) dev).2;
           wlr_renderer_clear (backend_renderer (w_server w)) clear_color ]
         ++ body ++
         [ wlr_renderer_end (backend_renderer (w_server w));
           wlr_output_swap_buffers d ]).
Proof.
  intros Ho Hd Hdev Hno Hdef.
  eexists. split.
  { rewrite (handle_output_frame_run _ _ _ _ _ Ho Hd Hdev), Hno. reflexivity. }
  rewrite calls_since_add_queries.
  split; [done|]. split; [by repeat constructor|]. split; [done|].
  do 5 (split; [done|]).
  intros Hyes.
  set (w' := add_calls _ (add_queries 1 w)) in *.
  destruct (handle_output_frame_current o out d dev w' Ho Hd Hdev Hyes Hdef)
    as (body & _ & Hrun).
  eexists _, body. split; [exact Hrun|].
  by rewrite calls_since_add_queries.
Qed.

Lemma frame_aborts_when_context_refused_witness :
  w_heap (Scenario.active Scenario.scale_1_5) !! 1%positive = Some Scenario.claimed /\
  cg_wlr_output Scenario.claimed = Some 5%positive /\
  w_devices (Scenario.active Scenario.scale_1_5) !! 5%positive
    = Some (Scenario.attached Scenario.scale_1_5) /\
  env_make_current (w_env (Scenario.active Scenario.scale_1_5))
    (w_queries (Scenario.active Scenario.scale_1_5)) = false /\
  placements_defined (output_layout (w_server (Scenario.active Scenario.scale_1_5)))
    5%positive Scenario.scale_1_5 (views (w_server (Scenario.active Scenario.scale_1_5))) /\
  exists w',
    handle_output_frame (output_frame 1%positive) (Scenario.active Scenario.scale_1_5)
      = Ok tt w' /\
    calls_since (Scenario.active Scenario.scale_1_5) w' =
      [ wlr_output_make_current 5%positive false;
        wlr_log WLR_DEBUG "Cannot make damage output current" ].
Proof.
  assert (Hdef : placements_defined
                   (output_layout (w_server (Scenario.active Scenario.scale_1_5)))
                   5%positive Scenario.scale_1_5
                   (views (w_server (Scenario.active Scenario.scale_1_5)))).
  { apply (bool_decide_unpack _). vm_compute. exact I. }
  assert (Ho : w_heap (Scenario.active Scenario.scale_1_5) !! 1%positive
               = Some Scenario.claimed) by (vm_compute; reflexivity).
  assert (Hdev : w_devices (Scenario.active Scenario.scale_1_5) !! 5%positive
                 = Some (Scenario.attached Scenario.scale_1_5))
    by (vm_compute; reflexivity).
  assert (Hno : env_make_current (w_env (Scenario.active Scenario.scale_1_5))
                  (w_queries (Scenario.active Scenario.scale_1_5)) = false)
    by (vm_compute; reflexivity).
  split; [exact Ho|]. split; [reflexivity|]. split; [exact Hdev|].
  split; [exact Hno|]. split; [exact Hdef|].
  destruct (frame_aborts_when_context_refused 1%positive _ 5%positive _ _
              Ho eq_refl Hdev Hno Hdef) as (w' & Hrun & Hcalls & _).
  exists w'. by split.
Defined.

Lemma view_calls_no_clock layout d scale when v cs :
  view_calls layout d scale when v = Some cs ->
  Forall (fun c => is_clock_gettime c = false) cs.
Proof.
  unfold view_calls. destruct (view_type v); [|intros [= <-]; by repeat constructor].
  generalize (surface_for_each_surface (xdg_tree (view_xdg_surface v)) 0 0).
  intros l. revert cs. induction l as [|e l IH]; intros cs; simpl.
  - intros [= <-]. constructor.
  - destruct (surface_calls layout d scale when v e) as [ce|] eqn:He; simpl; [|done].
    destruct (concat_calls _ l) as [cl|]; simpl; [|done].
    intros [= <-]. apply Forall_app. split; [|by apply IH].
    unfold surface_calls in He.
    destruct (negb _); [injection He as <-; constructor|].
    destruct (wlr_surface_get_texture _); [|injection He as <-; by repeat constructor].
    destruct (placement _ _ _ _ _ _ _); simpl in He; [|done].
    injection He as <-. by repeat constructor.
Qed.

Lemma body_calls_no_clock layout d scale when vs cs :
  body_calls layout d scale when vs = Some cs ->
  Forall (fun c => is_clock_gettime c = false) cs.
Proof.
  unfold body_calls. generalize (rev vs). intros l. revert cs.
  induction l as [|v l IH]; intros cs; simpl.
  - intros [= <-]. constructor.
  - destruct (view_calls layout d scale when v) as [cv|] eqn:Hv; simpl; [|done].
    destruct (concat_calls _ l) as [cl|]; simpl; [|done].
    intros [= <-]. apply Forall_app. split; [|by apply IH].
    by eapply view_calls_no_clock.
Qed.

Lemma body_calls_when layout d scale when vs cs s t :
  body_calls layout d scale when vs = Some cs ->
  wlr_surface_send_frame_done s t ∈ cs -> t = when.
Proof.
  intros Hcs Hin.
  assert (wlr_surface_send_frame_done s t ∈ frame_done_calls cs) as Hin'.
  { apply list_elem_of_filter. by split. }
  rewrite (body_calls_frame_done _ _ _ _ _ _ Hcs) in Hin'.
  apply list_elem_of_fmap in Hin' as (s' & [= _ ->] & _). done.
Qed.

(** C10: in a tick whose context is made current, CLOCK_MONOTONIC is read
    exactly once, after the context is acquired and before anything is
    rendered, and every frame-done sent in the tick carries that reading. *)
Theorem tick_single_timestamp o out d dev w :
  w_heap w !! o = Some out ->
  cg_wlr_output out = Some d ->
  w_devices w !! d = Some dev ->
  env_make_current (w_env w) (w_queries w) = true ->
  placements_defined (output_layout (w_server w)) d (output_scale dev)
    (views (w_server w)) ->
  exists w' now rest,
    handle_output_frame (output_frame o) w = Ok tt w' /\
    now = env_clock (w_env w) (S (w_queries w)) /\
    calls_since w w' = wlr_output_make_current d true :: clock_gettime now :: rest /\
    Forall (fun c => is_clock_gettime c = false) rest /\
    (forall s t, wlr_surface_send_frame_done s t ∈ calls_since w w' -> t = now) /\
    (forall s1 t1 s2 t2,
       wlr_surface_send_frame_done s1 t1 ∈ calls_since w w' ->
       wlr_surface_send_frame_done s2 t2 ∈ calls_since w w' -> t1 = t2).
Proof.
  intros Ho Hd Hdev Hok Hdef.
  destruct (handle_output_frame_current o out d dev w Ho Hd Hdev Hok Hdef)
    as (body & Hbody & Hrun).
  eexists _, _, _. split; [exact Hrun|]. split; [reflexivity|].
  rewrite calls_since_add_queries. split; [reflexivity|].
  assert (Hwhen : forall s t,
    wlr_surface_send_frame_done s t ∈
      [ wlr_output_make_current d true;
        clock_gettime (env_clock (w_env w) (S (w_queries w)));
        wlr_renderer_begin (backend_renderer (w_server w))
          (env_effective_resolution (w_env w) dev).1
          (env_effective_resolution (w_env w) dev).2;
        wlr_renderer_clear (backend_renderer (w_server w)) clear_color ]
      ++ body ++
      [ wlr_renderer_end (backend_renderer (w_server w)); wlr_output_swap_buffers d ] ->
    t = env_clock (w_env w) (S (w_queries w))).
  { intros s t Hin. rewrite !elem_of_app in Hin.
    destruct Hin as [Hin|[Hin|Hin]].
    - repeat (apply elem_of_cons in Hin as [[=]|Hin]). by apply elem_of_nil in Hin.
    - by eapply body_calls_when.
    - repeat (apply elem_of_cons in Hin as [[=]|Hin]). by apply elem_of_nil in Hin. }
  split.
  { simpl. repeat constructor. apply Forall_app. split; [|by repeat constructor].
    by eapply body_calls_no_clock. }
  split; [exact Hwhen|].
  intros s1 t1 s2 t2 H1 H2.
  rewrite (Hwhen _ _ H1), (Hwhen _ _ H2). done.
Qed.

Lemma tick_single_timestamp_witness :
  w_heap (Scenario.retrying Scenario.scale_1_5) !! 1%positive = Some Scenario.claimed /\
  cg_wlr_output Scenario.claimed = Some 5%positive /\
  w_devices (Scenario.retrying Scenario.scale_1_5) !! 5%positive
    = Some (Scenario.attached Scenario.scale_1_5) /\
  env_make_current (w_env (Scenario.retrying Scenario.scale_1_5))
    (w_queries (Scenario.retrying Scenario.scale_1_5)) = true /\
  placements_defined (output_layout (w_server (Scenario.retrying Scenario.scale_1_5)))
    5%positive Scenario.scale_1_5
    (views (w_server (Scenario.retrying Scenario.scale_1_5))) /\
  exists w',
    handle_output_frame (output_frame 1%positive) (Scenario.retrying Scenario.scale_1_5)
      = Ok tt w' /\
    forall s t,
      wlr_surface_send_frame_done s t ∈ calls_since (Scenario.retrying Scenario.scale_1_5) w' ->
      t = {| tv_sec := 3; tv_nsec := 0 |}.
Proof.
  assert (Hdef : placements_defined
                   (output_layout (w_server (Scenario.retrying Scenario.scale_1_5)))
                   5%positive Scenario.scale_1_5
                   (views (w_server (Scenario.retrying Scenario.scale_1_5)))).
  { apply (bool_decide_unpack _). vm_compute. exact I. }
  assert (Ho : w_heap (Scenario.retrying Scenario.scale_1_5) !! 1%positive
               = Some Scenario.claimed) by (vm_compute; reflexivity).
  assert (Hdev : w_devices (Scenario.retrying Scenario.scale_1_5) !! 5%positive
                 = Some (Scenario.attached Scenario.scale_1_5))
    by (vm_compute; reflexivity).
  assert (Hok : env_make_current (w_env (Scenario.retrying Scenario.scale_1_5))
                  (w_queries (Scenario.retrying Scenario.scale_1_5)) = true)
    by (vm_compute; reflexivity).
  split; [exact Ho|]. split; [reflexivity|]. split; [exact Hdev|].
  split; [exact Hok|]. split; [exact Hdef|].
  destruct (tick_single_timestamp 1%positive _ 5%positive _ _
              Ho eq_refl Hdev Hok Hdef)
    as (w' & now & rest & Hrun & Hnow & _ & _ & Hwhen & _).
  exists w'. split; [exact Hrun|].
  intros s t Hin. rewrite (Hwhen s t Hin), Hnow. vm_compute. reflexivity.
Defined.

(** C1, as stated, fails: a tick runs to its end, the walk yields a surface
    without a committed buffer and one whose texture cannot be obtained, and
    neither is sent a frame-done in that tick. *)
Lemma frame_done_skipped_counterexample :
  Scenario.unmapped ∈ tick_yield (views (w_server (Scenario.retrying Scenario.scale_1_5))) /\
  Scenario.not_uploaded ∈ tick_yield (views (w_server (Scenario.retrying Scenario.scale_1_5))) /\
  (frame_done_count (surface_id Scenario.unmapped) <$>
     tick_calls (output_frame 1%positive) (Scenario.retrying Scenario.scale_1_5)) = Some 0%nat /\
  (frame_done_count (surface_id Scenario.not_uploaded) <$>
     tick_calls (output_frame 1%positive) (Scenario.retrying Scenario.scale_1_5)) = Some 0%nat /\
  (frame_done_count (surface_id Scenario.ready) <$>
     tick_calls (output_frame 1%positive) (Scenario.retrying Scenario.scale_1_5)) = Some 1%nat.
Proof.
  split; [|split]; [apply (bool_decide_unpack _); vm_compute; exact I ..|].
  repeat split; vm_compute; reflexivity.
Qed.

(** C1, amended: in a tick whose context is made current the handler
    returns, and the frame-done signals it sends are, in order, one for each
    yielded surface that has a committed buffer and an obtainable texture,
    each carrying the tick's timestamp; the textures it draws are those of
    the same surfaces. A surface that is skipped is not sent a frame-done. *)
Theorem frame_done_only_for_drawn_surfaces o out d dev w :
  w_heap w !! o = Some out ->
  cg_wlr_output out = Some d ->
  w_devices w !! d = Some dev ->
  env_make_current (w_env w) (w_queries w) = true ->
  placements_defined (output_layout (w_server w)) d (output_scale dev)
    (views (w_server w)) ->
  exists w',
    handle_output_frame (output_frame o) w = Ok tt w' /\
    frame_done_calls (calls_since w w') =
      (fun s => wlr_surface_send_frame_done (surface_id s)
                  (env_clock (w_env w) (S (w_queries w)))) <$>
        filter (fun s => drawable s) (tick_yield (views (w_server w))) /\
    drawn_textures (calls_since w w') =
      omap wlr_surface_get_texture
        (filter (fun s => drawable s) (tick_yield (views (w_server w)))).
Proof.
  intros Ho Hd Hdev Hok Hdef.
  destruct (handle_output_frame_current o out d dev w Ho Hd Hdev Hok Hdef)
    as (body & Hbody & Hrun).
  eexists. split; [exact Hrun|].
  rewrite calls_since_add_queries. split.
  - rewrite <- (body_calls_frame_done _ _ _ _ _ _ Hbody).
    unfold frame_done_calls. rewrite !filter_app. simpl.
    by rewrite app_nil_r.
  - unfold drawn_textures. rewrite !omap_app.
    change (omap draw_texture body) with (drawn_textures body).
    rewrite (body_calls_drawn _ _ _ _ _ _ Hbody). simpl. rewrite app_nil_r.
    generalize (tick_yield (views (w_server w))). intros l.
    induction l as [|s l IH]; simpl; [done|].
    rewrite filter_cons. destruct (drawable s) eqn:Hs; simpl; [|done].
    destruct (wlr_surface_get_texture s); simpl; by rewrite IH.
Qed.

Lemma frame_done_only_for_drawn_surfaces_witness :
  w_heap (Scenario.retrying Scenario.scale_1_5) !! 1%positive = Some Scenario.claimed /\
  cg_wlr_output Scenario.claimed = Some 5%positive /\
  w_devices (Scenario.retrying Scenario.scale_1_5) !! 5%positive
    = Some (Scenario.attached Scenario.scale_1_5) /\
  env_make_current (w_env (Scenario.retrying Scenario.scale_1_5))
    (w_queries (Scenario.retrying Scenario.scale_1_5)) = true /\
  placements_defined (output_layout (w_server (Scenario.retrying Scenario.scale_1_5)))
    5%positive Scenario.scale_1_5
    (views (w_server (Scenario.retrying Scenario.scale_1_5))) /\
  exists w',
    handle_output_frame (output_frame 1%positive) (Scenario.retrying Scenario.scale_1_5)
      = Ok tt w' /\
    frame_done_calls (calls_since (Scenario.retrying Scenario.scale_1_5) w') =
      [ wlr_surface_send_frame_done 20%positive {| tv_sec := 3; tv_nsec := 0 |};
        wlr_surface_send_frame_done 23%positive {| tv_sec := 3; tv_nsec := 0 |} ] /\
    drawn_textures (calls_since (Scenario.retrying Scenario.scale_1_5) w') =
      [ 30%positive; 31%positive ].
Proof.
  assert (Hdef : placements_defined
                   (output_layout (w_server (Scenario.retrying Scenario.scale_1_5)))
                   5%positive Scenario.scale_1_5
                   (views (w_server (Scenario.retrying Scenario.scale_1_5)))).
  { apply (bool_decide_unpack _). vm_compute. exact I. }
  assert (Ho : w_heap (Scenario.retrying Scenario.scale_1_5) !! 1%positive
               = Some Scenario.claimed) by (vm_compute; reflexivity).
  assert (Hdev : w_devices (Scenario.retrying Scenario.scale_1_5) !! 5%positive
                 = Some (Scenario.attached Scenario.scale_1_5))
    by (vm_compute; reflexivity).
  assert (Hok : env_make_current (w_env (Scenario.retrying Scenario.scale_1_5))
                  (w_queries (Scenario.retrying Scenario.scale_1_5)) = true)
    by (vm_compute; reflexivity).
  split; [exact Ho|]. split; [reflexivity|]. split; [exact Hdev|].
  split; [exact Hok|]. split; [exact Hdef|].
  destruct (frame_done_only_for_drawn_surfaces 1%positive _ 5%positive _ _
              Ho eq_refl Hdev Hok Hdef) as (w' & Hrun & Hdone & Hdrawn).
  exists w'. split; [exact Hrun|]. split.
  - rewrite Hdone. vm_compute. reflexivity.
  - rewrite Hdrawn. vm_compute. reflexivity.
Defined.

(** ** Paint order and the surface walk *)

Lemma stack_of_rev inserted : stack_of inserted = rev inserted.
Proof.
  unfold stack_of. rewrite <- (app_nil_r (rev inserted)).
  generalize (@nil cg_view). induction inserted as [|v l IH]; intros acc; simpl.
  - done.
  - rewrite IH, <- app_assoc. done.
Qed.

Lemma view_calls_drawn_filter layout d scale when v cs :
  view_calls layout d scale when v = Some cs ->
  drawn_textures cs =
  omap wlr_surface_get_texture
    (filter (fun s => drawable s) ((fun e : wlr_surface * Z * Z => e.1.1) <$> yielded v)).
Proof.
  intros Hcs. rewrite (view_calls_drawn _ _ _ _ _ _ Hcs).
  generalize (yielded v). intros l.
  induction l as [|e l IH]; csimpl; [done|].
  rewrite filter_cons. destruct (drawable e.1.1) eqn:He; simpl; [|done].
  destruct (wlr_surface_get_texture e.1.1); simpl; by rewrite IH.
Qed.

(** C3: when the stack holds views that were inserted in a given order and
    A was inserted before B, the calls of a tick are those made for A, then
    those made for B, with other calls before, between and after; the
    textures drawn for a view are those of its drawable surfaces. So every
    surface of B is drawn after all surfaces of A, and the view inserted
    last is painted last. *)
Theorem paint_order_follows_insertion o out d dev w before A between B later :
  w_heap w !! o = Some out ->
  cg_wlr_output out = Some d ->
  w_devices w !! d = Some dev ->
  env_make_current (w_env w) (w_queries w) = true ->
  placements_defined (output_layout (w_server w)) d (output_scale dev)
    (views (w_server w)) ->
  views (w_server w) = stack_of (before ++ A :: between ++ B :: later) ->
  exists w' pre cA mid cB post,
    handle_output_frame (output_frame o) w = Ok tt w' /\
    calls_since w w' = pre ++ cA ++ mid ++ cB ++ post /\
    view_calls (output_layout (w_server w)) d (output_scale dev)
      (env_clock (w_env w) (S (w_queries w))) A = Some cA /\
    view_calls (output_layout (w_server w)) d (output_scale dev)
      (env_clock (w_env w) (S (w_queries w))) B = Some cB /\
    drawn_textures cA =
      omap wlr_surface_get_texture
        (filter (fun s => drawable s)
           ((fun e : wlr_surface * Z * Z => e.1.1) <$> yielded A)) /\
    drawn_textures cB =
      omap wlr_surface_get_texture
        (filter (fun s => drawable s)
           ((fun e : wlr_surface * Z * Z => e.1.1) <$> yielded B)).
Proof.
  intros Ho Hd Hdev Hok Hdef Hstack.
  destruct (handle_output_frame_current o out d dev w Ho Hd Hdev Hok Hdef)
    as (body & Hbody & Hrun).
  unfold body_calls in Hbody.
  rewrite Hstack, stack_of_rev, rev_involutive in Hbody.
  apply concat_calls_app in Hbody as (c1 & c2 & _ & H2 & ->).
  apply concat_calls_cons in H2 as (cA & c3 & HA & H3 & ->).
  apply concat_calls_app in H3 as (c4 & c5 & _ & H5 & ->).
  apply concat_calls_cons in H5 as (cB & c6 & HB & _ & ->).
  revert Hrun.
  generalize [ wlr_output_make_current d true;
               clock_gettime (env_clock (w_env w) (S (w_queries w)));
               wlr_renderer_begin (backend_renderer (w_server w))
                 (env_effective_resolution (w_env w) dev).1
                 (env_effective_resolution (w_env w) dev).2;
               wlr_renderer_clear (backend_renderer (w_server w)) clear_color ].
  generalize [ wlr_renderer_end (backend_renderer (w_server w));
               wlr_output_swap_buffers d ].
  intros tail head Hrun.
  exists (add_calls (head ++ (c1 ++ cA ++ c4 ++ cB ++ c6) ++ tail) (add_queries 2 w)),
    (head ++ c1), cA, c4, cB, (c6 ++ tail).
  split; [exact Hrun|].
  rewrite calls_since_add_queries.
  split; [|split; [exact HA|split; [exact HB|split]]].
  - by rewrite <- !app_assoc.
  - by eapply view_calls_drawn_filter.
  - by eapply view_calls_drawn_filter.
Qed.

Lemma paint_order_follows_insertion_witness :
  w_heap (Scenario.retrying Scenario.scale_1_5) !! 1%positive = Some Scenario.claimed /\
  cg_wlr_output Scenario.claimed = Some 5%positive /\
  w_devices (Scenario.retrying Scenario.scale_1_5) !! 5%positive
    = Some (Scenario.attached Scenario.scale_1_5) /\
  env_make_current (w_env (Scenario.retrying Scenario.scale_1_5))
    (w_queries (Scenario.retrying Scenario.scale_1_5)) = true /\
  placements_defined (output_layout (w_server (Scenario.retrying Scenario.scale_1_5)))
    5%positive Scenario.scale_1_5
    (views (w_server (Scenario.retrying Scenario.scale_1_5))) /\
  views (w_server (Scenario.retrying Scenario.scale_1_5))
    = stack_of ([] ++ Scenario.view_A :: [Scenario.view_odd] ++ Scenario.view_B :: []) /\
  exists w' pre cA mid cB post,
    handle_output_frame (output_frame 1%positive) (Scenario.retrying Scenario.scale_1_5)
      = Ok tt w' /\
    calls_since (Scenario.retrying Scenario.scale_1_5) w' = pre ++ cA ++ mid ++ cB ++ post /\
    drawn_textures cA = [30%positive] /\
    drawn_textures cB = [31%positive].
Proof.
  assert (Hdef : placements_defined
                   (output_layout (w_server (Scenario.retrying Scenario.scale_1_5)))
                   5%positive Scenario.scale_1_5
                   (views (w_server (Scenario.retrying Scenario.scale_1_5)))).
  { apply (bool_decide_unpack _). vm_compute. exact I. }
  assert (Ho : w_heap (Scenario.retrying Scenario.scale_1_5) !! 1%positive
               = Some Scenario.claimed) by (vm_compute; reflexivity).
  assert (Hdev : w_devices (Scenario.retrying Scenario.scale_1_5) !! 5%positive
                 = Some (Scenario.attached Scenario.scale_1_5))
    by (vm_compute; reflexivity).
  assert (Hok : env_make_current (w_env (Scenario.retrying Scenario.scale_1_5))
                  (w_queries (Scenario.retrying Scenario.scale_1_5)) = true)
    by (vm_compute; reflexivity).
  assert (Hstack : views (w_server (Scenario.retrying Scenario.scale_1_5))
                   = stack_of ([] ++ Scenario.view_A :: [Scenario.view_odd]
                                  ++ Scenario.view_B :: []))
    by (vm_compute; reflexivity).
  split; [exact Ho|]. split; [reflexivity|]. split; [exact Hdev|].
  split; [exact Hok|]. split; [exact Hdef|]. split; [exact Hstack|].
  destruct (paint_order_follows_insertion 1%positive _ 5%positive _ _ _ _ _ _ _
              Ho eq_refl Hdev Hok Hdef Hstack)
    as (w' & pre & cA & mid & cB & post & Hrun & Hcalls & _ & _ & HA & HB).
  exists w', pre, cA, mid, cB, post.
  split; [exact Hrun|]. split; [exact Hcalls|]. split.
  - rewrite HA. vm_compute. reflexivity.
  - rewrite HB. vm_compute. reflexivity.
Defined.

Lemma in_tree_walk s t :
  in_tree s t ->
  forall x y, exists sx sy, (s, sx, sy) ∈ surface_for_each_surface t x y.
Proof.
  induction 1 as [children | r cx cy c children Hc _ IH]; intros x y; simpl.
  - exists x, y. left.
  - destruct (IH (x + cx) (y + cy)) as (sx & sy & Hin).
    exists sx, sy. right.
    rewrite list_elem_of_In. apply in_flat_map.
    exists (cx, cy, c). split; [by rewrite <- list_elem_of_In|].
    by rewrite <- list_elem_of_In.
Qed.

(** C9: for a view whose type is not recognized, [view_for_each_surface]
    returns normally whatever the iterator is (even one that would fault if
    it were called): the iterator is not invoked, the only effect is one log
    entry at error level, and the display keeps running. For an xdg-shell
    view the iterator is run on every entry of the surface walk, and every
    surface of the view's surface tree is among the entries. *)
Theorem view_for_each_surface_dispatch (v : cg_view) (rdata : render_data)
    (iterator : wlr_surface_iterator_func_t) (w : world) :
  (forall tag, view_type v = CAGE_OTHER_VIEW tag ->
     view_for_each_surface v rdata iterator w
       = Ok tt (add_calls [wlr_log WLR_ERROR "Unrecognized view type: %d"] w) /\
     view_for_each_surface v rdata (fun _ _ _ _ => fail invalid_pointer) w
       = view_for_each_surface v rdata iterator w /\
     w_display_running (add_calls [wlr_log WLR_ERROR "Unrecognized view type: %d"] w)
       = w_display_running w) /\
  (view_type v = CAGE_XDG_SHELL_VIEW ->
     view_for_each_surface v rdata iterator w
       = for_each (surface_for_each_surface (xdg_tree (view_xdg_surface v)) 0 0)
           (fun e => iterator e.1.1 e.1.2 e.2 rdata) w /\
     forall s, in_tree s (xdg_tree (view_xdg_surface v)) ->
       exists sx sy,
         (s, sx, sy) ∈ surface_for_each_surface (xdg_tree (view_xdg_surface v)) 0 0).
Proof.
  split.
  - intros tag Htag. unfold view_for_each_surface. rewrite Htag.
    by rewrite do_call_run.
  - intros Hxdg. unfold view_for_each_surface. rewrite Hxdg. split; [done|].
    intros s Hs. by apply in_tree_walk.
Qed.

Lemma view_for_each_surface_dispatch_witness :
  view_type Scenario.view_odd = CAGE_OTHER_VIEW 7 /\
  view_for_each_surface Scenario.view_odd
    {| rd_output_layout := []; rd_output := 5%positive; rd_view := Some Scenario.view_odd;
       rd_when := {| tv_sec := 0; tv_nsec := 0 |} |}
    render_surface (Scenario.active Scenario.scale_1)
  = Ok tt (add_calls [wlr_log WLR_ERROR "Unrecognized view type: %d"]
             (Scenario.active Scenario.scale_1)) /\
  view_type Scenario.view_A = CAGE_XDG_SHELL_VIEW /\
  in_tree Scenario.unmapped (xdg_tree (view_xdg_surface Scenario.view_A)) /\
  exists sx sy,
    (Scenario.unmapped, sx, sy) ∈
      surface_for_each_surface (xdg_tree (view_xdg_surface Scenario.view_A)) 0 0.
Proof.
  assert (Hin : in_tree Scenario.unmapped (xdg_tree (view_xdg_surface Scenario.view_A))).
  { eapply in_tree_child; [left|]. constructor. }
  split; [reflexivity|]. split.
  - apply (proj1 (view_for_each_surface_dispatch Scenario.view_odd
                    {| rd_output_layout := []; rd_output := 5%positive;
                       rd_view := Some Scenario.view_odd;
                       rd_when := {| tv_sec := 0; tv_nsec := 0 |} |}
                    render_surface (Scenario.active Scenario.scale_1)) 7 eq_refl).
  - split; [reflexivity|]. split; [exact Hin|].
    apply (proj2 (view_for_each_surface_dispatch Scenario.view_A
             {| rd_output_layout := []; rd_output := 5%positive; rd_view := None;
                rd_when := {| tv_sec := 0; tv_nsec := 0 |} |}
             render_surface (Scenario.active Scenario.scale_1)) eq_refl). exact Hin.
Defined.

(** ** The lifecycle handlers *)

Lemma handle_output_destroy_run o w :
  handle_output_destroy (output_destroy o) w =
  match w_heap w !! o with
  | None => Fault invalid_pointer
  | Some _ =>
      if decide (linked (output_destroy o) w) then
        if decide (linked (output_frame o) (unlink (output_destroy o) w))
        then Ok tt (teardown o w)
        else Fault invalid_pointer
      else Fault invalid_pointer
  end.
Proof.
  destruct w as [S H D B R C E Q].
  unfold handle_output_destroy, wl_list_remove, teardown. 
  destruct (H !! o) as [out|] eqn:Ho; [|by exec_with Ho].
  exec_with Ho.
  destruct (decide (linked (output_destroy o) _)) as [H1|H1]; [|done].
  unfold unlink at 1 2 3. exec_with Ho.
  destruct (decide (linked (output_frame o) _)) as [H2|H2]; [|done].
  unfold unlink. exec_with Ho. rewrite <- ?app_assoc. reflexivity.
Qed.

Lemma linked_unlink l l' w : linked l' (unlink l w) <-> l' ≠ l /\ linked l' w.
Proof.
  unfold linked, unlink, remove_listener. simpl.
  rewrite list_elem_of_filter, !map_Exists_lookup. split.
  - intros [[Hne Hin]|(d & dev & Hd & Hin)]; [by split; [|left]|].
    rewrite lookup_fmap in Hd.
    destruct (w_devices w !! d) as [dev0|] eqn:Hd0; simpl in Hd; [|done].
    injection Hd as <-. simpl in Hin. unfold remove_listener in Hin.
    rewrite !list_elem_of_filter in Hin.
    destruct Hin as [[Hne Hin]|[Hne Hin]]; (split; [done|]); right;
      exists d, dev0; (split; [done|]); [by left|by right].
  - intros [Hne [Hin|(d & dev & Hd & Hin)]]; [by left|].
    right. exists d, (device_remove_listener l dev). split.
    + by rewrite lookup_fmap, Hd.
    + simpl. unfold remove_listener. rewrite !list_elem_of_filter.
      destruct Hin as [Hin|Hin]; [by left|by right].
Qed.

Lemma linked_device l d dev w :
  w_devices w !! d = Some dev ->
  l ∈ events_frame dev \/ l ∈ events_destroy dev ->
  linked l w.
Proof. intros Hd Hin. right. apply map_Exists_lookup. by exists d, dev. Qed.

Lemma calls_since_teardown o w :
  calls_since w (teardown o w) = [free o; wl_display_terminate].
Proof.
  unfold calls_since, teardown, add_calls, unlink; simpl.
  by rewrite drop_app_length.
Qed.

(** C4: in the active state (the output record is live and its two
    listeners are connected) [handle_output_destroy] returns normally, and
    afterwards neither the frame nor the destroy listener is in any signal
    list, the record is freed, [server->output] is NULL and the display has
    been told to terminate; it makes exactly the calls [free] and
    [wl_display_terminate], in that order. *)
Theorem device_removed_tears_down o out w :
  w_heap w !! o = Some out ->
  linked (output_frame o) w ->
  linked (output_destroy o) w ->
  exists w',
    handle_output_destroy (output_destroy o) w = Ok tt w' /\
    ~ linked (output_frame o) w' /\
    ~ linked (output_destroy o) w' /\
    w_heap w' = delete o (w_heap w) /\
    w_heap w' !! o = None /\
    output (w_server w') = None /\
    calls_since w w' = [free o; wl_display_terminate] /\
    w_display_running w' = false.
Proof.
  intros Ho Hf Hd. exists (teardown o w).
  rewrite handle_output_destroy_run, Ho.
  rewrite decide_True by done.
  rewrite decide_True by (by apply linked_unlink).
  split; [done|].
  assert (Hl : forall l, linked l (teardown o w)
                         <-> linked l (unlink (output_frame o) (unlink (output_destroy o) w)))
    by done.
  split. { rewrite Hl, linked_unlink. by intros [? _]. }
  split. { rewrite Hl, !linked_unlink. by intros [_ [? _]]. }
  split; [done|]. split; [apply lookup_delete_eq|]. split; [done|].
  split; [apply calls_since_teardown|done].
Qed.

(** C5: teardown happens once, and what guards it is the subscription. A
    device-removed notification in the active state runs the handler, which
    disconnects its own listener before it frees the record; a second
    device-removed notification reaches no listener and leaves the world as
    it is, so the display is told to terminate exactly once. The guard is
    not in the handler: [handle_output_destroy] entered again on the freed
    record, which no notification does, would fault. *)
Theorem teardown_guarded_by_unsubscription o out d dev w :
  w_devices w !! d = Some dev ->
  events_destroy dev = [output_destroy o] ->
  w_heap w !! o = Some out ->
  destroy_notify out = Some fn_handle_output_destroy ->
  linked (output_frame o) w ->
  exists w',
    deliver (destroy_event d) w = Ok tt w' /\
    deliver (destroy_event d) w' = Ok tt w' /\
    handle_output_destroy (output_destroy o) w' = Fault invalid_pointer /\
    length (filter (fun c => is_terminate c) (calls_since w w')) = 1%nat.
Proof.
  intros Hdev Hev Ho Hn Hf. exists (teardown o w).
  assert (Hd : linked (output_destroy o) w).
  { eapply linked_device; [exact Hdev|]. right. rewrite Hev. left. }
  split.
  { unfold deliver, wl_signal_emit. run_monad. rewrite Hdev, Hev.
    unfold for_each, notify, listener_notify. run_monad. rewrite Ho, Hn.
    rewrite handle_output_destroy_run, Ho.
    rewrite decide_True by done.
    by rewrite decide_True by (by apply linked_unlink). }
  split.
  { unfold deliver, wl_signal_emit. run_monad.
    assert (w_devices (teardown o w) !! d
            = Some (device_remove_listener (output_frame o)
                      (device_remove_listener (output_destroy o) dev))) as ->.
    { unfold teardown, unlink. simpl. by rewrite !lookup_fmap, Hdev. }
    simpl. rewrite Hev. unfold remove_listener.
    rewrite (filter_cons _ (output_destroy o)), filter_nil.
    rewrite decide_False by (by intros H; apply H).
    reflexivity. }
  split.
  { rewrite handle_output_destroy_run.
    assert (w_heap (teardown o w) !! o = None) as -> by apply lookup_delete_eq.
    done. }
  by rewrite calls_since_teardown.
Qed.

Lemma wl_list_empty_last {A} (l : list A) :
  wl_list_empty l = bool_decide (last l = None).
Proof.
  destruct l as [|a l]; [done|]. simpl.
  destruct (last (a :: l)) eqn:Hl; [done|]. by apply last_None in Hl.
Qed.

Lemma handle_new_output_run d dev w :
  w_devices w !! d = Some dev ->
  handle_new_output server_new_output d w =
  if decide (linked server_new_output (claim d dev w)) then Ok tt (attach d dev w)
  else Fault invalid_pointer.
Proof.
  intros Hdev. destruct w as [S H D B R C E Q]. simpl in Hdev.
  unfold handle_new_output, calloc_cg_output, server_output, wl_signal_add_frame,
    wl_signal_add_destroy, wl_list_remove. exec_with Hdev.
  unfold attach, claim, select_mode_calls, select_mode.
  rewrite wl_list_empty_last.
  destruct (last (output_modes dev)) as [mode|] eqn:Hm;
    [rewrite bool_decide_false by done|rewrite bool_decide_true by done].
  - exec_with Hdev. rewrite <- !app_assoc. simpl.
    change (set_destroy_notify _ (set_frame_notify _ (set_cg_wlr_output d _)))
      with (claim_record d).
    unfold subscribe.
    destruct (decide (linked server_new_output _)) as [Hl|Hl]; [|done].
    unfold unlink. exec_with Hdev. rewrite lookup_fmap, lookup_insert_eq. exec_with Hdev.
    unfold cursor_calls. simpl.
    destruct (env_xcursor_load E Q =? 0); exec_with Hdev; rewrite <- ?app_assoc; reflexivity.
  - exec_with Hdev. rewrite <- ?app_assoc. simpl.
    change (set_destroy_notify _ (set_frame_notify _ (set_cg_wlr_output d _)))
      with (claim_record d).
    unfold subscribe.
    destruct (decide (linked server_new_output _)) as [Hl|Hl]; [|done].
    unfold unlink. exec_with Hdev. rewrite lookup_fmap, lookup_insert_eq. exec_with Hdev.
    unfold cursor_calls. simpl.
    destruct (env_xcursor_load E Q =? 0); exec_with Hdev; rewrite <- ?app_assoc; reflexivity.
Qed.

Lemma handle_new_output_no_device l d w :
  w_devices w !! d = None -> handle_new_output l d w = Fault invalid_pointer.
Proof.
  intros Hdev. unfold handle_new_output. destruct l; [|done..].
  run_monad. by rewrite Hdev.
Qed.

Lemma calls_since_attach d dev w :
  calls_since w (attach d dev w) =
  select_mode_calls d dev ++ [wlr_output_layout_add_auto d]
  ++ cursor_calls (select_mode dev) (env_xcursor_load (w_env w) (w_queries w)).
Proof.
  unfold calls_since, attach, claim, unlink, add_calls; simpl.
  by rewrite <- !app_assoc, drop_app_length.
Qed.

(** C8: for a device whose list of modes ends with [mode],
    [handle_new_output] returns normally, its first call sets [mode] on the
    device, no other mode is set, and the device ends with [mode] as its
    current mode and the mode's width and height. *)
Theorem last_mode_selected d dev ms mode w :
  w_devices w !! d = Some dev ->
  output_modes dev = ms ++ [mode] ->
  server_new_output ∈ w_backend_new_output w ->
  exists w' dev',
    handle_new_output server_new_output d w = Ok tt w' /\
    calls_since w w' =
      wlr_output_set_mode d mode :: wlr_output_layout_add_auto d ::
      cursor_calls (wlr_output_update_mode mode dev)
        (env_xcursor_load (w_env w) (w_queries w)) /\
    filter (fun c => is_set_mode c) (calls_since w w') = [wlr_output_set_mode d mode] /\
    w_devices w' !! d = Some dev' /\
    output_current_mode dev' = Some mode /\
    output_width dev' = mode_width mode /\
    output_height dev' = mode_height mode.
Proof.
  intros Hdev Hmodes Hin.
  assert (Hlast : last (output_modes dev) = Some mode) by (by rewrite Hmodes, last_snoc).
  exists (attach d dev w),
    (device_remove_listener server_new_output
       (subscribe (fresh (dom (w_heap w))) (wlr_output_update_mode mode dev))).
  split.
  { rewrite (handle_new_output_run _ _ _ Hdev). by rewrite decide_True by (by left). }
  rewrite calls_since_attach. unfold select_mode_calls, select_mode. rewrite Hlast.
  split; [done|]. split.
  { simpl. unfold cursor_calls. by destruct (negb _). }
  split; [|done].
  unfold attach, claim, unlink, select_mode. simpl.
  by rewrite Hlast, lookup_fmap, lookup_insert_eq.
Qed.

Lemma handle_output_frame_keeps l w w' :
  handle_output_frame l w = Ok tt w' ->
  w_server w' = w_server w /\ w_heap w' = w_heap w /\ w_devices w' = w_devices w /\
  w_backend_new_output w' = w_backend_new_output w.
Proof.
  destruct l as [|o|o]; [done| |done].
  destruct (w_heap w !! o) as [out|] eqn:Ho.
  2: { unfold handle_output_frame. run_monad. by rewrite Ho. }
  destruct (cg_wlr_output out) as [d|] eqn:Hd.
  2: { unfold handle_output_frame. run_monad. by rewrite Ho, Hd. }
  destruct (w_devices w !! d) as [dev|] eqn:Hdev.
  2: { unfold handle_output_frame. run_monad. rewrite Ho, Hd. run_monad.
       by rewrite Hdev. }
  rewrite (handle_output_frame_run _ _ _ _ _ Ho Hd Hdev).
  destruct (env_make_current _ _).
  - destruct (frame_calls w d dev); simpl; [|done]. by intros [= <-].
  - by intros [= <-].
Qed.

Lemma single_output_attach d dev w :
  w_devices w !! d = Some dev ->
  single_output w ->
  linked server_new_output (claim d dev w) ->
  single_output (attach d dev w).
Proof.
  intros Hdev (Hdevs & Hback & Hempty & Hsize) Hl.
  assert (Hin : server_new_output ∈ w_backend_new_output w).
  { destruct Hl as [Hl|Hl]; [done|]. exfalso.
    apply map_Exists_lookup in Hl as (d' & dev' & Hd' & Hin).
    unfold claim in Hd'. simpl in Hd'.
    destruct (decide (d = d')) as [<-|Hne].
    - rewrite lookup_insert_eq in Hd'. injection Hd' as <-.
      destruct (Hdevs _ _ Hdev) as [Hf Hd].
      unfold subscribe, select_mode in Hin.
      destruct (last (output_modes dev)); simpl in Hin;
        rewrite !elem_of_app, !list_elem_of_singleton in Hin;
        destruct Hin as [[?|?]|[?|?]]; done.
    - rewrite lookup_insert_ne in Hd' by done.
      destruct (Hdevs _ _ Hd') as [Hf Hd]. by destruct Hin. }
  specialize (Hempty Hin).
  unfold single_output, attach, claim, unlink. simpl.
  split; [|split; [|split]].
  - intros d' dev'. rewrite lookup_fmap. intros Hd'.
    destruct (_ !! d') as [dev0|]; simpl in Hd'; [|done]. injection Hd' as <-.
    simpl. unfold remove_listener. rewrite !list_elem_of_filter. by split; intros [? _].
  - intros l. unfold remove_listener. rewrite list_elem_of_filter. intros [_ Hl'].
    by apply Hback.
  - unfold remove_listener. rewrite list_elem_of_filter. by intros [? _].
  - rewrite Hempty, insert_empty, map_size_singleton. done.
Qed.

Lemma single_output_teardown o w :
  single_output w -> single_output (teardown o w).
Proof.
  intros (Hdevs & Hback & Hempty & Hsize).
  unfold single_output, teardown, unlink. simpl.
  split; [|split; [|split]].
  - intros d' dev'. rewrite !lookup_fmap. intros Hd'.
    destruct (w_devices w !! d') as [dev0|] eqn:Hd0; simpl in Hd'; [|done].
    injection Hd' as <-. destruct (Hdevs _ _ Hd0) as [Hf Hd].
    simpl. unfold remove_listener. rewrite !list_elem_of_filter.
    split; intros (_ & _ & ?); done.
  - intros l. unfold remove_listener. rewrite !list_elem_of_filter.
    intros (_ & _ & Hl). by apply Hback.
  - unfold remove_listener. rewrite !list_elem_of_filter.
    intros (_ & _ & Hl). by rewrite (Hempty Hl), delete_empty.
  - etrans; [|exact Hsize]. rewrite map_size_delete.
    destruct (_ !! o); unfold id; lia.
Qed.

Lemma single_output_keeps w w' :
  w_heap w' = w_heap w -> w_devices w' = w_devices w ->
  w_backend_new_output w' = w_backend_new_output w ->
  single_output w -> single_output w'.
Proof. unfold single_output. by intros -> -> ->. Qed.

Lemma single_output_notify data l w w' :
  single_output w -> notify data l w = Ok tt w' -> single_output w'.
Proof.
  intros Hinv. unfold notify. rewrite bind_run.
  destruct (listener_notify l w) as [f w1|] eqn:Hf; [|done].
  assert (w1 = w) as ->.
  { destruct l; unfold listener_notify in Hf; revert Hf; run_monad.
    - destruct (new_output_notify _); by intros [= _ <-].
    - destruct (w_heap w !! o) as [out|]; [|done].
      destruct (frame_notify out); by intros [= _ <-].
    - destruct (w_heap w !! o) as [out|]; [|done].
      destruct (destroy_notify out); by intros [= _ <-]. }
  destruct f.
  - destruct l; [|done..].
    destruct (w_devices w !! data) as [dev|] eqn:Hdev.
    + rewrite (handle_new_output_run _ _ _ Hdev).
      destruct (decide _) as [Hl|]; [|done]. intros [= <-].
      by apply single_output_attach.
    + by rewrite handle_new_output_no_device.
  - intros Hrun. apply handle_output_frame_keeps in Hrun as (_ & ? & ? & ?).
    by eapply single_output_keeps.
  - destruct l as [| |o]; [done..|].
    rewrite handle_output_destroy_run.
    destruct (w_heap w !! o); [|done].
    destruct (decide _); [|done]. destruct (decide _); [|done].
    intros [= <-]. by apply single_output_teardown.
Qed.

Lemma single_output_emit data ls w w' :
  single_output w -> wl_signal_emit ls data w = Ok tt w' -> single_output w'.
Proof.
  unfold wl_signal_emit. revert w.
  induction ls as [|l ls IH]; intros w Hinv; simpl.
  - by intros [= <-].
  - rewrite bind_run. destruct (notify data l w) as [[] w1|] eqn:Hn; [|done].
    apply IH. by eapply single_output_notify.
Qed.

Lemma single_output_step w w' : single_output w -> step w w' -> single_output w'.
Proof.
  intros Hinv Hstep. destruct Hstep as [n w w' Hrun|vs w|d dev w Hnone Hf Hd].
  - destruct n as [d|d|d]; unfold deliver in Hrun; revert Hrun; run_monad.
    + by apply single_output_emit.
    + destruct (w_devices w !! d); [|done]. by apply single_output_emit.
    + destruct (w_devices w !! d); [|done]. by apply single_output_emit.
  - by eapply single_output_keeps.
  - destruct Hinv as (Hdevs & Hback & Hempty & Hsize).
    split; [|done]. simpl. apply map_Forall_insert_2; [|done].
    rewrite Hf, Hd. split; apply not_elem_of_nil.
Qed.

Lemma single_output_initial w : initial w -> single_output w.
Proof.
  intros (Hheap & _ & Hback & Hdevs). split; [|split; [|split]].
  - intros d dev Hd. destruct (Hdevs _ _ Hd) as [-> ->].
    split; apply not_elem_of_nil.
  - rewrite Hback. by intros l ->%list_elem_of_singleton.
  - done.
  - rewrite Hheap, map_size_empty. lia.
Qed.

(** C2: in every state reachable from the initial one at most one
    [cg_output] record is allocated; while one exists, the server's
    new-output listener is not on the backend's list; and once it is off the
    list a further device-attach notification changes nothing. *)
Theorem at_most_one_output w0 w :
  initial w0 -> rtc step w0 w ->
  (size (w_heap w) <= 1)%nat /\
  (w_heap w ≠ ∅ -> server_new_output ∉ w_backend_new_output w) /\
  (server_new_output ∉ w_backend_new_output w ->
   forall d, deliver (new_output_event d) w = Ok tt w).
Proof.
  intros Hinit Hsteps.
  assert (Hinv : single_output w).
  { apply single_output_initial in Hinit. clear -Hinit Hsteps.
    induction Hsteps as [|w1 w2 w3 Hstep _ IH]; [done|].
    apply IH. by eapply single_output_step. }
  destruct Hinv as (Hdevs & Hback & Hempty & Hsize).
  split; [done|]. split; [by intros Hne Hin; apply Hne, Hempty|].
  intros Hnot d. unfold deliver, wl_signal_emit. run_monad.
  destruct (w_backend_new_output w) as [|l ls]; [done|].
  exfalso. apply Hnot. rewrite <- (Hback l); left.
Qed.

Lemma device_removed_tears_down_witness :
  w_heap (Scenario.active Scenario.scale_1) !! 1%positive = Some Scenario.claimed /\
  linked (output_frame 1%positive) (Scenario.active Scenario.scale_1) /\
  linked (output_destroy 1%positive) (Scenario.active Scenario.scale_1) /\
  exists w',
    handle_output_destroy (output_destroy 1%positive) (Scenario.active Scenario.scale_1)
      = Ok tt w' /\
    w_heap w' !! 1%positive = None /\
    output (w_server w') = None /\
    calls_since (Scenario.active Scenario.scale_1) w'
      = [free 1%positive; wl_display_terminate] /\
    w_display_running w' = false.
Proof.
  assert (Ho : w_heap (Scenario.active Scenario.scale_1) !! 1%positive
               = Some Scenario.claimed) by (vm_compute; reflexivity).
  assert (Hf : linked (output_frame 1%positive) (Scenario.active Scenario.scale_1)).
  { apply (bool_decide_unpack _). vm_compute. exact I. }
  assert (Hd : linked (output_destroy 1%positive) (Scenario.active Scenario.scale_1)).
  { apply (bool_decide_unpack _). vm_compute. exact I. }
  split; [exact Ho|]. split; [exact Hf|]. split; [exact Hd|].
  destruct (device_removed_tears_down 1%positive _ _ Ho Hf Hd)
    as (w' & Hrun & _ & _ & _ & Hgone & Hnull & Hcalls & Hstop).
  exists w'. done.
Defined.

Lemma teardown_guarded_by_unsubscription_witness :
  w_devices (Scenario.active Scenario.scale_1) !! 5%positive
    = Some (Scenario.attached Scenario.scale_1) /\
  events_destroy (Scenario.attached Scenario.scale_1) = [output_destroy 1%positive] /\
  w_heap (Scenario.active Scenario.scale_1) !! 1%positive = Some Scenario.claimed /\
  destroy_notify Scenario.claimed = Some fn_handle_output_destroy /\
  linked (output_frame 1%positive) (Scenario.active Scenario.scale_1) /\
  exists w',
    deliver (destroy_event 5%positive) (Scenario.active Scenario.scale_1) = Ok tt w' /\
    deliver (destroy_event 5%positive) w' = Ok tt w' /\
    length (filter (fun c => is_terminate c)
              (calls_since (Scenario.active Scenario.scale_1) w')) = 1%nat.
Proof.
  assert (Hdev : w_devices (Scenario.active Scenario.scale_1) !! 5%positive
                 = Some (Scenario.attached Scenario.scale_1))
    by (vm_compute; reflexivity).
  assert (Ho : w_heap (Scenario.active Scenario.scale_1) !! 1%positive
               = Some Scenario.claimed) by (vm_compute; reflexivity).
  assert (Hf : linked (output_frame 1%positive) (Scenario.active Scenario.scale_1)).
  { apply (bool_decide_unpack _). vm_compute. exact I. }
  split; [exact Hdev|]. split; [reflexivity|]. split; [exact Ho|].
  split; [reflexivity|]. split; [exact Hf|].
  destruct (teardown_guarded_by_unsubscription 1%positive _ 5%positive _ _
              Hdev eq_refl Ho eq_refl Hf) as (w' & H1 & H2 & _ & Hcount).
  exists w'. done.
Defined.

Lemma last_mode_selected_witness :
  w_devices (Scenario.unclaimed Scenario.scale_1) !! 5%positive
    = Some (Scenario.monitor Scenario.scale_1) /\
  output_modes (Scenario.monitor Scenario.scale_1)
    = [Scenario.mode_720p] ++ [Scenario.mode_1080p] /\
  server_new_output ∈ w_backend_new_output (Scenario.unclaimed Scenario.scale_1) /\
  exists w' dev',
    handle_new_output server_new_output 5%positive (Scenario.unclaimed Scenario.scale_1)
      = Ok tt w' /\
    calls_since (Scenario.unclaimed Scenario.scale_1) w' =
      [ wlr_output_set_mode 5%positive Scenario.mode_1080p;
        wlr_output_layout_add_auto 5%positive;
        wlr_xcursor_manager_load Scenario.scale_1 0;
        wlr_xcursor_manager_set_cursor_image DEFAULT_XCURSOR;
        wlr_cursor_warp 960 540 ] /\
    w_devices w' !! 5%positive = Some dev' /\
    output_current_mode dev' = Some Scenario.mode_1080p.
Proof.
  assert (Hdev : w_devices (Scenario.unclaimed Scenario.scale_1) !! 5%positive
                 = Some (Scenario.monitor Scenario.scale_1))
    by (vm_compute; reflexivity).
  assert (Hin : server_new_output
                ∈ w_backend_new_output (Scenario.unclaimed Scenario.scale_1))
    by left.
  split; [exact Hdev|]. split; [reflexivity|]. split; [exact Hin|].
  destruct (last_mode_selected 5%positive _ [Scenario.mode_720p] Scenario.mode_1080p _
              Hdev eq_refl Hin)
    as (w' & dev' & Hrun & Hcalls & _ & Hdev' & Hmode & _).
  exists w', dev'. split; [exact Hrun|]. split; [|done].
  rewrite Hcalls. reflexivity.
Defined.

Lemma at_most_one_output_witness :
  initial (Scenario.unclaimed Scenario.scale_1) /\
  rtc step (Scenario.unclaimed Scenario.scale_1) (Scenario.active Scenario.scale_1) /\
  (size (w_heap (Scenario.active Scenario.scale_1)) <= 1)%nat /\
  forall d,
    deliver (new_output_event d) (Scenario.active Scenario.scale_1)
      = Ok tt (Scenario.active Scenario.scale_1).
Proof.
  assert (Hinit : initial (Scenario.unclaimed Scenario.scale_1)).
  { split; [reflexivity|]. split; [reflexivity|]. split; [reflexivity|].
    apply map_Forall_singleton. by split. }
  assert (Hsteps : rtc step (Scenario.unclaimed Scenario.scale_1)
                     (Scenario.active Scenario.scale_1)).
  { apply rtc_once. apply (step_deliver (new_output_event 5%positive)).
    vm_compute. reflexivity. }
  split; [exact Hinit|]. split; [exact Hsteps|].
  destruct (at_most_one_output _ _ Hinit Hsteps) as (Hsize & Hoff & Hnoop).
  split; [exact Hsize|].
  apply Hnoop, Hoff. vm_compute. discriminate.
Defined.

(** ** Exact floating-point arithmetic *)

Lemma nat_iter_xO_Z n N : Zpos (Nat.iter n xO N) = Zpos N * 2 ^ Z.of_nat n.
Proof.
  induction n as [|n IH].
  - simpl. lia.
  - rewrite Nat2Z.inj_succ, Z.pow_succ_r by lia. simpl Nat.iter.
    rewrite Pos2Z.inj_xO, IH. lia.
Qed.

Lemma pos_iter_nat {A} (f : A -> A) (x : A) (p : positive) :
  Pos.iter f x p = Nat.iter (Pos.to_nat p) f x.
Proof. rewrite Pos2Nat.inj_iter. reflexivity. Qed.

Lemma shl_Z N k : 0 <= k -> Zpos (shl N k) = Zpos N * 2 ^ k.
Proof.
  destruct k as [|p|p]; simpl; try lia.
  intros _. rewrite pos_iter_nat, nat_iter_xO_Z, positive_nat_Z. reflexivity.
Qed.

Lemma digits_log2 m : digits m = Z.log2 (Zpos m) + 1.
Proof.
  unfold digits. induction m as [m IH|m IH|]; simpl digits2_pos.
  - rewrite Pos2Z.inj_succ, IH. simpl Z.log2. destruct m; simpl; lia.
  - rewrite Pos2Z.inj_succ, IH. simpl Z.log2. destruct m; simpl; lia.
  - reflexivity.
Qed.

Lemma digits_pos m : 0 < digits m.
Proof. unfold digits. lia. Qed.

Lemma digits_bounds m : 2 ^ (digits m - 1) <= Zpos m < 2 ^ digits m.
Proof.
  rewrite digits_log2. replace (Z.log2 (Zpos m) + 1 - 1) with (Z.log2 (Zpos m)) by lia.
  pose proof (Z.log2_spec (Zpos m) ltac:(lia)) as H.
  replace (Z.succ (Z.log2 (Zpos m))) with (Z.log2 (Zpos m) + 1) in H by lia. exact H.
Qed.

Lemma digits_unique m d : 2 ^ (d - 1) <= Zpos m < 2 ^ d -> digits m = d.
Proof.
  intros H. rewrite digits_log2.
  assert (0 <= d - 1).
  { destruct (Z.le_gt_cases 0 (d - 1)) as [|Hneg]; [assumption|].
    exfalso. assert (d <= 0) by lia.
    assert (2 ^ d <= 2 ^ 0) by (destruct (Z.eq_dec d 0) as [->|]; [lia|];
      rewrite (Z.pow_neg_r 2 d) by lia; simpl; lia).
    simpl in *. lia. }
  rewrite (Z.log2_unique (Zpos m) (d - 1)); [lia|lia|].
  replace (Z.succ (d - 1)) with d by lia. exact H.
Qed.

Lemma digits_shl N k : 0 <= k -> digits (shl N k) = digits N + k.
Proof.
  intros Hk. apply digits_unique. rewrite shl_Z by assumption.
  pose proof (digits_bounds N) as [Hlo Hhi]. pose proof (digits_pos N).
  replace (digits N + k - 1) with (digits N - 1 + k) by lia.
  rewrite !Z.pow_add_r by lia.
  assert (0 < 2 ^ k) by (apply Z.pow_pos_nonneg; lia).
  split; nia.
Qed.

Lemma digits_lt N d : Zpos N < 2 ^ d -> digits N <= d.
Proof.
  intros H. destruct (Z.le_gt_cases (digits N) d) as [|Hgt]; [assumption|].
  exfalso. pose proof (digits_bounds N) as [Hlo _].
  assert (2 ^ d <= 2 ^ (digits N - 1)).
  { destruct (Z.le_gt_cases 0 d).
    - apply Z.pow_le_mono_r; lia.
    - rewrite (Z.pow_neg_r 2 d) by lia. apply Z.pow_nonneg. lia. }
  lia.
Qed.

Lemma shl_shl N a b : 0 <= a -> 0 <= b -> shl (shl N a) b = shl N (a + b).
Proof.
  intros Ha Hb. apply Pos2Z.inj. rewrite !shl_Z by lia.
  rewrite Z.pow_add_r by lia. lia.
Qed.

Lemma shl_from_Z M N k : 0 <= k -> Zpos M = Zpos N * 2 ^ k -> M = shl N k.
Proof. intros Hk H. apply Pos2Z.inj. rewrite shl_Z by assumption. exact H. Qed.

(** Shifting right what was shifted left loses nothing. *)
Lemma nat_iter_shr_1 n N :
  Nat.iter n shr_1 {| shr_m := Zpos (Nat.iter n xO N); shr_r := false; shr_s := false |}
  = {| shr_m := Zpos N; shr_r := false; shr_s := false |}.
Proof.
  revert N. induction n as [|n IH]; intros N; [reflexivity|].
  rewrite Nat.iter_succ_r.
  replace (Nat.iter (S n) xO N) with (xO (Nat.iter n xO N)) by reflexivity.
  simpl shr_1. apply IH.
Qed.

Lemma iter_pos_nat {A} (f : A -> A) (x : A) (p : positive) :
  SpecFloat.iter_pos f p x = Nat.iter (Pos.to_nat p) f x.
Proof.
  revert x. induction p as [p IH|p IH|]; intros x; simpl SpecFloat.iter_pos.
  - rewrite !IH, <- Nat.iter_add, <- Nat.iter_succ_r.
    f_equal. rewrite Pos2Nat.inj_xI. lia.
  - rewrite !IH, <- Nat.iter_add. f_equal. rewrite Pos2Nat.inj_xO. lia.
  - reflexivity.
Qed.

Lemma shr_exact N p :
  SpecFloat.iter_pos shr_1 p
    {| shr_m := Zpos (shl N (Zpos p)); shr_r := false; shr_s := false |}
  = {| shr_m := Zpos N; shr_r := false; shr_s := false |}.
Proof. simpl shl. rewrite iter_pos_nat, pos_iter_nat. apply nat_iter_shr_1. Qed.

(** Facts that hold at every precision. *)
Section Exact.
Variables prec emax : Z.
Hypothesis Hprec : 0 < prec.

Lemma fexp_normal e : emin prec emax <= e - prec -> fexp prec emax e = e - prec.
Proof. intros H. unfold fexp. lia. Qed.

(** Rounding a mantissa that fits after dropping zero bits is exact. *)
Lemma binary_round_aux_exact s M e N j :
  Zpos M = Zpos N * 2 ^ j -> 0 <= j ->
  digits N <= prec <= digits N + j ->
  emin prec emax <= e + digits N + j - prec <= emax - prec ->
  binary_round_aux prec emax s (Zpos M) e loc_Exact
  = S754_finite s (shl N (prec - digits N)) (e + digits N + j - prec).
Proof.
  intros HM Hj Hd He.
  assert (HMs : M = shl N j) by (apply shl_from_Z; assumption).
  assert (HD : digits M = digits N + j) by (rewrite HMs; apply digits_shl; assumption).
  unfold binary_round_aux, shr_fexp. simpl Zdigits2. fold (digits M).
  rewrite fexp_normal by lia. simpl shr_record_of_loc.
  set (n := digits M + e - prec - e).
  assert (Hn : n = digits N + j - prec) by (unfold n; lia).
  assert (Hfirst : shr {| shr_m := Zpos M; shr_r := false; shr_s := false |} e n
                   = ({| shr_m := Zpos (shl N (prec - digits N)); shr_r := false;
                         shr_s := false |}, e + digits N + j - prec)).
  { destruct n as [|p|p] eqn:Hp; simpl shr.
    - f_equal; [|lia]. f_equal. f_equal. rewrite HMs. f_equal. lia.
    - f_equal; [|lia].
      assert (HM' : M = shl (shl N (prec - digits N)) (Zpos p)).
      { rewrite shl_shl by lia. rewrite HMs. f_equal. lia. }
      rewrite HM'. apply shr_exact.
    - lia. }
  rewrite Hfirst. simpl loc_of_shr_record. simpl round_nearest_even.
  simpl shr_m. simpl shr_record_of_loc. simpl Zdigits2.
  fold (digits (shl N (prec - digits N))).
  rewrite digits_shl by lia.
  rewrite fexp_normal by lia.
  replace (digits N + (prec - digits N) + (e + digits N + j - prec) - prec
           - (e + digits N + j - prec)) with 0 by lia.
  simpl shr. cbv beta iota zeta delta [shr_m].
  destruct (Z.leb_spec (e + digits N + j - prec) (emax - prec)); [reflexivity|lia].
Qed.

Lemma binary_round_exact s M e N j :
  Zpos M = Zpos N * 2 ^ j -> 0 <= j ->
  digits N <= prec ->
  emin prec emax <= e + digits N + j - prec <= emax - prec ->
  binary_round prec emax s M e
  = S754_finite s (shl N (prec - digits N)) (e + digits N + j - prec).
Proof.
  intros HM Hj Hd He.
  assert (HMs : M = shl N j) by (apply shl_from_Z; assumption).
  assert (HD : digits M = digits N + j) by (rewrite HMs; apply digits_shl; assumption).
  unfold binary_round. fold (digits M). rewrite fexp_normal by lia.
  unfold shl_align.
  destruct (digits M + e - prec - e) as [|p|p] eqn:Hp.
  - rewrite (binary_round_aux_exact s M e N j) by (assumption || lia). reflexivity.
  - rewrite (binary_round_aux_exact s M e N j) by (assumption || lia). reflexivity.
  - fold (shl M (Zpos p)).
    rewrite (binary_round_aux_exact s (shl M (Zpos p)) (digits M + e - prec) N
               (prec - digits N)).
    + f_equal. lia.
    + rewrite HMs, shl_shl, shl_Z by lia. f_equal. f_equal. lia.
    + lia.
    + lia.
    + lia.
Qed.


Hypothesis Hemax : prec < emax.

Lemma binary_round_normal s M e N j :
  Zpos M = Zpos N * 2 ^ j -> 0 <= j ->
  digits N <= prec ->
  emin prec emax <= e + j + digits N - prec <= emax - prec ->
  binary_round prec emax s M e = normal prec s N (e + j).
Proof.
  intros HM Hj Hd He. unfold normal.
  rewrite (binary_round_exact s M e N j) by (assumption || lia).
  f_equal. lia.
Qed.

Lemma of_int_normal n :
  n <> 0 -> Z.abs n < 2 ^ prec ->
  float_of_int prec emax n = normal prec (n <? 0) (Z.to_pos (Z.abs n)) 0.
Proof.
  intros Hn Hlt. unfold float_of_int, binary_normalize.
  pose proof (digits_pos (Z.to_pos (Z.abs n))).
  assert (digits (Z.to_pos (Z.abs n)) <= prec).
  { apply digits_lt. rewrite Z2Pos.id by lia. assumption. }
  destruct n as [|m|m]; [lia| |].
  - change (Z.to_pos (Z.abs (Zpos m))) with m in *.
    change (Zpos m <? 0) with false.
    apply (binary_round_normal false m 0 m 0); unfold emin; rewrite ?Z.pow_0_r; lia.
  - change (Z.to_pos (Z.abs (Zneg m))) with m in *.
    change (Zneg m <? 0) with true.
    apply (binary_round_normal true m 0 m 0); unfold emin; rewrite ?Z.pow_0_r; lia.
Qed.

Lemma digits_mul_ge A B : digits A + digits B - 1 <= digits (A * B).
Proof.
  pose proof (digits_bounds A) as [HA _]. pose proof (digits_bounds B) as [HB _].
  pose proof (digits_bounds (A * B)) as [_ HAB].
  pose proof (digits_pos A). pose proof (digits_pos B). pose proof (digits_pos (A * B)).
  rewrite Pos2Z.inj_mul in HAB.
  assert (2 ^ (digits A - 1 + (digits B - 1)) < 2 ^ digits (A * B)).
  { rewrite Z.pow_add_r by lia. nia. }
  apply Z.pow_lt_mono_r_iff in H2; lia.
Qed.

Lemma SFmul_normal sa A Ea sb B Eb :
  digits A <= prec -> digits B <= prec -> digits (A * B) <= prec ->
  emin prec emax <= Ea + Eb + digits (A * B) - prec <= emax - prec ->
  SFmul prec emax (normal prec sa A Ea) (normal prec sb B Eb)
  = normal prec (xorb sa sb) (A * B) (Ea + Eb).
Proof.
  intros HA HB HAB He. unfold normal at 1 2. simpl SFmul.
  pose proof (digits_mul_ge A B).
  rewrite (binary_round_aux_exact (xorb sa sb) _ _ (A * B)
             (prec - digits A + (prec - digits B))).
  - unfold normal. f_equal. lia.
  - rewrite Pos2Z.inj_mul, !shl_Z, Pos2Z.inj_mul, Z.pow_add_r by lia. ring.
  - lia.
  - lia.
  - lia.
Qed.

Lemma SFmul_zero_l s x sx mx ex :
  x = S754_finite sx mx ex -> SFmul prec emax (S754_zero s) x = S754_zero (xorb s sx).
Proof. intros ->. reflexivity. Qed.

Lemma shl_align_fst m e ez :
  ez <= e -> Zpos (fst (shl_align m e ez)) = Zpos m * 2 ^ (e - ez).
Proof.
  intros Hle. unfold shl_align.
  destruct (ez - e) as [|p|p] eqn:Hp; simpl fst.
  - replace (e - ez) with 0 by lia. simpl. lia.
  - lia.
  - fold (shl m (Zpos p)). rewrite shl_Z by lia. f_equal. f_equal. lia.
Qed.

Lemma normal_value s N e ez :
  digits N <= prec -> ez <= e ->
  cond_Zopp s (Zpos (shl N (prec - digits N)) * 2 ^ (e - ez))
  = cond_Zopp s (Zpos N) * 2 ^ (e + (prec - digits N) - ez).
Proof.
  intros Hd Hez. rewrite shl_Z by lia.
  replace (e + (prec - digits N) - ez) with (prec - digits N + (e - ez)) by lia.
  rewrite Z.pow_add_r by lia. destruct s; unfold cond_Zopp; ring.
Qed.

Lemma cond_Zopp_abs n : cond_Zopp (n <? 0) (Z.abs n) = n.
Proof. destruct n; reflexivity. Qed.

(** Adding the floats of two integers whose sum fits. *)
Lemma SFadd_of_int a b :
  Z.abs a < 2 ^ prec -> Z.abs b < 2 ^ prec -> Z.abs (a + b) < 2 ^ prec ->
  SFadd prec emax (float_of_int prec emax a) (float_of_int prec emax b)
  = float_of_int prec emax (a + b).
Proof.
  intros Ha Hb Hab.
  destruct (Z.eq_dec a 0) as [->|Hna].
  { rewrite Z.add_0_l. change (float_of_int prec emax 0) with (S754_zero false).
    destruct (Z.eq_dec b 0) as [->|Hnb]; [reflexivity|].
    rewrite (of_int_normal b) by assumption. reflexivity. }
  destruct (Z.eq_dec b 0) as [->|Hnb].
  { rewrite Z.add_0_r. change (float_of_int prec emax 0) with (S754_zero false).
    rewrite (of_int_normal a) by assumption. reflexivity. }
  rewrite (of_int_normal a), (of_int_normal b) by assumption.
  set (A := Z.to_pos (Z.abs a)). set (B := Z.to_pos (Z.abs b)).
  assert (HA : digits A <= prec) by (apply digits_lt; unfold A; rewrite Z2Pos.id; lia).
  assert (HB : digits B <= prec) by (apply digits_lt; unfold B; rewrite Z2Pos.id; lia).
  unfold normal.
  remember (0 - (prec - digits A)) as ea eqn:Hea.
  remember (0 - (prec - digits B)) as eb eqn:Heb.
  simpl SFadd. try change IntDef.Z.min with Z.min.
  set (ez := Z.min ea eb).
  rewrite !shl_align_fst by (unfold ez; lia).
  rewrite !normal_value by (assumption || (unfold ez; lia)).
  unfold A, B. rewrite !Z2Pos.id by lia. rewrite !cond_Zopp_abs.
  fold A B.
  replace (ea + (prec - digits A) - ez) with (- ez) by lia.
  replace (eb + (prec - digits B) - ez) with (- ez) by lia.
  replace (a * 2 ^ (- ez) + b * 2 ^ (- ez)) with ((a + b) * 2 ^ (- ez)) by ring.
  pose proof (digits_pos A). pose proof (digits_pos B).
  assert (Hez : ez <= 0) by (unfold ez; lia).
  assert (Hpow : 0 < 2 ^ (- ez)) by (apply Z.pow_pos_nonneg; lia).
  destruct (Z.eq_dec (a + b) 0) as [Hz|Hnz].
  { rewrite Hz. reflexivity. }
  rewrite (of_int_normal (a + b)) by assumption.
  pose proof (digits_pos (Z.to_pos (Z.abs (a + b)))).
  assert (digits (Z.to_pos (Z.abs (a + b))) <= prec).
  { apply digits_lt. rewrite Z2Pos.id by lia. assumption. }
  unfold float_of_int, binary_normalize.
  destruct ((a + b) * 2 ^ (- ez)) as [|m|m] eqn:Hm; [nia| |].
  - assert (0 < a + b) by nia.
    replace (a + b <? 0) with false by (symmetry; apply Z.ltb_ge; lia).
    replace (normal prec false (Z.to_pos (Z.abs (a + b))) 0)
      with (normal prec false (Z.to_pos (Z.abs (a + b))) (ez + - ez))
      by (f_equal; lia).
    apply binary_round_normal; unfold emin; try lia.
    rewrite Z2Pos.id by lia. rewrite Z.abs_eq by lia. lia.
  - assert (a + b < 0) by nia.
    replace (a + b <? 0) with true by (symmetry; apply Z.ltb_lt; lia).
    replace (normal prec true (Z.to_pos (Z.abs (a + b))) 0)
      with (normal prec true (Z.to_pos (Z.abs (a + b))) (ez + - ez))
      by (f_equal; lia).
    apply binary_round_normal; unfold emin; try lia.
    rewrite Z2Pos.id by lia. rewrite Z.abs_neq by lia. lia.
Qed.

End Exact.

Lemma trunc_float_normal prec s N k :
  0 < prec -> digits N <= prec -> 0 <= k ->
  trunc_float (normal prec s N (- k))
  = Some (trunc_div (cond_Zopp s (Zpos N)) k).
Proof.
  intros Hprec Hd Hk. unfold normal, trunc_float, trunc_div. f_equal.
  pose proof (digits_pos N).
  assert (Hpow : 0 < 2 ^ k) by (apply Z.pow_pos_nonneg; lia).
  assert (Hquot : forall m, m = Zpos N / 2 ^ k ->
            cond_Zopp s m = Z.quot (cond_Zopp s (Zpos N)) (2 ^ k)).
  { intros m ->. destruct s; simpl cond_Zopp.
    - change (Zneg N) with (- Zpos N). rewrite Z.quot_opp_l by lia.
      by rewrite Z.quot_div_nonneg by lia.
    - by rewrite Z.quot_div_nonneg by lia. }
  apply Hquot.
  destruct (- k - (prec - digits N)) as [|j|j] eqn:He.
  - assert (k = 0) as -> by lia. assert (prec - digits N = 0) as -> by lia.
    simpl. by rewrite Z.div_1_r.
  - lia.
  - rewrite Z.shiftr_div_pow2, shl_Z by lia.
    replace (Zpos j) with (prec - digits N + k) by lia.
    rewrite Z.pow_add_r by lia.
    rewrite (Z.mul_comm (2 ^ (prec - digits N))).
    rewrite Z.div_mul_cancel_r; [done|lia|].
    assert (0 < 2 ^ (prec - digits N)) by (apply Z.pow_pos_nonneg; lia). lia.
Qed.

Lemma to_double_normal s p E :
  digits p <= Float.prec ->
  -1074 <= E + digits p - 53 <= 971 ->
  Float.to_double (normal Float.prec s p E) = normal Double.prec s p E.
Proof.
  intros Hd He. unfold normal at 1. unfold Float.to_double.
  pose proof (digits_pos p). unfold Float.prec, Double.prec, Double.emax in *.
  assert (Hround :
    binary_round 53 1024 s (shl p (24 - digits p)) (E - (24 - digits p))
    = normal 53 s p (E - (24 - digits p) + (24 - digits p))).
  { apply binary_round_normal; try lia.
    - by rewrite shl_Z by lia.
    - unfold emin. lia. }
  replace (E - (24 - digits p) + (24 - digits p)) with E in Hround by lia.
  destruct s; exact Hround.
Qed.

Section Product.
Variables prec emax : Z.
Hypothesis Hprec : 0 < prec.
Hypothesis Hemax : prec < emax.

(** The product of an integer and the scale [p / 2 ^ k], converted to
    [int], when the product of the integer and [p] fits the mantissa. *)
Lemma int_of_float_product n p k :
  0 <= k <= emax - 3 ->
  Z.abs n * Zpos p < 2 ^ prec ->
  Zpos p < 2 ^ prec ->
  int_of_float (SFmul prec emax (float_of_int prec emax n) (normal prec false p (- k)))
  = int_checked (trunc_div (n * Zpos p) k).
Proof using Hprec Hemax.
  intros Hk Hnp Hp. unfold int_of_float.
  destruct (Z.eq_dec n 0) as [->|Hn].
  { change (float_of_int prec emax 0) with (S754_zero false).
    unfold normal. simpl. unfold trunc_div. by rewrite Z.quot_0_l by lia. }
  assert (Hlt : Z.abs n < 2 ^ prec) by nia.
  rewrite (of_int_normal prec emax Hprec Hemax n Hn Hlt).
  set (A := Z.to_pos (Z.abs n)).
  assert (HA : Zpos A = Z.abs n) by (unfold A; rewrite Z2Pos.id; lia).
  assert (HdA : digits A <= prec) by (apply digits_lt; lia).
  assert (Hdp : digits p <= prec) by (by apply digits_lt).
  assert (HdAp : digits (A * p) <= prec).
  { apply digits_lt. rewrite Pos2Z.inj_mul. lia. }
  pose proof (digits_pos (A * p)).
  rewrite (SFmul_normal prec emax Hprec (n <? 0) A 0 false p (- k))
    by (unfold emin; lia || done).
  rewrite Z.add_0_l, xorb_false_r.
  rewrite (trunc_float_normal prec _ _ k) by lia.
  simpl. f_equal. f_equal.
  rewrite Pos2Z.inj_mul, HA. destruct n; simpl; lia.
Qed.

End Product.

Lemma in_int_trunc_div n k :
  0 <= k -> Z.abs n < 2 ^ 31 -> in_int (trunc_div n k) = true.
Proof.
  intros Hk Hn. unfold in_int, trunc_div, INT_MIN, INT_MAX.
  assert (Hpow : 0 < 2 ^ k) by (apply Z.pow_pos_nonneg; lia).
  assert (Habs : Z.abs (Z.quot n (2 ^ k)) <= Z.abs n).
  { rewrite <- (Z.abs_eq (2 ^ k)) at 1 by lia.
    rewrite <- Z.quot_abs by lia.
    rewrite Z.quot_div_nonneg by lia.
    apply Z.div_le_upper_bound; [lia|]. nia. }
  apply andb_true_intro. split; [apply Z.leb_le|apply Z.leb_le]; lia.
Qed.

Lemma int_checked_in z : in_int z = true -> int_checked z = Some z.
Proof. intros H. unfold int_checked. by rewrite H. Qed.

Lemma in_int_abs z : in_int z = true -> Z.abs z <= 2 ^ 31.
Proof.
  unfold in_int, INT_MIN, INT_MAX. intros [H1 H2]%andb_prop.
  apply Z.leb_le in H1, H2. lia.
Qed.

(** The rectangle of a surface drawn at scale [p / 2 ^ k]. *)
Lemma placement_exact layout d p k v sx sy current l :
  List.find (fun l => Pos.eqb (lo_output l) d) layout = Some l ->
  in_int (lo_x l) = true -> in_int (lo_y l) = true ->
  in_int (view_x v + sx) = true -> in_int (view_y v + sy) = true ->
  0 <= k <= 125 -> Zpos p < 2 ^ 24 ->
  Z.abs (lo_x l + (view_x v + sx)) * Zpos p < 2 ^ 53 ->
  Z.abs (lo_y l + (view_y v + sy)) * Zpos p < 2 ^ 53 ->
  in_int (trunc_div ((lo_x l + (view_x v + sx)) * Zpos p) k) = true ->
  in_int (trunc_div ((lo_y l + (view_y v + sy)) * Zpos p) k) = true ->
  Z.abs (current_width current) * Zpos p < 2 ^ 24 ->
  Z.abs (current_height current) * Zpos p < 2 ^ 24 ->
  placement layout d (normal Float.prec false p (- k)) v sx sy current
  = Some {| box_x := trunc_div ((lo_x l + (view_x v + sx)) * Zpos p) k;
            box_y := trunc_div ((lo_y l + (view_y v + sy)) * Zpos p) k;
            box_width := trunc_div (current_width current * Zpos p) k;
            box_height := trunc_div (current_height current * Zpos p) k |}.
Proof.
  intros Hfind Hlx Hly Hdx Hdy Hk Hp HX HY HiX HiY HW HH.
  unfold placement, wlr_output_layout_output_coords. rewrite Hfind.
  unfold int_add. rewrite !int_checked_in by done. simpl.
  apply in_int_abs in Hlx, Hly, Hdx, Hdy.
  assert (H53 : (2:Z) ^ 31 + 2 ^ 31 < 2 ^ 53) by (by vm_compute).
  assert (H31 : (2:Z) ^ 24 < 2 ^ 31) by (by vm_compute).
  assert (H2453 : (2:Z) ^ 24 < 2 ^ 53) by (by vm_compute).
  unfold surface_box, Double.add, Double.mul, Double.of_int, Float.mul, Float.of_int.
  rewrite !(SFadd_of_int Double.prec Double.emax) by (unfold Double.prec, Double.emax; lia).
  rewrite to_double_normal; last first.
  { pose proof (digits_pos p). assert (digits p <= 24) by (by apply digits_lt). lia. }
  { by apply digits_lt. }
  rewrite !(int_of_float_product Double.prec Double.emax)
    by (unfold Double.prec, Double.emax; lia).
  rewrite !(int_of_float_product Float.prec Float.emax)
    by (unfold Float.prec, Float.emax; lia).
  rewrite !int_checked_in; [done|..]; try done.
  - apply in_int_trunc_div; lia.
  - apply in_int_trunc_div; lia.
Qed.

(** C6, amended: the members of the placement rectangle are [int]s. For a
    surface that is drawn, with the output at (lx, ly) in the layout, the
    view at (vx, vy), the surface at offset (sx, sy) and of committed size
    (w, h), and a device scale s = p / 2 ^ k, [render_surface] draws into the
    rectangle at (trunc ((lx+vx+sx)*s), trunc ((ly+vy+sy)*s)) of size
    (trunc (w*s), trunc (h*s)), where trunc discards the fractional part,
    provided the products are exact in the floating types (a position times
    p below 2^53, a size times p below 2^24) and fit an [int]. At an integer
    scale (k = 0) these are the products themselves; at offset (0,0) the
    position is that of (lx+vx, ly+vy). *)
Theorem placement_of_drawn_surface w d dev layout when v s sx sy texture l p k :
  w_devices w !! d = Some dev ->
  wlr_surface_has_buffer s = true ->
  wlr_surface_get_texture s = Some texture ->
  List.find (fun l => Pos.eqb (lo_output l) d) layout = Some l ->
  output_scale dev = normal Float.prec false p (- k) ->
  0 <= k <= 125 -> Zpos p < 2 ^ 24 ->
  in_int (lo_x l) = true -> in_int (lo_y l) = true ->
  in_int (view_x v + sx) = true -> in_int (view_y v + sy) = true ->
  Z.abs (lo_x l + (view_x v + sx)) * Zpos p < 2 ^ 53 ->
  Z.abs (lo_y l + (view_y v + sy)) * Zpos p < 2 ^ 53 ->
  in_int (trunc_div ((lo_x l + (view_x v + sx)) * Zpos p) k) = true ->
  in_int (trunc_div ((lo_y l + (view_y v + sy)) * Zpos p) k) = true ->
  Z.abs (current_width (surface_current s)) * Zpos p < 2 ^ 24 ->
  Z.abs (current_height (surface_current s)) * Zpos p < 2 ^ 24 ->
  render_surface s sx sy
    {| rd_output_layout := layout; rd_output := d; rd_view := Some v; rd_when := when |} w
  = Ok tt
      (add_calls
         (draw_calls d when s texture
            {| box_x := trunc_div ((lo_x l + (view_x v + sx)) * Zpos p) k;
               box_y := trunc_div ((lo_y l + (view_y v + sy)) * Zpos p) k;
               box_width := trunc_div (current_width (surface_current s) * Zpos p) k;
               box_height := trunc_div (current_height (surface_current s) * Zpos p) k |})
         w) /\
  (k = 0 ->
   trunc_div ((lo_x l + (view_x v + sx)) * Zpos p) k = (lo_x l + (view_x v + sx)) * Zpos p /\
   trunc_div ((lo_y l + (view_y v + sy)) * Zpos p) k = (lo_y l + (view_y v + sy)) * Zpos p /\
   trunc_div (current_width (surface_current s) * Zpos p) k
     = current_width (surface_current s) * Zpos p /\
   trunc_div (current_height (surface_current s) * Zpos p) k
     = current_height (surface_current s) * Zpos p) /\
  (sx = 0 -> sy = 0 ->
   trunc_div ((lo_x l + (view_x v + sx)) * Zpos p) k
     = trunc_div ((lo_x l + view_x v) * Zpos p) k /\
   trunc_div ((lo_y l + (view_y v + sy)) * Zpos p) k
     = trunc_div ((lo_y l + view_y v) * Zpos p) k).
Proof.
  intros Hdev Hbuf Htex Hfind Hscale Hk Hp Hlx Hly Hdx Hdy HX HY HiX HiY HW HH.
  split; [|split].
  - rewrite (render_surface_run _ _ _ _ _ _ _ _ _ Hdev).
    unfold surface_calls. simpl. rewrite Hbuf, Htex. simpl.
    rewrite Hscale, (placement_exact _ _ _ _ _ _ _ _ l) by done. done.
  - intros ->. unfold trunc_div. simpl. by rewrite !Z.quot_1_r.
  - intros -> ->. by rewrite !Z.add_0_r.
Qed.

Lemma placement_of_drawn_surface_witness :
  w_devices (Scenario.active Scenario.scale_1_5) !! 5%positive
    = Some (Scenario.attached Scenario.scale_1_5) /\
  wlr_surface_has_buffer Scenario.ready = true /\
  wlr_surface_get_texture Scenario.ready = Some 30%positive /\
  output_scale (Scenario.attached Scenario.scale_1_5) = normal Float.prec false 3 (- 1) /\
  render_surface Scenario.ready 0 0
    {| rd_output_layout := [{| lo_output := 5%positive; lo_x := 0; lo_y := 0 |}];
       rd_output := 5%positive; rd_view := Some Scenario.view_A;
       rd_when := {| tv_sec := 3; tv_nsec := 0 |} |}
    (Scenario.active Scenario.scale_1_5)
  = Ok tt
      (add_calls
         (draw_calls 5%positive {| tv_sec := 3; tv_nsec := 0 |} Scenario.ready 30%positive
            {| box_x := 1; box_y := 4; box_width := 151; box_height := 76 |})
         (Scenario.active Scenario.scale_1_5)).
Proof.
  assert (Hdev : w_devices (Scenario.active Scenario.scale_1_5) !! 5%positive
                 = Some (Scenario.attached Scenario.scale_1_5))
    by (vm_compute; reflexivity).
  assert (Hscale : output_scale (Scenario.attached Scenario.scale_1_5)
                   = normal Float.prec false 3 (- 1)) by (vm_compute; reflexivity).
  split; [exact Hdev|]. split; [reflexivity|]. split; [reflexivity|].
  split; [exact Hscale|].
  apply (placement_of_drawn_surface (Scenario.active Scenario.scale_1_5) 5%positive
           (Scenario.attached Scenario.scale_1_5)
           [{| lo_output := 5%positive; lo_x := 0; lo_y := 0 |}]
           {| tv_sec := 3; tv_nsec := 0 |} Scenario.view_A Scenario.ready 0 0 30%positive
           {| lo_output := 5%positive; lo_x := 0; lo_y := 0 |} 3%positive 1);
    try reflexivity; try exact Hdev; try exact Hscale; try (vm_compute; reflexivity);
    split; vm_compute; congruence.
Defined.

(** C6, as stated, fails: at scale 3/2 the surface of view A, whose
    position (lx+vx+sx, ly+vy+sy) is (1, 3) and whose size is (101, 51), is
    drawn into the rectangle at (1, 4) of size (151, 76), while the products
    are (3/2, 9/2) and (303/2, 153/2). *)
Lemma placement_truncates_counterexample :
  render_surface Scenario.ready 0 0
    {| rd_output_layout := [{| lo_output := 5%positive; lo_x := 0; lo_y := 0 |}];
       rd_output := 5%positive; rd_view := Some Scenario.view_A;
       rd_when := {| tv_sec := 3; tv_nsec := 0 |} |}
    (Scenario.active Scenario.scale_1_5)
  = Ok tt
      (add_calls
         (draw_calls 5%positive {| tv_sec := 3; tv_nsec := 0 |} Scenario.ready 30%positive
            {| box_x := 1; box_y := 4; box_width := 151; box_height := 76 |})
         (Scenario.active Scenario.scale_1_5)) /\
  Scenario.scale_1_5 = normal Float.prec false 3 (- 1) /\
  1 * 2 <> (0 + view_x Scenario.view_A + 0) * 3 /\
  4 * 2 <> (0 + view_y Scenario.view_A + 0) * 3 /\
  151 * 2 <> current_width (surface_current Scenario.ready) * 3 /\
  76 * 2 <> current_height (surface_current Scenario.ready) * 3.
Proof.
  split; [vm_compute; reflexivity|]. split; [vm_compute; reflexivity|].
  repeat split; vm_compute; congruence.
Qed.

(** ** More about a tick *)

(** A property of every call, kept by concatenation. *)
Lemma concat_calls_Forall {A} (f : A -> option (list call)) (P : call -> Prop)
    (l : list A) cs :
  (forall a ca, a ∈ l -> f a = Some ca -> Forall P ca) ->
  concat_calls f l = Some cs -> Forall P cs.
Proof.
  revert cs. induction l as [|a l IH]; intros cs Hf; simpl.
  - intros [= <-]. constructor.
  - destruct (f a) as [ca|] eqn:Ha; simpl; [|done].
    destruct (concat_calls f l) as [cl|]; simpl; [|done].
    intros [= <-]. apply Forall_app. split.
    + apply (Hf a); [left|done].
    + apply IH; [|done]. intros a' ca' Hin. apply Hf. by right.
Qed.

Lemma surface_calls_cases layout d scale when v e cs :
  surface_calls layout d scale when v e = Some cs ->
  (wlr_surface_has_buffer e.1.1 = false /\ cs = []) \/
  (wlr_surface_has_buffer e.1.1 = true /\ wlr_surface_get_texture e.1.1 = None /\
   cs = [wlr_log WLR_DEBUG "Cannot obtain surface texture"]) \/
  (exists texture box,
     wlr_surface_has_buffer e.1.1 = true /\
     wlr_surface_get_texture e.1.1 = Some texture /\
     placement layout d scale v e.1.2 e.2 (surface_current e.1.1) = Some box /\
     cs = draw_calls d when e.1.1 texture box).
Proof.
  unfold surface_calls.
  destruct (wlr_surface_has_buffer e.1.1); simpl; [|intros [= <-]; by left].
  destruct (wlr_surface_get_texture e.1.1) as [texture|]; [|intros [= <-]; right; by left].
  destruct (placement _ _ _ _ _ _ _) as [box|]; simpl; [|done].
  intros [= <-]. right; right. by exists texture, box.
Qed.

Lemma body_calls_surface_calls layout d scale when vs cs :
  body_calls layout d scale when vs = Some cs ->
  Forall (fun c => is_surface_call c = true) cs.
Proof.
  apply concat_calls_Forall. intros v cv _. unfold view_calls.
  destruct (view_type v); [|intros [= <-]; by repeat constructor].
  apply concat_calls_Forall. intros e ce _ He.
  apply surface_calls_cases in He
    as [[_ ->]|[(_ & _ & ->)|(texture & box & _ & _ & _ & ->)]];
    by repeat constructor.
Qed.

(** X1: a tick whose context is made current makes its calls in a fixed
    frame: the context is acquired, the clock is read, the render pass is
    begun with the output's effective resolution and cleared to the grey
    {0.3, 0.3, 0.3, 1.0}; then come only calls that [render_surface] and
    [view_for_each_surface] make (draws, frame-dones, log entries); then the
    pass is ended and, last, the buffers are swapped. Nothing is drawn
    outside the begin/end bracket. *)
Theorem tick_brackets_rendering o out d dev w :
  w_heap w !! o = Some out ->
  cg_wlr_output out = Some d ->
  w_devices w !! d = Some dev ->
  env_make_current (w_env w) (w_queries w) = true ->
  placements_defined (output_layout (w_server w)) d (output_scale dev)
    (views (w_server w)) ->
  exists w' body,
    handle_output_frame (output_frame o) w = Ok tt w' /\
    calls_since w w' =
      [ wlr_output_make_current d true;
        clock_gettime (env_clock (w_env w) (S (w_queries w)));
        wlr_renderer_begin (backend_renderer (w_server w))
          (env_effective_resolution (w_env w) dev).1
          (env_effective_resolution (w_env w) dev).2;
        wlr_renderer_clear (backend_renderer (w_server w)) clear_color ]
      ++ body ++
      [ wlr_renderer_end (backend_renderer (w_server w)); wlr_output_swap_buffers d ] /\
    Forall (fun c => is_surface_call c = true) body.
Proof.
  intros Ho Hd Hdev Hok Hdef.
  destruct (handle_output_frame_current o out d dev w Ho Hd Hdev Hok Hdef)
    as (body & Hbody & Hrun).
  eexists _, body. split; [exact Hrun|].
  rewrite calls_since_add_queries. split; [done|].
  by eapply body_calls_surface_calls.
Qed.

Lemma surface_calls_logs layout d scale when v e cs :
  surface_calls layout d scale when v e = Some cs ->
  log_calls cs =
  if texture_missing e.1.1 then [wlr_log WLR_DEBUG "Cannot obtain surface texture"] else [].
Proof.
  intros He. unfold texture_missing.
  apply surface_calls_cases in He
    as [[-> ->]|[(-> & -> & ->)|(texture & box & -> & -> & _ & ->)]]; done.
Qed.

Lemma view_calls_logs layout d scale when v cs :
  view_calls layout d scale when v = Some cs -> log_calls cs = view_logs v.
Proof.
  unfold view_calls, view_logs. destruct (view_type v); [|by intros [= <-]].
  intros Hcs.
  erewrite (concat_calls_proj _ log_calls); [done | done | | | exact Hcs].
  - intros. apply filter_app.
  - intros e ce _ He. apply (surface_calls_logs _ _ _ _ _ _ _ He).
Qed.

Lemma body_calls_logs layout d scale when vs cs :
  body_calls layout d scale when vs = Some cs ->
  log_calls cs = flat_map view_logs (rev vs).
Proof.
  unfold body_calls. intros Hcs.
  erewrite (concat_calls_proj _ log_calls); [done | done | | | exact Hcs].
  - intros. apply filter_app.
  - intros v cv _ Hv. apply (view_calls_logs _ _ _ _ _ _ Hv).
Qed.

(** X2: the log entries of a tick that runs to its end are, view by view
    from the tail of the stack: one entry at error level for a view whose
    type is not recognized, and for an xdg-shell view one entry at debug
    level for each yielded surface that has a buffer but no texture. A
    surface without a buffer is skipped silently, and nothing else is
    logged. *)
Theorem tick_log_entries o out d dev w :
  w_heap w !! o = Some out ->
  cg_wlr_output out = Some d ->
  w_devices w !! d = Some dev ->
  env_make_current (w_env w) (w_queries w) = true ->
  placements_defined (output_layout (w_server w)) d (output_scale dev)
    (views (w_server w)) ->
  exists w',
    handle_output_frame (output_frame o) w = Ok tt w' /\
    log_calls (calls_since w w') = flat_map view_logs (rev (views (w_server w))).
Proof.
  intros Ho Hd Hdev Hok Hdef.
  destruct (handle_output_frame_current o out d dev w Ho Hd Hdev Hok Hdef)
    as (body & Hbody & Hrun).
  eexists. split; [exact Hrun|].
  rewrite calls_since_add_queries.
  rewrite <- (body_calls_logs _ _ _ _ _ _ Hbody).
  unfold log_calls. rewrite !filter_app. simpl. by rewrite app_nil_r.
Qed.

Lemma surface_calls_events layout d scale when v e cs :
  surface_calls layout d scale when v e = Some cs ->
  surface_events cs = events_of_surface e.1.1.
Proof.
  intros He. unfold events_of_surface.
  apply surface_calls_cases in He
    as [[-> ->]|[(-> & -> & ->)|(texture & box & -> & -> & _ & ->)]]; done.
Qed.

Lemma view_calls_events layout d scale when v cs :
  view_calls layout d scale when v = Some cs ->
  surface_events cs = flat_map (fun e : wlr_surface * Z * Z => events_of_surface e.1.1)
                        (yielded v).
Proof.
  unfold view_calls, yielded. destruct (view_type v); [|by intros [= <-]].
  intros Hcs.
  erewrite (concat_calls_proj _ surface_events); [done | done | | | exact Hcs].
  - intros. apply omap_app.
  - intros e ce _ He. apply (surface_calls_events _ _ _ _ _ _ _ He).
Qed.

Lemma body_calls_events layout d scale when vs cs :
  body_calls layout d scale when vs = Some cs ->
  surface_events cs = flat_map events_of_surface (tick_yield vs).
Proof.
  unfold body_calls, tick_yield. intros Hcs.
  rewrite (concat_calls_proj _ surface_events
             (fun v => flat_map (fun e : wlr_surface * Z * Z => events_of_surface e.1.1)
                         (yielded v)) _ _ eq_refl (omap_app _)
             (fun v cv _ Hv => view_calls_events _ _ _ _ _ _ Hv) Hcs).
  rewrite flat_map_flat_map. apply flat_map_ext. intros v.
  by rewrite flat_map_fmap.
Qed.

(** X3: in a tick every draw is followed at once by the frame-done of the
    surface that was drawn: read as draws and frame-dones only, the calls of
    the tick are, for each yielded surface with a buffer and a texture in
    the order of the walk, the draw of its texture and then its frame-done,
    and nothing for the other surfaces. *)
Theorem draw_then_frame_done o out d dev w :
  w_heap w !! o = Some out ->
  cg_wlr_output out = Some d ->
  w_devices w !! d = Some dev ->
  env_make_current (w_env w) (w_queries w) = true ->
  placements_defined (output_layout (w_server w)) d (output_scale dev)
    (views (w_server w)) ->
  exists w',
    handle_output_frame (output_frame o) w = Ok tt w' /\
    surface_events (calls_since w w') =
      flat_map events_of_surface (tick_yield (views (w_server w))).
Proof.
  intros Ho Hd Hdev Hok Hdef.
  destruct (handle_output_frame_current o out d dev w Ho Hd Hdev Hok Hdef)
    as (body & Hbody & Hrun).
  eexists. split; [exact Hrun|].
  rewrite calls_since_add_queries.
  rewrite <- (body_calls_events _ _ _ _ _ _ Hbody).
  unfold surface_events. rewrite !omap_app. simpl. by rewrite app_nil_r.
Qed.

(** The surface a draw call was made for. *)
Lemma body_calls_draws layout d scale when vs cs :
  body_calls layout d scale when vs = Some cs ->
  Forall (fun c => forall r texture m alpha,
            c = wlr_render_texture_with_matrix r texture m alpha ->
            exists v s sx sy,
              v ∈ vs /\ (s, sx, sy) ∈ yielded v /\
              wlr_surface_has_buffer s = true /\
              wlr_surface_get_texture s = Some texture /\
              r = surface_renderer s /\
              placement layout d scale v sx sy (surface_current s) = Some (matrix_box m) /\
              matrix_transform m
                = wlr_output_transform_invert (current_transform (surface_current s)) /\
              matrix_rotation m = 0 /\ matrix_projection m = d /\ alpha = 1) cs.
Proof.
  apply concat_calls_Forall. intros v cv Hv.
  apply list_elem_of_In, in_rev, list_elem_of_In in Hv. unfold view_calls.
  destruct (view_type v) eqn:Htype;
    [|intros [= <-]; repeat constructor; by intros ???? [=]].
  apply concat_calls_Forall. intros [[s sx] sy] ce He Hce.
  apply surface_calls_cases in Hce
    as [[_ ->]|[(_ & _ & ->)|(texture & box & Hb & Ht & Hp & ->)]];
    repeat constructor; try (by intros ???? [=]).
  intros r texture' m alpha [= <- <- <- <-].
  exists v, s, sx, sy. simpl in *.
  split; [done|]. split; [by unfold yielded; rewrite Htype|]. done.
Qed.

(** X4: whatever a tick draws is a surface of a view of the stack, drawn
    where [render_surface] places it: every draw call of the tick is made
    for some surface yielded by a view of [server->views] that has a buffer
    and this texture, with the surface's renderer, into the rectangle that
    lines 53-62 compute for it, with the inverse of the surface's transform,
    no rotation, the projection of the ticking output and alpha 1. *)
Theorem every_draw_is_a_placed_surface o out d dev w :
  w_heap w !! o = Some out ->
  cg_wlr_output out = Some d ->
  w_devices w !! d = Some dev ->
  env_make_current (w_env w) (w_queries w) = true ->
  placements_defined (output_layout (w_server w)) d (output_scale dev)
    (views (w_server w)) ->
  exists w',
    handle_output_frame (output_frame o) w = Ok tt w' /\
    forall r texture m alpha,
      wlr_render_texture_with_matrix r texture m alpha ∈ calls_since w w' ->
      exists v s sx sy,
        v ∈ views (w_server w) /\ (s, sx, sy) ∈ yielded v /\
        wlr_surface_has_buffer s = true /\
        wlr_surface_get_texture s = Some texture /\
        r = surface_renderer s /\
        placement (output_layout (w_server w)) d (output_scale dev) v sx sy
          (surface_current s) = Some (matrix_box m) /\
        matrix_transform m
          = wlr_output_transform_invert (current_transform (surface_current s)) /\
        matrix_rotation m = 0 /\ matrix_projection m = d /\ alpha = 1.
Proof.
  intros Ho Hd Hdev Hok Hdef.
  destruct (handle_output_frame_current o out d dev w Ho Hd Hdev Hok Hdef)
    as (body & Hbody & Hrun).
  eexists. split; [exact Hrun|].
  rewrite calls_since_add_queries.
  intros r texture m alpha Hin.
  rewrite !elem_of_app in Hin. destruct Hin as [Hin|[Hin|Hin]].
  - repeat (apply elem_of_cons in Hin as [[=]|Hin]). by apply elem_of_nil in Hin.
  - pose proof (body_calls_draws _ _ _ _ _ _ Hbody) as Hall.
    rewrite Forall_forall in Hall. by eapply Hall.
  - repeat (apply elem_of_cons in Hin as [[=]|Hin]). by apply elem_of_nil in Hin.
Qed.

(** X5: with no view on the stack a tick still renders a frame: it makes
    exactly the calls make-current, clock, begin, clear, end and swap, so the
    output shows the grey background. *)
Theorem empty_stack_is_cleared_and_presented o out d dev w :
  w_heap w !! o = Some out ->
  cg_wlr_output out = Some d ->
  w_devices w !! d = Some dev ->
  env_make_current (w_env w) (w_queries w) = true ->
  views (w_server w) = [] ->
  handle_output_frame (output_frame o) w
    = Ok tt (add_calls (blank_frame w d dev) (add_queries 2 w)).
Proof.
  intros Ho Hd Hdev Hok Hviews.
  rewrite (handle_output_frame_run _ _ _ _ _ Ho Hd Hdev), Hok.
  unfold frame_calls, body_calls. rewrite Hviews. reflexivity.
Qed.

(** X6: the frame handler only renders. Whenever it returns, the server
    (its views, layout and output pointer), the heap, the devices, every
    signal's listeners and the running flag of the display are as they were;
    it has put one or two questions to the outside world (the context, and
    the clock when the context was granted) and has only added to the record
    of calls. *)
Theorem frame_handler_leaves_state l w w' :
  handle_output_frame l w = Ok tt w' ->
  w_server w' = w_server w /\ w_heap w' = w_heap w /\ w_devices w' = w_devices w /\
  w_backend_new_output w' = w_backend_new_output w /\
  w_display_running w' = w_display_running w /\
  w_env w' = w_env w /\
  (w_queries w < w_queries w' <= w_queries w + 2)%nat /\
  exists cs, w_calls w' = w_calls w ++ cs.
Proof.
  destruct l as [|o|o]; [done| |done].
  destruct (w_heap w !! o) as [out|] eqn:Ho.
  2: { unfold handle_output_frame. run_monad. by rewrite Ho. }
  destruct (cg_wlr_output out) as [d|] eqn:Hd.
  2: { unfold handle_output_frame. run_monad. by rewrite Ho, Hd. }
  destruct (w_devices w !! d) as [dev|] eqn:Hdev.
  2: { unfold handle_output_frame. run_monad. rewrite Ho, Hd. run_monad.
       by rewrite Hdev. }
  rewrite (handle_output_frame_run _ _ _ _ _ Ho Hd Hdev).
  destruct (env_make_current _ _).
  - destruct (frame_calls w d dev) as [cs|]; simpl; [|done]. intros [= <-].
    do 6 (split; [done|]). split; [simpl; lia|]. by exists cs.
  - intros [= <-]. do 6 (split; [done|]). split; [simpl; lia|]. by eexists.
Qed.

Lemma concat_calls_Some_Forall {A} (f : A -> option (list call)) (l : list A) :
  is_Some (concat_calls f l) -> Forall (fun a => is_Some (f a)) l.
Proof.
  induction l as [|a l IH]; simpl; [constructor|].
  destruct (f a) as [ca|] eqn:Ha; simpl; [|by intros [? [=]]].
  destruct (concat_calls f l) as [cl|]; simpl; [|by intros [? [=]]].
  intros _. constructor; [by eexists|]. apply IH. by eexists.
Qed.

Lemma view_calls_defined_inv layout d scale when v :
  is_Some (view_calls layout d scale when v) ->
  Forall (fun e : wlr_surface * Z * Z =>
    drawable e.1.1 = true ->
    is_Some (placement layout d scale v e.1.2 e.2 (surface_current e.1.1)))
    (yielded v).
Proof.
  unfold view_calls, yielded. destruct (view_type v); [|constructor].
  intros Hall%concat_calls_Some_Forall.
  eapply Forall_impl; [exact Hall|]. intros e [ce He] Hdraw.
  unfold drawable in Hdraw.
  apply surface_calls_cases in He
    as [[Hb _]|[(_ & Ht & _)|(texture & box & _ & _ & Hp & _)]].
  - by rewrite Hb in Hdraw.
  - rewrite Ht in Hdraw. by destruct (wlr_surface_has_buffer e.1.1).
  - by eexists.
Qed.

Lemma body_calls_defined_inv layout d scale when vs :
  is_Some (body_calls layout d scale when vs) ->
  placements_defined layout d scale vs.
Proof.
  intros Hall%concat_calls_Some_Forall. apply Forall_rev in Hall.
  rewrite rev_involutive in Hall.
  eapply Forall_impl; [exact Hall|]. intros v. apply view_calls_defined_inv.
Qed.

(** X7: once the context is made current, the frame handler returns
    normally exactly when the rectangle of every surface that is to be drawn
    is defined, that is when neither [view->x + sx], [view->y + sy] overflow
    [int] nor a member of the [wlr_box] is out of the range of [int]; if one
    is not, the behaviour of the tick is undefined. *)
Theorem tick_completes_iff_placements_defined o out d dev w :
  w_heap w !! o = Some out ->
  cg_wlr_output out = Some d ->
  w_devices w !! d = Some dev ->
  env_make_current (w_env w) (w_queries w) = true ->
  ((exists w', handle_output_frame (output_frame o) w = Ok tt w') <->
   placements_defined (output_layout (w_server w)) d (output_scale dev)
     (views (w_server w))) /\
  (~ placements_defined (output_layout (w_server w)) d (output_scale dev)
       (views (w_server w)) ->
   handle_output_frame (output_frame o) w = Fault undefined_arithmetic).
Proof.
  intros Ho Hd Hdev Hok.
  rewrite (handle_output_frame_run _ _ _ _ _ Ho Hd Hdev), Hok.
  unfold frame_calls.
  destruct (body_calls _ _ _ _ _) as [body|] eqn:Hbody; simpl.
  - assert (placements_defined (output_layout (w_server w)) d (output_scale dev)
              (views (w_server w))) as Hdef.
    { eapply body_calls_defined_inv. by eexists. }
    split; [|done]. split; [done|]. intros _. by eexists.
  - assert (~ placements_defined (output_layout (w_server w)) d (output_scale dev)
                (views (w_server w))) as Hundef.
    { intros Hdef.
      destruct (body_calls_defined _ _ _ (env_clock (w_env w) (S (w_queries w))) _ Hdef)
        as [body Hbody'].
      by rewrite Hbody in Hbody'. }
    split; [|done]. split; [by intros [? [=]]|done].
Qed.

(** ** Geometry within bounds *)

Lemma in_int_small z : Z.abs z <= 2 ^ 20 -> in_int z = true.
Proof.
  intros Hz. unfold in_int, INT_MIN, INT_MAX.
  assert ((2:Z) ^ 20 < 2 ^ 31 - 1) by (by vm_compute).
  apply andb_true_intro. split; apply Z.leb_le; lia.
Qed.

Lemma placement_bounded layout d p k v sx sy current l :
  List.find (fun l => Pos.eqb (lo_output l) d) layout = Some l ->
  0 <= k <= 125 -> Zpos p < 2 ^ 10 ->
  Z.abs (lo_x l) <= 2 ^ 20 -> Z.abs (lo_y l) <= 2 ^ 20 ->
  Z.abs (view_x v + sx) <= 2 ^ 20 -> Z.abs (view_y v + sy) <= 2 ^ 20 ->
  0 <= current_width current < 2 ^ 14 ->
  0 <= current_height current < 2 ^ 14 ->
  is_Some (placement layout d (normal Float.prec false p (- k)) v sx sy current).
Proof.
  intros Hfind Hk Hp Hlx Hly Hx Hy Hw Hh.
  assert (H10 : (2:Z) ^ 10 < 2 ^ 24) by (by vm_compute).
  assert (H2110 : (2:Z) ^ 21 * 2 ^ 10 = 2 ^ 31) by (by vm_compute).
  assert (H1410 : (2:Z) ^ 14 * 2 ^ 10 = 2 ^ 24) by (by vm_compute).
  assert (H3153 : (2:Z) ^ 31 < 2 ^ 53) by (by vm_compute).
  assert (H21 : (2:Z) ^ 20 + 2 ^ 20 = 2 ^ 21) by (by vm_compute).
  assert (HX : Z.abs (lo_x l + (view_x v + sx)) * Zpos p < 2 ^ 31) by nia.
  assert (HY : Z.abs (lo_y l + (view_y v + sy)) * Zpos p < 2 ^ 31) by nia.
  erewrite placement_exact; [by eexists|exact Hfind|..]; try (by apply in_int_small);
    try lia.
  - apply in_int_trunc_div; [lia|]. rewrite Z.abs_mul. lia.
  - apply in_int_trunc_div; [lia|]. rewrite Z.abs_mul. lia.
  - nia.
  - nia.
Qed.

(** X8: a sufficient bound for a tick to be defined. When the output and
    every surface to be drawn lie within 2^20 pixels of the origin, the
    sides of the surfaces are below 2^14 pixels and the scale is p / 2^k
    with p below 2^10, every rectangle is defined and the frame handler
    returns normally. *)
Theorem bounded_geometry_renders o out d dev l p k w :
  w_heap w !! o = Some out ->
  cg_wlr_output out = Some d ->
  w_devices w !! d = Some dev ->
  env_make_current (w_env w) (w_queries w) = true ->
  List.find (fun l => Pos.eqb (lo_output l) d) (output_layout (w_server w)) = Some l ->
  output_scale dev = normal Float.prec false p (- k) ->
  0 <= k <= 125 -> Zpos p < 2 ^ 10 ->
  bounded_geometry l (views (w_server w)) ->
  placements_defined (output_layout (w_server w)) d (output_scale dev)
    (views (w_server w)) /\
  exists w', handle_output_frame (output_frame o) w = Ok tt w'.
Proof.
  intros Ho Hd Hdev Hok Hfind Hscale Hk Hp (Hlx & Hly & Hall).
  assert (Hdef : placements_defined (output_layout (w_server w)) d (output_scale dev)
                   (views (w_server w))).
  { eapply Forall_impl; [exact Hall|]. intros v Hv.
    eapply Forall_impl; [exact Hv|]. intros e He Hdraw.
    destruct (He Hdraw) as (Hx & Hy & Hw & Hh).
    rewrite Hscale. by eapply placement_bounded. }
  split; [exact Hdef|].
  destruct (handle_output_frame_current o out d dev w Ho Hd Hdev Hok Hdef)
    as (body & _ & Hrun).
  by eexists.
Qed.

(** ** One tick after another *)

Lemma concat_calls_fmap {A} (f f' : A -> option (list call)) (g : call -> call)
    (l : list A) :
  (forall a, f' a = (fun cs : list call => g <$> cs) <$> f a) ->
  concat_calls f' l = (fun cs : list call => g <$> cs) <$> concat_calls f l.
Proof.
  intros Hf. induction l as [|a l IH]; simpl; [done|].
  rewrite Hf, IH. destruct (f a) as [ca|]; simpl; [|done].
  destruct (concat_calls f l) as [cl|]; simpl; [|done].
  by rewrite fmap_app.
Qed.

Lemma body_calls_restamp layout d scale when when' vs :
  body_calls layout d scale when' vs
  = (fun cs : list call => restamp when' <$> cs) <$> body_calls layout d scale when vs.
Proof.
  apply concat_calls_fmap. intros v. unfold view_calls.
  destruct (view_type v); [|done].
  apply concat_calls_fmap. intros e. unfold surface_calls.
  destruct (negb _); [done|].
  destruct (wlr_surface_get_texture e.1.1) as [texture|]; [|done].
  by destruct (placement _ _ _ _ _ _ _).
Qed.

(** X9: the frame handler keeps nothing from one tick to the next. Two
    ticks in a row whose contexts are made current both run to their end,
    and the calls of the second are those of the first with the second
    reading of the clock in the place of the first. *)
Theorem ticks_differ_in_timestamp_only o out d dev w :
  w_heap w !! o = Some out ->
  cg_wlr_output out = Some d ->
  w_devices w !! d = Some dev ->
  env_make_current (w_env w) (w_queries w) = true ->
  env_make_current (w_env w) (S (S (w_queries w))) = true ->
  placements_defined (output_layout (w_server w)) d (output_scale dev)
    (views (w_server w)) ->
  exists w1 w2,
    handle_output_frame (output_frame o) w = Ok tt w1 /\
    handle_output_frame (output_frame o) w1 = Ok tt w2 /\
    calls_since w1 w2
    = restamp (env_clock (w_env w) (S (S (S (w_queries w))))) <$> calls_since w w1.
Proof.
  intros Ho Hd Hdev Hok Hok' Hdef.
  destruct (handle_output_frame_current o out d dev w Ho Hd Hdev Hok Hdef)
    as (body & Hbody & Hrun).
  match type of Hrun with _ = Ok tt ?x => remember x as w1 eqn:Hw1 end.
  assert (Hcalls : calls_since w w1 =
            [ wlr_output_make_current d true;
              clock_gettime (env_clock (w_env w) (S (w_queries w)));
              wlr_renderer_begin (backend_renderer (w_server w))
                (env_effective_resolution (w_env w) dev).1
                (env_effective_resolution (w_env w) dev).2;
              wlr_renderer_clear (backend_renderer (w_server w)) clear_color ]
            ++ body ++
            [ wlr_renderer_end (backend_renderer (w_server w));
              wlr_output_swap_buffers d ])
    by (rewrite Hw1; apply calls_since_add_queries).
  assert (w_server w1 = w_server w /\ w_env w1 = w_env w /\
          w_queries w1 = S (S (w_queries w)) /\
          w_heap w1 = w_heap w /\ w_devices w1 = w_devices w)
    as (Hs & He & Hq & Hh & Hds) by (by rewrite Hw1).
  clear Hw1.
  destruct (handle_output_frame_current o out d dev w1) as (body' & Hbody' & Hrun').
  { by rewrite Hh. } { done. } { by rewrite Hds. } { by rewrite He, Hq. }
  { by rewrite Hs. }
  eexists w1, _. split; [exact Hrun|]. split; [exact Hrun'|].
  rewrite calls_since_add_queries, Hcalls.
  rewrite Hs, He, Hq in *.
  rewrite (body_calls_restamp _ _ _ (env_clock (w_env w) (S (w_queries w)))), Hbody
    in Hbody'.
  injection Hbody' as <-.
  by rewrite !fmap_app.
Qed.

(** ** More about the lifecycle *)

Lemma select_mode_events dev :
  events_frame (select_mode dev) = events_frame dev /\
  events_destroy (select_mode dev) = events_destroy dev /\
  output_scale (select_mode dev) = output_scale dev.
Proof. unfold select_mode. by destruct (last (output_modes dev)). Qed.

(** Claiming a device connects the two listeners of the new output and no
    other. *)
Lemma linked_claim_any l d dev w :
  w_devices w !! d = Some dev ->
  linked l (claim d dev w) <->
  linked l w \/ l = output_frame (fresh (dom (w_heap w)))
  \/ l = output_destroy (fresh (dom (w_heap w))).
Proof.
  intros Hdev. unfold linked, claim. simpl. rewrite !map_Exists_lookup.
  destruct (select_mode_events dev) as (Hf & Hd & _).
  split.
  - intros [Hin|(d' & dev' & Hd' & Hin)]; [by left; left|].
    destruct (decide (d = d')) as [<-|Hne].
    + rewrite lookup_insert_eq in Hd'. injection Hd' as <-.
      simpl in Hin. rewrite Hf, Hd in Hin.
      rewrite !elem_of_app, !list_elem_of_singleton in Hin.
      destruct Hin as [[?|?]|[?|?]]; [|by right; left| |by right; right];
        left; right; exists d, dev; (split; [done|]); [by left|by right].
    + rewrite lookup_insert_ne in Hd' by done. left. right. by exists d', dev'.
  - intros [[Hin|(d' & dev' & Hd' & Hin)]|Hnew]; [by left| |].
    + right. destruct (decide (d = d')) as [<-|Hne].
      * rewrite Hdev in Hd'. injection Hd' as <-. eexists d, _.
        rewrite lookup_insert_eq. split; [done|]. simpl. rewrite Hf, Hd.
        rewrite !elem_of_app. destruct Hin as [?|?]; [left|right]; by left.
      * exists d', dev'. by rewrite lookup_insert_ne by done.
    + right. eexists d, _. rewrite lookup_insert_eq. split; [done|]. simpl.
      rewrite !elem_of_app, !list_elem_of_singleton.
      destruct Hnew as [-> | ->]; [left|right]; by right.
Qed.

Lemma linked_claim d dev w :
  w_devices w !! d = Some dev ->
  linked server_new_output (claim d dev w) <-> linked server_new_output w.
Proof.
  intros Hdev. rewrite (linked_claim_any _ _ _ _ Hdev).
  split; [by intros [?|[?|?]]|by left].
Qed.

Lemma handle_new_output_unlinked d w :
  ~ linked server_new_output w ->
  handle_new_output server_new_output d w = Fault invalid_pointer.
Proof.
  intros Hl. destruct (w_devices w !! d) as [dev|] eqn:Hdev.
  - rewrite (handle_new_output_run _ _ _ Hdev).
    by rewrite decide_False by (by rewrite linked_claim).
  - by apply handle_new_output_no_device.
Qed.

Lemma handle_new_output_alloc_enough l d w :
  handle_new_output_alloc false l d w = handle_new_output l d w.
Proof. destruct l; reflexivity. Qed.

Lemma handle_new_output_alloc_exhausted l d w :
  handle_new_output_alloc true l d w = Fault invalid_pointer.
Proof.
  destruct l as [|o|o]; [|done..].
  destruct (w_devices w !! d) as [dev|] eqn:Hdev.
  2: { unfold handle_new_output_alloc. run_monad. by rewrite Hdev. }
  destruct w as [S H D B R C E Q]. simpl in Hdev.
  unfold handle_new_output_alloc, calloc_or_null, server_output. exec_with Hdev.
  rewrite wl_list_empty_last.
  destruct (last (output_modes dev)) as [mode|] eqn:Hm;
    [rewrite bool_decide_false by done|rewrite bool_decide_true by done];
    by exec_with Hdev.
Qed.

(** X10: with the outcome of [calloc] at line 153 made explicit,
    [handle_new_output] returns normally exactly when it is called through
    the server's new-output listener, the device it is handed is a live
    [wlr_output], that listener is still connected to a signal (so that
    [wl_list_remove] at line 165 is defined) and the allocation succeeded.
    Every other call dereferences an invalid pointer; when memory is
    exhausted that is the NULL stored in [server->output], at line 154. With
    enough memory the handler is [handle_new_output] as it is used in the
    other theorems. *)
Theorem attach_succeeds_iff exhausted l d w :
  ((exists w', handle_new_output_alloc exhausted l d w = Ok tt w') <->
   l = server_new_output /\ is_Some (w_devices w !! d) /\
   linked server_new_output w /\ exhausted = false) /\
  (forall f, handle_new_output_alloc exhausted l d w = Fault f -> f = invalid_pointer) /\
  handle_new_output_alloc true l d w = Fault invalid_pointer /\
  handle_new_output_alloc false l d w = handle_new_output l d w.
Proof.
  split; [|split; [|split]];
    [| |apply handle_new_output_alloc_exhausted|apply handle_new_output_alloc_enough].
  - destruct exhausted.
    { rewrite handle_new_output_alloc_exhausted.
      split; [by intros [? [=]]|by intros (_ & _ & _ & [=])]. }
    rewrite handle_new_output_alloc_enough.
    destruct (w_devices w !! d) as [dev|] eqn:Hdev.
    2: { rewrite (handle_new_output_no_device _ _ _ Hdev).
         split; [by intros [? [=]]|]. by intros (_ & [? [=]] & _). }
    destruct l as [|o|o].
    2,3: split; [by intros [? [=]]|by intros ([=] & _)].
    rewrite (handle_new_output_run _ _ _ Hdev).
    destruct (decide (linked server_new_output (claim d dev w))) as [Hl|Hl].
    + split; [|by eexists].
      intros _. split; [done|]. split; [by eexists|]. split; [|done].
      by apply (linked_claim d dev).
    + split; [by intros [? [=]]|].
      intros (_ & _ & Hl' & _). destruct Hl. by apply linked_claim.
  - destruct exhausted.
    { rewrite handle_new_output_alloc_exhausted. by intros f [= <-]. }
    rewrite handle_new_output_alloc_enough.
    destruct (w_devices w !! d) as [dev|] eqn:Hdev.
    2: { rewrite (handle_new_output_no_device _ _ _ Hdev). by intros f [= <-]. }
    destruct l as [|o|o]; [|by intros f [= <-]..].
    rewrite (handle_new_output_run _ _ _ Hdev).
    destruct (decide _); [done|]. by intros f [= <-].
Qed.

(** X11: [handle_output_destroy] returns normally exactly when it is
    called through the destroy listener of a live [cg_output] whose destroy
    and frame listeners are both connected (so that the two [wl_list_remove]
    at lines 128-129 are defined). Every other call dereferences an invalid
    pointer. *)
Theorem teardown_succeeds_iff l w :
  ((exists w', handle_output_destroy l w = Ok tt w') <->
   exists o, l = output_destroy o /\ is_Some (w_heap w !! o) /\
             linked (output_destroy o) w /\ linked (output_frame o) w) /\
  (forall f, handle_output_destroy l w = Fault f -> f = invalid_pointer).
Proof.
  destruct l as [|o|o].
  1,2: split; [|by intros f [= <-]];
       (split; [by intros [? [=]]|by intros (? & [=] & _)]).
  rewrite handle_output_destroy_run.
  destruct (w_heap w !! o) as [out|] eqn:Ho.
  2: { split; [|by intros f [= <-]]. split; [by intros [? [=]]|].
       intros (o' & [= <-] & [? Ho'] & _). by rewrite Ho in Ho'. }
  destruct (decide (linked (output_destroy o) w)) as [H1|H1].
  2: { split; [|by intros f [= <-]]. split; [by intros [? [=]]|].
       by intros (o' & [= <-] & _ & ? & _). }
  destruct (decide (linked (output_frame o) (unlink (output_destroy o) w))) as [H2|H2].
  - split; [|done]. split; [|by eexists].
    intros _. exists o. split; [done|]. split; [by eexists|]. split; [done|].
    by apply linked_unlink in H2 as [_ ?].
  - split; [|by intros f [= <-]]. split; [by intros [? [=]]|].
    intros (o' & [= <-] & _ & _ & H2'). destruct H2. by apply linked_unlink.
Qed.

(** X12: what [handle_output_destroy] changes and what it leaves. When it
    returns, the listeners connected afterwards are those connected before
    less the frame and destroy listeners of the output; every other record
    of the heap is untouched; the views, the renderer and the set of devices
    are as before, and so is the layout: the handler does not take the
    device out of the output layout. *)
Theorem teardown_touches_only_its_output o w w' :
  handle_output_destroy (output_destroy o) w = Ok tt w' ->
  (forall l, linked l w' <-> l ≠ output_frame o /\ l ≠ output_destroy o /\ linked l w) /\
  (forall o', o' ≠ o -> w_heap w' !! o' = w_heap w !! o') /\
  views (w_server w') = views (w_server w) /\
  output_layout (w_server w') = output_layout (w_server w) /\
  backend_renderer (w_server w') = backend_renderer (w_server w) /\
  dom (w_devices w') = dom (w_devices w).
Proof.
  rewrite handle_output_destroy_run.
  destruct (w_heap w !! o); [|done].
  destruct (decide _) as [_|]; [|done]. destruct (decide _) as [_|]; [|done].
  intros [= <-]. split; [|split; [|split; [|split; [|split]]]]; try done.
  - intros l.
    change (linked l (teardown o w))
      with (linked l (unlink (output_frame o) (unlink (output_destroy o) w))).
    by rewrite !linked_unlink.
  - intros o' Hne. unfold teardown. simpl. by rewrite lookup_delete_ne.
  - unfold teardown, unlink. simpl. by rewrite !dom_fmap_L.
Qed.

(** X13: a cursor theme that cannot be loaded is not fatal. Whatever
    [wlr_xcursor_manager_load] returns for the device's scale,
    [handle_new_output] returns normally with the output claimed and the
    display running, it logs one error exactly when the value is not zero
    and makes no other log entry, and it goes on to set the default cursor
    image and to warp the cursor to the centre of the device. *)
Theorem cursor_theme_failure_is_tolerated d dev w :
  w_devices w !! d = Some dev ->
  linked server_new_output w ->
  exists w' pre o,
    handle_new_output server_new_output d w = Ok tt w' /\
    calls_since w w' =
      pre
      ++ [ wlr_xcursor_manager_load (output_scale dev)
             (env_xcursor_load (w_env w) (w_queries w)) ]
      ++ (if env_xcursor_load (w_env w) (w_queries w) =? 0 then []
          else [wlr_log WLR_ERROR
                  "Cannot load XCursor theme for output '%s' with scale %f"])
      ++ [ wlr_xcursor_manager_set_cursor_image DEFAULT_XCURSOR;
           wlr_cursor_warp (Z.quot (output_width (select_mode dev)) 2)
             (Z.quot (output_height (select_mode dev)) 2) ] /\
    log_calls pre = [] /\
    output (w_server w') = Some o /\
    w_heap w' !! o = Some (claim_record d) /\
    w_display_running w' = w_display_running w.
Proof.
  intros Hdev Hl.
  exists (attach d dev w), (select_mode_calls d dev ++ [wlr_output_layout_add_auto d]),
    (fresh (dom (w_heap w))).
  split.
  { rewrite (handle_new_output_run _ _ _ Hdev).
    by rewrite decide_True by (by apply linked_claim). }
  rewrite calls_since_attach.
  destruct (select_mode_events dev) as (_ & _ & Hscale).
  split.
  { unfold cursor_calls. rewrite Hscale, <- !app_assoc.
    by destruct (env_xcursor_load (w_env w) (w_queries w) =? 0). }
  split. { unfold select_mode_calls. by destruct (last (output_modes dev)). }
  split; [done|]. split; [|done].
  unfold attach, claim, unlink. simpl. apply lookup_insert_eq.
Qed.

(** X14: for a device that advertises no modes (line 148 finds the list
    empty) [handle_new_output] sets no mode: its first call adds the device
    to the layout, no [wlr_output_set_mode] is made, the device keeps its
    current mode, width and height, and the cursor is warped to the centre
    (width / 2, height / 2, in [int] division) of the size the device
    already had. *)
Theorem modeless_device_keeps_its_size d dev w :
  w_devices w !! d = Some dev ->
  output_modes dev = [] ->
  linked server_new_output w ->
  exists w' dev',
    handle_new_output server_new_output d w = Ok tt w' /\
    calls_since w w' =
      wlr_output_layout_add_auto d
      :: cursor_calls dev (env_xcursor_load (w_env w) (w_queries w)) /\
    last (calls_since w w') =
      Some (wlr_cursor_warp (Z.quot (output_width dev) 2) (Z.quot (output_height dev) 2)) /\
    filter (fun c => is_set_mode c) (calls_since w w') = [] /\
    w_devices w' !! d = Some dev' /\
    output_current_mode dev' = output_current_mode dev /\
    output_width dev' = output_width dev /\
    output_height dev' = output_height dev.
Proof.
  intros Hdev Hmodes Hl.
  assert (Hlast : last (output_modes dev) = None) by (by rewrite Hmodes).
  exists (attach d dev w),
    (device_remove_listener server_new_output (subscribe (fresh (dom (w_heap w))) dev)).
  split.
  { rewrite (handle_new_output_run _ _ _ Hdev).
    by rewrite decide_True by (by apply linked_claim). }
  rewrite calls_since_attach. unfold select_mode_calls, select_mode, cursor_calls.
  rewrite Hlast. simpl.
  split; [done|]. split; [|split; [|split]].
  - by destruct (negb _).
  - by destruct (negb _).
  - unfold attach, claim, unlink, select_mode. simpl.
    by rewrite Hlast, lookup_fmap, lookup_insert_eq.
  - done.
Qed.

(** X15: what [handle_new_output] changes and what it leaves. When it
    returns, exactly one record has been allocated, at an address that was
    free, and [server->output] points to it; the views, the renderer and the
    running flag are as before, the device was added to the layout, no
    device appeared or disappeared; the listeners connected afterwards are
    those connected before, less the new-output listener, plus the frame and
    destroy listeners of the new output. The handler cannot run a second
    time: called again, for any device, it faults. *)
Theorem attach_touches_only_its_device d w w' :
  handle_new_output server_new_output d w = Ok tt w' ->
  exists o,
    w_heap w !! o = None /\
    w_heap w' = <[o := claim_record d]> (w_heap w) /\
    output (w_server w') = Some o /\
    views (w_server w') = views (w_server w) /\
    backend_renderer (w_server w') = backend_renderer (w_server w) /\
    output_layout (w_server w') = layout_add_auto d (output_layout (w_server w)) /\
    w_display_running w' = w_display_running w /\
    dom (w_devices w') = dom (w_devices w) /\
    (forall l, linked l w' <->
       l ≠ server_new_output /\
       (linked l w \/ l = output_frame o \/ l = output_destroy o)) /\
    (forall d', handle_new_output server_new_output d' w' = Fault invalid_pointer).
Proof.
  destruct (w_devices w !! d) as [dev|] eqn:Hdev.
  2: { by rewrite (handle_new_output_no_device _ _ _ Hdev). }
  rewrite (handle_new_output_run _ _ _ Hdev).
  destruct (decide _) as [_|]; [|done]. intros [= <-].
  exists (fresh (dom (w_heap w))).
  assert (Hl : forall l, linked l (attach d dev w) <->
                 l ≠ server_new_output /\
                 (linked l w \/ l = output_frame (fresh (dom (w_heap w)))
                  \/ l = output_destroy (fresh (dom (w_heap w))))).
  { intros l.
    change (linked l (attach d dev w))
      with (linked l (unlink server_new_output (claim d dev w))).
    by rewrite linked_unlink, (linked_claim_any _ _ _ _ Hdev). }
  split. { apply not_elem_of_dom, is_fresh. }
  do 6 (split; [done|]).
  split.
  { unfold attach, claim, unlink. simpl. rewrite dom_fmap_L, dom_insert_L.
    apply subseteq_union_1_L, singleton_subseteq_l. by eapply elem_of_dom_2. }
  split; [exact Hl|].
  intros d'. apply handle_new_output_unlinked. rewrite Hl. by intros [? _].
Qed.

Lemma remove_listener_absent l ls : l ∉ ls -> remove_listener l ls = ls.
Proof.
  unfold remove_listener. induction ls as [|l' ls IH]; [done|].
  rewrite not_elem_of_cons. intros [Hne Hnin].
  rewrite filter_cons, decide_True by done. by rewrite IH.
Qed.

Lemma device_remove_listener_absent l dev :
  l ∉ events_frame dev -> l ∉ events_destroy dev -> device_remove_listener l dev = dev.
Proof.
  intros Hf Hd. unfold device_remove_listener.
  rewrite !remove_listener_absent by done. by destruct dev.
Qed.

Lemma devices_remove_listener_absent l (m : gmap addr wlr_output) :
  map_Forall (fun _ dev => events_frame dev = [] /\ events_destroy dev = []) m ->
  device_remove_listener l <$> m = m.
Proof.
  intros Hall. apply map_eq. intros d. rewrite lookup_fmap.
  destruct (m !! d) as [dev|] eqn:Hd; simpl; [|done].
  destruct (Hall _ _ Hd) as [Hf Hdes].
  rewrite device_remove_listener_absent; [done|rewrite Hf|rewrite Hdes];
    apply not_elem_of_nil.
Qed.

(** The world that claiming [d] leaves when nothing was connected before. *)
Lemma attach_initial w d dev :
  initial w ->
  w_devices w !! d = Some dev ->
  w_heap (attach d dev w) = {[ fresh (dom (w_heap w)) := claim_record d ]} /\
  w_devices (attach d dev w)
    = <[d := subscribe (fresh (dom (w_heap w))) (select_mode dev)]> (w_devices w) /\
  w_backend_new_output (attach d dev w) = [].
Proof.
  intros (Hheap & Hout & Hback & Hdevs) Hdev.
  destruct (Hdevs _ _ Hdev) as [Hf Hd].
  destruct (select_mode_events dev) as (Hf' & Hd' & _).
  unfold attach, claim, unlink. simpl. split; [|split].
  - by rewrite Hheap, insert_empty.
  - rewrite fmap_insert, devices_remove_listener_absent by done. f_equal.
    apply device_remove_listener_absent; simpl; rewrite ?Hf', ?Hd', ?Hf, ?Hd; simpl;
      by intros ?%list_elem_of_singleton.
  - rewrite Hback. unfold remove_listener.
    rewrite filter_cons, decide_False by (by intros H; apply H). done.
Qed.

Lemma deliver_new_output_initial w d dev :
  initial w ->
  new_output_notify (w_server w) = Some fn_handle_new_output ->
  w_devices w !! d = Some dev ->
  deliver (new_output_event d) w = Ok tt (attach d dev w).
Proof.
  intros Hinit Hn Hdev. destruct Hinit as (_ & _ & Hback & _).
  unfold deliver, wl_signal_emit. run_monad. rewrite Hback.
  unfold for_each, notify, listener_notify. run_monad. rewrite Hn.
  rewrite (handle_new_output_run _ _ _ Hdev).
  rewrite decide_True; [done|]. left. simpl. rewrite Hback. left.
Qed.

(** A signal with one listener runs the handler of that listener. *)
Lemma emit_frame_listener d dev o out w :
  w_devices w !! d = Some dev ->
  events_frame dev = [output_frame o] ->
  w_heap w !! o = Some out ->
  frame_notify out = Some fn_handle_output_frame ->
  deliver (frame_event d) w = handle_output_frame (output_frame o) w.
Proof.
  intros Hdev Hev Ho Hn.
  unfold deliver, wl_signal_emit. run_monad. rewrite Hdev, Hev.
  unfold for_each, notify, listener_notify. run_monad. rewrite Ho, Hn.
  by destruct (handle_output_frame (output_frame o) w) as [[] w'|].
Qed.

Lemma emit_destroy_listener d dev o out w :
  w_devices w !! d = Some dev ->
  events_destroy dev = [output_destroy o] ->
  w_heap w !! o = Some out ->
  destroy_notify out = Some fn_handle_output_destroy ->
  deliver (destroy_event d) w = handle_output_destroy (output_destroy o) w.
Proof.
  intros Hdev Hev Ho Hn.
  unfold deliver, wl_signal_emit. run_monad. rewrite Hdev, Hev.
  unfold for_each, notify, listener_notify. run_monad. rewrite Ho, Hn.
  by destruct (handle_output_destroy (output_destroy o) w) as [[] w'|].
Qed.

Lemma emit_no_listener d dev w :
  w_devices w !! d = Some dev ->
  events_frame dev = [] -> events_destroy dev = [] ->
  deliver (frame_event d) w = Ok tt w /\ deliver (destroy_event d) w = Ok tt w.
Proof.
  intros Hdev Hf Hd. unfold deliver, wl_signal_emit. run_monad.
  by rewrite Hdev, Hf, Hd.
Qed.

(** X16: from the initial state, attaching a device makes that device,
    and no other, drive the output: afterwards the server owns exactly one
    live record for the device, a frame notification of the device runs
    [handle_output_frame] on that record and a destroy notification runs
    [handle_output_destroy] on it, while frame and destroy notifications of
    any other device reach no handler and change nothing. *)
Theorem only_the_claimed_device_is_driven w d dev :
  initial w ->
  new_output_notify (w_server w) = Some fn_handle_new_output ->
  w_devices w !! d = Some dev ->
  exists w' o,
    deliver (new_output_event d) w = Ok tt w' /\
    output (w_server w') = Some o /\
    w_heap w' = {[ o := claim_record d ]} /\
    deliver (frame_event d) w' = handle_output_frame (output_frame o) w' /\
    deliver (destroy_event d) w' = handle_output_destroy (output_destroy o) w' /\
    (forall d', d' ≠ d -> is_Some (w_devices w !! d') ->
       deliver (frame_event d') w' = Ok tt w' /\
       deliver (destroy_event d') w' = Ok tt w').
Proof.
  intros Hinit Hn Hdev.
  destruct (attach_initial w d dev Hinit Hdev) as (Hheap & Hdevs & _).
  destruct (select_mode_events dev) as (Hf' & Hd' & _).
  pose proof Hinit as (_ & _ & _ & Hall).
  destruct (Hall _ _ Hdev) as [Hf Hd].
  exists (attach d dev w), (fresh (dom (w_heap w))).
  split; [by apply deliver_new_output_initial|]. split; [done|]. split; [done|].
  split; [|split].
  - eapply emit_frame_listener.
    + by rewrite Hdevs, lookup_insert_eq.
    + simpl. by rewrite Hf', Hf.
    + by rewrite Hheap, lookup_singleton_eq.
    + done.
  - eapply emit_destroy_listener.
    + by rewrite Hdevs, lookup_insert_eq.
    + simpl. by rewrite Hd', Hd.
    + by rewrite Hheap, lookup_singleton_eq.
    + done.
  - intros d' Hne [dev' Hdev'].
    destruct (Hall _ _ Hdev') as [Hf0 Hd0].
    eapply emit_no_listener; [|exact Hf0|exact Hd0].
    by rewrite Hdevs, lookup_insert_ne.
Qed.

(** X17: a device is attached and then removed. Both notifications are
    handled normally; afterwards the heap is as it was before the device was
    attached (the record was freed, nothing leaked), [server->output] is
    NULL again and the views are untouched, the devices carry no listener
    (the claimed one differs from before only by the mode that was set), but
    the device is still in the layout, the server no longer listens for new
    outputs and the display was told to stop: no later notification reaches
    a handler, and a frame handler called on the freed record faults. *)
Theorem claim_then_removal w d dev :
  initial w ->
  new_output_notify (w_server w) = Some fn_handle_new_output ->
  w_devices w !! d = Some dev ->
  exists w1 w2,
    deliver (new_output_event d) w = Ok tt w1 /\
    deliver (destroy_event d) w1 = Ok tt w2 /\
    w_heap w2 = w_heap w /\
    output (w_server w2) = output (w_server w) /\
    views (w_server w2) = views (w_server w) /\
    w_devices w2 = <[d := select_mode dev]> (w_devices w) /\
    output_layout (w_server w2) = layout_add_auto d (output_layout (w_server w)) /\
    w_backend_new_output w2 = [] /\
    w_display_running w2 = false /\
    (forall d', deliver (new_output_event d') w2 = Ok tt w2) /\
    (forall d', is_Some (w_devices w !! d') ->
       deliver (frame_event d') w2 = Ok tt w2 /\
       deliver (destroy_event d') w2 = Ok tt w2) /\
    (forall l, handle_output_frame l w2 = Fault invalid_pointer).
Proof.
  intros Hinit Hn Hdev.
  destruct (attach_initial w d dev Hinit Hdev) as (Hheap & Hdevs & Hback).
  destruct (select_mode_events dev) as (Hf' & Hd' & _).
  pose proof Hinit as (Hempty & Hnone & _ & Hall).
  destruct (Hall _ _ Hdev) as [Hf Hd].
  set (o := fresh (dom (w_heap w))) in *.
  set (w1 := attach d dev w) in *.
  assert (Hrun1 : deliver (new_output_event d) w = Ok tt w1)
    by (by apply deliver_new_output_initial).
  assert (views (w_server w1) = views (w_server w) /\
          output_layout (w_server w1) = layout_add_auto d (output_layout (w_server w)))
    as [Hviews Hlayout] by done.
  clearbody w1.
  assert (Hdev1 : w_devices w1 !! d = Some (subscribe o (select_mode dev)))
    by (by rewrite Hdevs, lookup_insert_eq).
  assert (Ho1 : w_heap w1 !! o = Some (claim_record d))
    by (by rewrite Hheap, lookup_singleton_eq).
  assert (Hdevs2 : w_devices (teardown o w1) = <[d := select_mode dev]> (w_devices w)).
  { unfold teardown, unlink. simpl. rewrite Hdevs, !fmap_insert.
    rewrite !(devices_remove_listener_absent _ (w_devices w)) by done. f_equal.
    unfold device_remove_listener, subscribe, remove_listener. simpl.
    rewrite Hf', Hd', Hf, Hd. simpl.
    rewrite !filter_cons, !filter_nil.
    rewrite (decide_True (P := output_frame o ≠ output_destroy o)) by done.
    rewrite (decide_False (P := output_destroy o ≠ output_destroy o))
      by (by intros H; apply H).
    rewrite filter_cons, filter_nil.
    rewrite (decide_False (P := output_frame o ≠ output_frame o))
      by (by intros H; apply H).
    rewrite <- Hf at 1. rewrite <- Hd at 1. rewrite <- Hf', <- Hd'.
    by destruct (select_mode dev). }
  exists w1, (teardown o w1).
  split; [exact Hrun1|]. split.
  { rewrite (emit_destroy_listener d _ o (claim_record d) w1 Hdev1); [| |exact Ho1|done].
    2: { simpl. by rewrite Hd', Hd. }
    rewrite handle_output_destroy_run, Ho1.
    assert (linked (output_destroy o) w1) as H1.
    { eapply linked_device; [exact Hdev1|]. right. simpl. rewrite elem_of_app.
      right. left. }
    assert (linked (output_frame o) w1) as H2.
    { eapply linked_device; [exact Hdev1|]. left. simpl. rewrite elem_of_app.
      right. left. }
    rewrite decide_True by done.
    by rewrite decide_True by (by apply linked_unlink). }
  split. { unfold teardown. simpl. by rewrite Hheap, delete_singleton_eq, Hempty. }
  split; [by rewrite Hnone|]. split; [done|]. split; [exact Hdevs2|].
  split; [done|].
  assert (Hback2 : w_backend_new_output (teardown o w1) = []).
  { unfold teardown, unlink. simpl. by rewrite Hback. }
  split; [exact Hback2|]. split; [done|]. split; [|split].
  - intros d'. unfold deliver, wl_signal_emit. run_monad. by rewrite Hback2.
  - intros d' [dev' Hdev'].
    destruct (decide (d' = d)) as [->|Hne].
    + eapply emit_no_listener.
      * by rewrite Hdevs2, lookup_insert_eq.
      * by rewrite Hf'.
      * by rewrite Hd'.
    + destruct (Hall _ _ Hdev') as [Hf0 Hd0].
      eapply emit_no_listener; [|exact Hf0|exact Hd0].
      by rewrite Hdevs2, lookup_insert_ne.
  - intros l. unfold handle_output_frame.
    destruct l as [|o'|o']; [done| |done]. run_monad.
    assert (w_heap (teardown o w1) !! o' = None) as ->; [|done].
    unfold teardown. simpl. by rewrite Hheap, delete_singleton_eq.
Qed.

(** ** The phases of a session *)

Lemma handle_output_frame_outcome o out d dev w :
  w_heap w !! o = Some out ->
  cg_wlr_output out = Some d ->
  w_devices w !! d = Some dev ->
  match handle_output_frame (output_frame o) w with
  | Ok _ w' =>
      w_server w' = w_server w /\ w_heap w' = w_heap w /\ w_devices w' = w_devices w /\
      w_backend_new_output w' = w_backend_new_output w /\
      w_display_running w' = w_display_running w
  | Fault f => f = undefined_arithmetic
  end.
Proof.
  intros Ho Hd Hdev. rewrite (handle_output_frame_run _ _ _ _ _ Ho Hd Hdev).
  destruct (env_make_current _ _); [|done].
  by destruct (frame_calls w d dev).
Qed.

Lemma quiet_lookup m d dev :
  quiet m -> m !! d = Some dev -> events_frame dev = [] /\ events_destroy dev = [].
Proof. intros Hq Hd. exact (Hq _ _ Hd). Qed.

Lemma deliver_new_output_nobody d w :
  w_backend_new_output w = [] -> deliver (new_output_event d) w = Ok tt w.
Proof.
  intros Hback. unfold deliver, wl_signal_emit. run_monad. by rewrite Hback.
Qed.

Lemma deliver_no_device n w :
  match n with new_output_event _ => False | _ => True end ->
  w_devices w !! notification_device n = None ->
  deliver n w = Fault invalid_pointer.
Proof.
  intros Hn Hdev. destruct n as [d|d|d]; [done| |];
    unfold deliver; run_monad; simpl in Hdev; by rewrite Hdev.
Qed.

(** What delivering a notification does in each phase. *)
Lemma deliver_in_phase p n w :
  in_phase p w ->
  match deliver n w with
  | Ok _ w' => exists p', in_phase p' w' /\ follows p p'
  | Fault f =>
      f = undefined_arithmetic \/
      (f = invalid_pointer /\ w_devices w !! notification_device n = None)
  end.
Proof.
  intros [Hn Hp].
  assert (Hstay : follows p p) by (by destruct p).
  assert (Hquiet : forall d dev,
            w_devices w !! d = Some dev ->
            events_frame dev = [] -> events_destroy dev = [] ->
            forall n', n' = frame_event d \/ n' = destroy_event d ->
            match deliver n' w with
            | Ok _ w' => exists p', in_phase p' w' /\ follows p p'
            | Fault f =>
                f = undefined_arithmetic \/
                (f = invalid_pointer /\ w_devices w !! notification_device n' = None)
            end).
  { intros d dev Hdev Hf Hd n' Hn'.
    destruct (emit_no_listener d dev w Hdev Hf Hd) as [H1 H2].
    destruct Hn' as [-> | ->]; [rewrite H1|rewrite H2]; by exists p. }
  assert (Hgone : forall n',
            match n' with new_output_event _ => False | _ => True end ->
            w_devices w !! notification_device n' = None ->
            match deliver n' w with
            | Ok _ w' => exists p', in_phase p' w' /\ follows p p'
            | Fault f =>
                f = undefined_arithmetic \/
                (f = invalid_pointer /\ w_devices w !! notification_device n' = None)
            end).
  { intros n' Hn' Hdev. rewrite (deliver_no_device _ _ Hn' Hdev). by right. }
  destruct p as [|o d0|].
  - (* no device has been claimed *)
    destruct Hp as [Hinit Hrunning]. pose proof Hinit as (_ & _ & Hback & Hall).
    destruct n as [d|d|d];
      (destruct (w_devices w !! d) as [dev|] eqn:Hdev;
       [|try (by apply Hgone)]).
    + rewrite (deliver_new_output_initial _ _ _ Hinit Hn Hdev).
      destruct (attach_initial w d dev Hinit Hdev) as (Hheap & Hdevs & Hback').
      destruct (select_mode_events dev) as (Hf' & Hd' & _).
      destruct (Hall _ _ Hdev) as [Hf Hd].
      exists (Active (fresh (dom (w_heap w))) d). split; [|done].
      split; [done|]. split; [done|]. split; [done|]. split; [done|].
      split; [|split; [|done]].
      * eexists. rewrite Hdevs, lookup_insert_eq. split; [done|]. simpl.
        by rewrite Hf', Hd', Hf, Hd.
      * rewrite Hdevs, delete_insert_eq. by apply map_Forall_delete.
    + unfold deliver, wl_signal_emit. run_monad. rewrite Hback.
      unfold for_each, notify, listener_notify. run_monad. rewrite Hn.
      rewrite (handle_new_output_no_device _ _ _ Hdev). right. by split.
    + destruct (Hall _ _ Hdev) as [Hf Hd]. apply (Hquiet d dev); auto.
    + destruct (Hall _ _ Hdev) as [Hf Hd]. apply (Hquiet d dev); auto.
  - (* the output [o] drives the device [d0] *)
    destruct Hp as (Hheap & Hout & Hback & (dev0 & Hdev0 & Hf0 & Hd0) & Hothers & Hrunning).
    assert (Ho : w_heap w !! o = Some (claim_record d0))
      by (by rewrite Hheap, lookup_singleton_eq).
    destruct n as [d|d|d].
    + rewrite (deliver_new_output_nobody _ _ Hback).
      exists (Active o d0). split; [|done]. split; [done|]. do 3 (split; [done|]).
      split; [by exists dev0|done].
    + destruct (decide (d = d0)) as [->|Hne].
      * rewrite (emit_frame_listener d0 dev0 o _ w Hdev0 Hf0 Ho eq_refl).
        pose proof (handle_output_frame_outcome o _ d0 dev0 w Ho eq_refl Hdev0) as Hrun.
        destruct (handle_output_frame (output_frame o) w) as [[] w'|f]; [|by left].
        destruct Hrun as (Hs & Hh & Hds & Hb & Hr).
        exists (Active o d0). split; [|done].
        split; [by rewrite Hs|]. rewrite Hs, Hh, Hds, Hb, Hr.
        do 3 (split; [done|]). split; [by exists dev0|done].
      * destruct (w_devices w !! d) as [dev|] eqn:Hdev; [|by apply Hgone].
        destruct (quiet_lookup _ d dev Hothers) as [Hf Hd];
          [by rewrite lookup_delete_ne|].
        apply (Hquiet d dev); auto.
    + destruct (decide (d = d0)) as [->|Hne].
      * rewrite (emit_destroy_listener d0 dev0 o _ w Hdev0 Hd0 Ho eq_refl).
        rewrite handle_output_destroy_run, Ho.
        assert (linked (output_destroy o) w) as H1.
        { eapply linked_device; [exact Hdev0|]. right. rewrite Hd0. left. }
        assert (linked (output_frame o) w) as H2.
        { eapply linked_device; [exact Hdev0|]. left. rewrite Hf0. left. }
        rewrite decide_True by done.
        rewrite decide_True by (by apply linked_unlink).
        exists Terminated. split; [|done]. split; [done|].
        split. { unfold teardown. simpl. by rewrite Hheap, delete_singleton_eq. }
        split; [done|].
        split. { unfold teardown, unlink. simpl. by rewrite Hback. }
        split; [|done].
        unfold teardown, unlink. simpl.
        intros d dev. rewrite !lookup_fmap.
        destruct (w_devices w !! d) as [dev'|] eqn:Hdev; simpl; [|done].
        intros [= <-]. simpl. unfold remove_listener.
        destruct (decide (d = d0)) as [->|Hne].
        -- rewrite Hdev0 in Hdev. injection Hdev as <-. rewrite Hf0, Hd0.
           rewrite !filter_cons, !filter_nil.
           rewrite (decide_True (P := output_frame o ≠ output_destroy o)) by done.
           rewrite (decide_False (P := output_destroy o ≠ output_destroy o))
             by (by intros H; apply H).
           rewrite filter_cons, filter_nil.
           by rewrite (decide_False (P := output_frame o ≠ output_frame o))
             by (by intros H; apply H).
        -- destruct (quiet_lookup _ d dev' Hothers) as [-> ->];
             [by rewrite lookup_delete_ne|done].
      * destruct (w_devices w !! d) as [dev|] eqn:Hdev; [|by apply Hgone].
        destruct (quiet_lookup _ d dev Hothers) as [Hf Hd];
          [by rewrite lookup_delete_ne|].
        apply (Hquiet d dev); auto.
  - (* the output is gone *)
    destruct Hp as (Hheap & Hout & Hback & Hall & Hstopped).
    destruct n as [d|d|d].
    + rewrite (deliver_new_output_nobody _ _ Hback). by exists Terminated.
    + destruct (w_devices w !! d) as [dev|] eqn:Hdev; [|by apply Hgone].
      destruct (Hall _ _ Hdev) as [Hf Hd]. apply (Hquiet d dev); auto.
    + destruct (w_devices w !! d) as [dev|] eqn:Hdev; [|by apply Hgone].
      destruct (Hall _ _ Hdev) as [Hf Hd]. apply (Hquiet d dev); auto.
Qed.

Lemma step_in_phase p w w' :
  in_phase p w -> step w w' -> exists p', in_phase p' w' /\ follows p p'.
Proof.
  intros Hp Hstep. destruct Hstep as [n w w' Hrun|vs w|d dev w Hnone Hf Hd].
  - pose proof (deliver_in_phase p n w Hp) as H. by rewrite Hrun in H.
  - exists p. split; [|by destruct p]. destruct Hp as [Hn Hp]. split; [done|].
    by destruct p.
  - exists p. split; [|by destruct p]. destruct Hp as [Hn Hp]. split; [done|].
    destruct p as [|o d0|]; simpl in *.
    + destruct Hp as [(? & ? & ? & Hall) ?]. split; [|done].
      split; [done|]. split; [done|]. split; [done|].
      by apply map_Forall_insert_2.
    + destruct Hp as (? & ? & ? & (dev0 & Hdev0 & ? & ?) & Hothers & ?).
      assert (d ≠ d0) as Hne by (intros ->; by rewrite Hnone in Hdev0).
      do 3 (split; [done|]). split; [|split; [|done]].
      * exists dev0. by rewrite lookup_insert_ne.
      * rewrite delete_insert_ne by done. by apply map_Forall_insert_2.
    + destruct Hp as (? & ? & ? & Hall & ?). do 3 (split; [done|]).
      split; [|done]. by apply map_Forall_insert_2.
Qed.

Lemma follows_trans p1 p2 p3 : follows p1 p2 -> follows p2 p3 -> follows p1 p3.
Proof.
  destruct p1, p2, p3; simpl; try done. by intros [-> ->] [-> ->].
Qed.

(** X18: a session moves through three phases and never back. Every
    state is unclaimed (the initial shape), active (one live record, whose
    two listeners are the only ones connected, on the device it claims) or
    terminated (no record, no listener); whatever notifications are
    delivered, views change or devices appear, an unclaimed session stays
    or advances, an active one keeps its output and device or terminates,
    a terminated one stays terminated. The display has been stopped exactly
    in the terminated phase. *)
Theorem phases_only_advance p w w' :
  in_phase p w -> rtc step w w' ->
  exists p', in_phase p' w' /\ follows p p' /\
             (w_display_running w' = false <-> p' = Terminated).
Proof.
  intros Hp Hsteps. revert p Hp.
  induction Hsteps as [w|w1 w2 w3 Hstep _ IH]; intros p Hp.
  - exists p. split; [done|]. split; [by destruct p|].
    destruct Hp as [_ Hp].
    destruct p as [|o d|]; simpl in Hp.
    + destruct Hp as [_ ->]. by split.
    + destruct Hp as (_ & _ & _ & _ & _ & ->). by split.
    + destruct Hp as (_ & _ & _ & _ & ->). by split.
  - destruct (step_in_phase p w1 w2 Hp Hstep) as (p2 & Hp2 & H12).
    destruct (IH p2 Hp2) as (p3 & Hp3 & H23 & Hstop).
    exists p3. split; [done|]. split; [by eapply follows_trans|done].
Qed.

(** X19: in every state reachable from the initial one (display running,
    [handle_new_output] installed) a frame or destroy notification about a
    device that exists, and likewise a new-output notification once the
    server's new-output listener is disconnected, never makes a handler
    touch a freed or unallocated object or call a NULL callback: delivering
    it returns normally, or fails only by the undefined arithmetic of a
    rectangle (X7). The one delivery left out is the one that runs
    [handle_new_output], whose allocation can fail (X10). *)
Theorem reachable_states_are_memory_safe w0 w n :
  initial w0 ->
  new_output_notify (w_server w0) = Some fn_handle_new_output ->
  w_display_running w0 = true ->
  rtc step w0 w ->
  is_Some (w_devices w !! notification_device n) ->
  ~ reaches_allocation n w ->
  (exists w', deliver n w = Ok tt w') \/ deliver n w = Fault undefined_arithmetic.
Proof.
  intros Hinit Hn Hrunning Hsteps [dev Hdev] _.
  assert (exists p, in_phase p w) as [p Hp].
  { assert (in_phase Unclaimed w0) as Hp0 by done.
    clear Hinit Hn Hrunning Hdev.
    revert Hp0. generalize Unclaimed.
    induction Hsteps as [w|w1 w2 w3 Hstep _ IH]; intros p Hp; [by exists p|].
    destruct (step_in_phase p w1 w2 Hp Hstep) as (p2 & Hp2 & _). by eapply IH. }
  pose proof (deliver_in_phase p n w Hp) as H.
  destruct (deliver n w) as [[] w'|f]; [left; by exists w'|right].
  destruct H as [->|[_ Hnone]]; [done|]. by rewrite Hdev in Hnone.
Qed.

(** ** The theorems at work *)

Lemma tick_brackets_rendering_witness :
  w_heap (Scenario.retrying Scenario.scale_1_5) !! 1%positive = Some Scenario.claimed /\
  cg_wlr_output Scenario.claimed = Some 5%positive /\
  w_devices (Scenario.retrying Scenario.scale_1_5) !! 5%positive
    = Some (Scenario.attached Scenario.scale_1_5) /\
  env_make_current (w_env (Scenario.retrying Scenario.scale_1_5))
    (w_queries (Scenario.retrying Scenario.scale_1_5)) = true /\
  placements_defined (output_layout (w_server (Scenario.retrying Scenario.scale_1_5)))
    5%positive Scenario.scale_1_5
    (views (w_server (Scenario.retrying Scenario.scale_1_5))) /\
  exists w' body,
    handle_output_frame (output_frame 1%positive) (Scenario.retrying Scenario.scale_1_5)
      = Ok tt w' /\
    calls_since (Scenario.retrying Scenario.scale_1_5) w' =
      [ wlr_output_make_current 5%positive true;
        clock_gettime {| tv_sec := 3; tv_nsec := 0 |};
        wlr_renderer_begin 9%positive 1920 1080;
        wlr_renderer_clear 9%positive clear_color ]
      ++ body ++ [ wlr_renderer_end 9%positive; wlr_output_swap_buffers 5%positive ] /\
    Forall (fun c => is_surface_call c = true) body.
Proof.
  assert (Hdef : placements_defined
                   (output_layout (w_server (Scenario.retrying Scenario.scale_1_5)))
                   5%positive Scenario.scale_1_5
                   (views (w_server (Scenario.retrying Scenario.scale_1_5)))).
  { apply (bool_decide_unpack _). vm_compute. exact I. }
  assert (Ho : w_heap (Scenario.retrying Scenario.scale_1_5) !! 1%positive
               = Some Scenario.claimed) by (vm_compute; reflexivity).
  assert (Hdev : w_devices (Scenario.retrying Scenario.scale_1_5) !! 5%positive
                 = Some (Scenario.attached Scenario.scale_1_5))
    by (vm_compute; reflexivity).
  assert (Hok : env_make_current (w_env (Scenario.retrying Scenario.scale_1_5))
                  (w_queries (Scenario.retrying Scenario.scale_1_5)) = true)
    by (vm_compute; reflexivity).
  split; [exact Ho|]. split; [reflexivity|]. split; [exact Hdev|].
  split; [exact Hok|]. split; [exact Hdef|].
  destruct (tick_brackets_rendering 1%positive _ 5%positive _ _
              Ho eq_refl Hdev Hok Hdef) as (w' & body & Hrun & Hcalls & Hbody).
  exists w', body. split; [exact Hrun|]. split; [|exact Hbody].
  rewrite Hcalls. reflexivity.
Defined.

Lemma tick_log_entries_witness :
  w_heap (Scenario.retrying Scenario.scale_1_5) !! 1%positive = Some Scenario.claimed /\
  cg_wlr_output Scenario.claimed = Some 5%positive /\
  w_devices (Scenario.retrying Scenario.scale_1_5) !! 5%positive
    = Some (Scenario.attached Scenario.scale_1_5) /\
  env_make_current (w_env (Scenario.retrying Scenario.scale_1_5))
    (w_queries (Scenario.retrying Scenario.scale_1_5)) = true /\
  placements_defined (output_layout (w_server (Scenario.retrying Scenario.scale_1_5)))
    5%positive Scenario.scale_1_5
    (views (w_server (Scenario.retrying Scenario.scale_1_5))) /\
  exists w',
    handle_output_frame (output_frame 1%positive) (Scenario.retrying Scenario.scale_1_5)
      = Ok tt w' /\
    log_calls (calls_since (Scenario.retrying Scenario.scale_1_5) w') =
      [ wlr_log WLR_DEBUG "Cannot obtain surface texture";
        wlr_log WLR_ERROR "Unrecognized view type: %d" ].
Proof.
  assert (Hdef : placements_defined
                   (output_layout (w_server (Scenario.retrying Scenario.scale_1_5)))
                   5%positive Scenario.scale_1_5
                   (views (w_server (Scenario.retrying Scenario.scale_1_5)))).
  { apply (bool_decide_unpack _). vm_compute. exact I. }
  assert (Ho : w_heap (Scenario.retrying Scenario.scale_1_5) !! 1%positive
               = Some Scenario.claimed) by (vm_compute; reflexivity).
  assert (Hdev : w_devices (Scenario.retrying Scenario.scale_1_5) !! 5%positive
                 = Some (Scenario.attached Scenario.scale_1_5))
    by (vm_compute; reflexivity).
  assert (Hok : env_make_current (w_env (Scenario.retrying Scenario.scale_1_5))
                  (w_queries (Scenario.retrying Scenario.scale_1_5)) = true)
    by (vm_compute; reflexivity).
  split; [exact Ho|]. split; [reflexivity|]. split; [exact Hdev|].
  split; [exact Hok|]. split; [exact Hdef|].
  destruct (tick_log_entries 1%positive _ 5%positive _ _
              Ho eq_refl Hdev Hok Hdef) as (w' & Hrun & Hlogs).
  exists w'. split; [exact Hrun|].
  rewrite Hlogs. vm_compute. reflexivity.
Defined.

Lemma draw_then_frame_done_witness :
  w_heap (Scenario.retrying Scenario.scale_1_5) !! 1%positive = Some Scenario.claimed /\
  cg_wlr_output Scenario.claimed = Some 5%positive /\
  w_devices (Scenario.retrying Scenario.scale_1_5) !! 5%positive
    = Some (Scenario.attached Scenario.scale_1_5) /\
  env_make_current (w_env (Scenario.retrying Scenario.scale_1_5))
    (w_queries (Scenario.retrying Scenario.scale_1_5)) = true /\
  placements_defined (output_layout (w_server (Scenario.retrying Scenario.scale_1_5)))
    5%positive Scenario.scale_1_5
    (views (w_server (Scenario.retrying Scenario.scale_1_5))) /\
  exists w',
    handle_output_frame (output_frame 1%positive) (Scenario.retrying Scenario.scale_1_5)
      = Ok tt w' /\
    surface_events (calls_since (Scenario.retrying Scenario.scale_1_5) w') =
      [ drawn 30%positive; frame_done 20%positive;
        drawn 31%positive; frame_done 23%positive ].
Proof.
  assert (Hdef : placements_defined
                   (output_layout (w_server (Scenario.retrying Scenario.scale_1_5)))
                   5%positive Scenario.scale_1_5
                   (views (w_server (Scenario.retrying Scenario.scale_1_5)))).
  { apply (bool_decide_unpack _). vm_compute. exact I. }
  assert (Ho : w_heap (Scenario.retrying Scenario.scale_1_5) !! 1%positive
               = Some Scenario.claimed) by (vm_compute; reflexivity).
  assert (Hdev : w_devices (Scenario.retrying Scenario.scale_1_5) !! 5%positive
                 = Some (Scenario.attached Scenario.scale_1_5))
    by (vm_compute; reflexivity).
  assert (Hok : env_make_current (w_env (Scenario.retrying Scenario.scale_1_5))
                  (w_queries (Scenario.retrying Scenario.scale_1_5)) = true)
    by (vm_compute; reflexivity).
  split; [exact Ho|]. split; [reflexivity|]. split; [exact Hdev|].
  split; [exact Hok|]. split; [exact Hdef|].
  destruct (draw_then_frame_done 1%positive _ 5%positive _ _
              Ho eq_refl Hdev Hok Hdef) as (w' & Hrun & Hevents).
  exists w'. split; [exact Hrun|].
  rewrite Hevents. vm_compute. reflexivity.
Defined.

Lemma every_draw_is_a_placed_surface_witness :
  w_heap (Scenario.retrying Scenario.scale_1_5) !! 1%positive = Some Scenario.claimed /\
  cg_wlr_output Scenario.claimed = Some 5%positive /\
  w_devices (Scenario.retrying Scenario.scale_1_5) !! 5%positive
    = Some (Scenario.attached Scenario.scale_1_5) /\
  env_make_current (w_env (Scenario.retrying Scenario.scale_1_5))
    (w_queries (Scenario.retrying Scenario.scale_1_5)) = true /\
  placements_defined (output_layout (w_server (Scenario.retrying Scenario.scale_1_5)))
    5%positive Scenario.scale_1_5
    (views (w_server (Scenario.retrying Scenario.scale_1_5))) /\
  exists w',
    handle_output_frame (output_frame 1%positive) (Scenario.retrying Scenario.scale_1_5)
      = Ok tt w' /\
    forall r texture m alpha,
      wlr_render_texture_with_matrix r texture m alpha
        ∈ calls_since (Scenario.retrying Scenario.scale_1_5) w' ->
      alpha = 1 /\ matrix_projection m = 5%positive.
Proof.
  assert (Hdef : placements_defined
                   (output_layout (w_server (Scenario.retrying Scenario.scale_1_5)))
                   5%positive Scenario.scale_1_5
                   (views (w_server (Scenario.retrying Scenario.scale_1_5)))).
  { apply (bool_decide_unpack _). vm_compute. exact I. }
  assert (Ho : w_heap (Scenario.retrying Scenario.scale_1_5) !! 1%positive
               = Some Scenario.claimed) by (vm_compute; reflexivity).
  assert (Hdev : w_devices (Scenario.retrying Scenario.scale_1_5) !! 5%positive
                 = Some (Scenario.attached Scenario.scale_1_5))
    by (vm_compute; reflexivity).
  assert (Hok : env_make_current (w_env (Scenario.retrying Scenario.scale_1_5))
                  (w_queries (Scenario.retrying Scenario.scale_1_5)) = true)
    by (vm_compute; reflexivity).
  split; [exact Ho|]. split; [reflexivity|]. split; [exact Hdev|].
  split; [exact Hok|]. split; [exact Hdef|].
  destruct (every_draw_is_a_placed_surface 1%positive _ 5%positive _ _
              Ho eq_refl Hdev Hok Hdef) as (w' & Hrun & Hdraws).
  exists w'. split; [exact Hrun|].
  intros r texture m alpha Hin.
  destruct (Hdraws r texture m alpha Hin) as (v & s & sx & sy & H). tauto.
Defined.

Lemma empty_stack_is_cleared_and_presented_witness :
  w_heap Corner.active !! 1%positive = Some (claim_record 6%positive) /\
  cg_wlr_output (claim_record 6%positive) = Some 6%positive /\
  w_devices Corner.active !! 6%positive = Some Corner.attached /\
  env_make_current (w_env Corner.active) (w_queries Corner.active) = true /\
  views (w_server Corner.active) = [] /\
  exists w',
    handle_output_frame (output_frame 1%positive) Corner.active = Ok tt w' /\
    calls_since Corner.active w' =
      [ wlr_output_make_current 6%positive true;
        clock_gettime {| tv_sec := 2; tv_nsec := 500 |};
        wlr_renderer_begin 9%positive 1281 721;
        wlr_renderer_clear 9%positive clear_color;
        wlr_renderer_end 9%positive;
        wlr_output_swap_buffers 6%positive ].
Proof.
  assert (Ho : w_heap Corner.active !! 1%positive = Some (claim_record 6%positive))
    by (vm_compute; reflexivity).
  assert (Hdev : w_devices Corner.active !! 6%positive = Some Corner.attached)
    by (vm_compute; reflexivity).
  split; [exact Ho|]. split; [reflexivity|]. split; [exact Hdev|].
  split; [reflexivity|]. split; [reflexivity|].
  eexists. split.
  - exact (empty_stack_is_cleared_and_presented 1%positive _ 6%positive _ _
             Ho eq_refl Hdev eq_refl eq_refl).
  - rewrite calls_since_add_queries. reflexivity.
Defined.

Lemma frame_handler_leaves_state_witness :
  handle_output_frame (output_frame 1%positive) (Scenario.retrying Scenario.scale_1)
    = Ok tt (Scenario.after [frame_event 5%positive] (Scenario.retrying Scenario.scale_1)) /\
  w_server (Scenario.after [frame_event 5%positive] (Scenario.retrying Scenario.scale_1))
    = w_server (Scenario.retrying Scenario.scale_1) /\
  w_display_running
    (Scenario.after [frame_event 5%positive] (Scenario.retrying Scenario.scale_1))
    = w_display_running (Scenario.retrying Scenario.scale_1).
Proof.
  assert (Hrun : handle_output_frame (output_frame 1%positive)
                   (Scenario.retrying Scenario.scale_1)
                 = Ok tt (Scenario.after [frame_event 5%positive]
                            (Scenario.retrying Scenario.scale_1)))
    by (vm_compute; reflexivity).
  split; [exact Hrun|].
  destruct (frame_handler_leaves_state _ _ _ Hrun) as (Hs & _ & _ & _ & Hr & _).
  by split.
Defined.

Lemma tick_completes_iff_placements_defined_witness :
  w_heap Corner.overflowing !! 1%positive = Some (claim_record 6%positive) /\
  cg_wlr_output (claim_record 6%positive) = Some 6%positive /\
  w_devices Corner.overflowing !! 6%positive = Some Corner.attached /\
  env_make_current (w_env Corner.overflowing) (w_queries Corner.overflowing) = true /\
  ~ placements_defined (output_layout (w_server Corner.overflowing)) 6%positive
      (output_scale Corner.attached) (views (w_server Corner.overflowing)) /\
  handle_output_frame (output_frame 1%positive) Corner.overflowing
    = Fault undefined_arithmetic.
Proof.
  assert (Ho : w_heap Corner.overflowing !! 1%positive = Some (claim_record 6%positive))
    by (vm_compute; reflexivity).
  assert (Hdev : w_devices Corner.overflowing !! 6%positive = Some Corner.attached)
    by (vm_compute; reflexivity).
  assert (Hundef : ~ placements_defined (output_layout (w_server Corner.overflowing))
                       6%positive (output_scale Corner.attached)
                       (views (w_server Corner.overflowing))).
  { apply (bool_decide_eq_false_1 _). vm_compute. reflexivity. }
  split; [exact Ho|]. split; [reflexivity|]. split; [exact Hdev|].
  split; [reflexivity|]. split; [exact Hundef|].
  exact (proj2 (tick_completes_iff_placements_defined 1%positive _ 6%positive _ _
                  Ho eq_refl Hdev eq_refl) Hundef).
Defined.

Lemma bounded_geometry_renders_witness :
  w_heap (Scenario.retrying Scenario.scale_1_5) !! 1%positive = Some Scenario.claimed /\
  cg_wlr_output Scenario.claimed = Some 5%positive /\
  w_devices (Scenario.retrying Scenario.scale_1_5) !! 5%positive
    = Some (Scenario.attached Scenario.scale_1_5) /\
  env_make_current (w_env (Scenario.retrying Scenario.scale_1_5))
    (w_queries (Scenario.retrying Scenario.scale_1_5)) = true /\
  List.find (fun l => Pos.eqb (lo_output l) 5%positive)
    (output_layout (w_server (Scenario.retrying Scenario.scale_1_5)))
    = Some {| lo_output := 5%positive; lo_x := 0; lo_y := 0 |} /\
  output_scale (Scenario.attached Scenario.scale_1_5) = normal Float.prec false 3 (- 1) /\
  bounded_geometry {| lo_output := 5%positive; lo_x := 0; lo_y := 0 |}
    (views (w_server (Scenario.retrying Scenario.scale_1_5))) /\
  exists w',
    handle_output_frame (output_frame 1%positive) (Scenario.retrying Scenario.scale_1_5)
      = Ok tt w'.
Proof.
  assert (Ho : w_heap (Scenario.retrying Scenario.scale_1_5) !! 1%positive
               = Some Scenario.claimed) by (vm_compute; reflexivity).
  assert (Hdev : w_devices (Scenario.retrying Scenario.scale_1_5) !! 5%positive
                 = Some (Scenario.attached Scenario.scale_1_5))
    by (vm_compute; reflexivity).
  assert (Hok : env_make_current (w_env (Scenario.retrying Scenario.scale_1_5))
                  (w_queries (Scenario.retrying Scenario.scale_1_5)) = true)
    by (vm_compute; reflexivity).
  assert (Hfind : List.find (fun l => Pos.eqb (lo_output l) 5%positive)
                    (output_layout (w_server (Scenario.retrying Scenario.scale_1_5)))
                  = Some {| lo_output := 5%positive; lo_x := 0; lo_y := 0 |})
    by (vm_compute; reflexivity).
  assert (Hscale : output_scale (Scenario.attached Scenario.scale_1_5)
                   = normal Float.prec false 3 (- 1)) by (vm_compute; reflexivity).
  assert (Hgeo : bounded_geometry {| lo_output := 5%positive; lo_x := 0; lo_y := 0 |}
                   (views (w_server (Scenario.retrying Scenario.scale_1_5)))).
  { apply (bool_decide_unpack _). vm_compute. exact I. }
  split; [exact Ho|]. split; [reflexivity|]. split; [exact Hdev|].
  split; [exact Hok|]. split; [exact Hfind|]. split; [exact Hscale|].
  split; [exact Hgeo|].
  apply (bounded_geometry_renders 1%positive _ 5%positive _ _ 3%positive 1 _
           Ho eq_refl Hdev Hok Hfind Hscale); [lia|by vm_compute|exact Hgeo].
Defined.

Lemma ticks_differ_in_timestamp_only_witness :
  w_heap (Scenario.retrying Scenario.scale_1_5) !! 1%positive = Some Scenario.claimed /\
  cg_wlr_output Scenario.claimed = Some 5%positive /\
  w_devices (Scenario.retrying Scenario.scale_1_5) !! 5%positive
    = Some (Scenario.attached Scenario.scale_1_5) /\
  env_make_current (w_env (Scenario.retrying Scenario.scale_1_5))
    (w_queries (Scenario.retrying Scenario.scale_1_5)) = true /\
  env_make_current (w_env (Scenario.retrying Scenario.scale_1_5))
    (S (S (w_queries (Scenario.retrying Scenario.scale_1_5)))) = true /\
  placements_defined (output_layout (w_server (Scenario.retrying Scenario.scale_1_5)))
    5%positive Scenario.scale_1_5
    (views (w_server (Scenario.retrying Scenario.scale_1_5))) /\
  exists w1 w2,
    handle_output_frame (output_frame 1%positive) (Scenario.retrying Scenario.scale_1_5)
      = Ok tt w1 /\
    handle_output_frame (output_frame 1%positive) w1 = Ok tt w2 /\
    calls_since w1 w2
    = restamp {| tv_sec := 5; tv_nsec := 0 |}
        <$> calls_since (Scenario.retrying Scenario.scale_1_5) w1.
Proof.
  assert (Hdef : placements_defined
                   (output_layout (w_server (Scenario.retrying Scenario.scale_1_5)))
                   5%positive Scenario.scale_1_5
                   (views (w_server (Scenario.retrying Scenario.scale_1_5)))).
  { apply (bool_decide_unpack _). vm_compute. exact I. }
  assert (Ho : w_heap (Scenario.retrying Scenario.scale_1_5) !! 1%positive
               = Some Scenario.claimed) by (vm_compute; reflexivity).
  assert (Hdev : w_devices (Scenario.retrying Scenario.scale_1_5) !! 5%positive
                 = Some (Scenario.attached Scenario.scale_1_5))
    by (vm_compute; reflexivity).
  assert (Hok : env_make_current (w_env (Scenario.retrying Scenario.scale_1_5))
                  (w_queries (Scenario.retrying Scenario.scale_1_5)) = true)
    by (vm_compute; reflexivity).
  assert (Hok' : env_make_current (w_env (Scenario.retrying Scenario.scale_1_5))
                   (S (S (w_queries (Scenario.retrying Scenario.scale_1_5)))) = true)
    by (vm_compute; reflexivity).
  split; [exact Ho|]. split; [reflexivity|]. split; [exact Hdev|].
  split; [exact Hok|]. split; [exact Hok'|]. split; [exact Hdef|].
  destruct (ticks_differ_in_timestamp_only 1%positive _ 5%positive _ _
              Ho eq_refl Hdev Hok Hok' Hdef) as (w1 & w2 & Hrun1 & Hrun2 & Hcalls).
  exists w1, w2. split; [exact Hrun1|]. split; [exact Hrun2|]. exact Hcalls.
Defined.

Lemma teardown_touches_only_its_output_witness :
  handle_output_destroy (output_destroy 1%positive) (Scenario.active Scenario.scale_1)
    = Ok tt (Scenario.destroyed Scenario.scale_1) /\
  ~ linked (output_frame 1%positive) (Scenario.destroyed Scenario.scale_1) /\
  views (w_server (Scenario.destroyed Scenario.scale_1))
    = [Scenario.view_B; Scenario.view_odd; Scenario.view_A] /\
  output_layout (w_server (Scenario.destroyed Scenario.scale_1))
    = [{| lo_output := 5%positive; lo_x := 0; lo_y := 0 |}].
Proof.
  assert (Hrun : handle_output_destroy (output_destroy 1%positive)
                   (Scenario.active Scenario.scale_1)
                 = Ok tt (Scenario.destroyed Scenario.scale_1))
    by (vm_compute; reflexivity).
  split; [exact Hrun|].
  destruct (teardown_touches_only_its_output _ _ _ Hrun)
    as (Hlinked & _ & Hviews & Hlayout & _).
  split; [|split].
  - rewrite Hlinked. by intros [? _].
  - rewrite Hviews. vm_compute. reflexivity.
  - rewrite Hlayout. vm_compute. reflexivity.
Defined.

Lemma cursor_theme_failure_is_tolerated_witness :
  w_devices Corner.unclaimed !! 6%positive = Some Corner.window /\
  linked server_new_output Corner.unclaimed /\
  env_xcursor_load (w_env Corner.unclaimed) (w_queries Corner.unclaimed) = 1 /\
  exists w' o,
    handle_new_output server_new_output 6%positive Corner.unclaimed = Ok tt w' /\
    log_calls (calls_since Corner.unclaimed w') =
      [wlr_log WLR_ERROR "Cannot load XCursor theme for output '%s' with scale %f"] /\
    last (calls_since Corner.unclaimed w') = Some (wlr_cursor_warp 640 360) /\
    output (w_server w') = Some o /\
    w_heap w' !! o = Some (claim_record 6%positive) /\
    w_display_running w' = true.
Proof.
  assert (Hdev : w_devices Corner.unclaimed !! 6%positive = Some Corner.window)
    by (vm_compute; reflexivity).
  assert (Hl : linked server_new_output Corner.unclaimed) by (left; left).
  split; [exact Hdev|]. split; [exact Hl|]. split; [reflexivity|].
  destruct (cursor_theme_failure_is_tolerated 6%positive _ _ Hdev Hl)
    as (w' & pre & o & Hrun & Hcalls & Hpre & Hout & Hrec & Hrunning).
  exists w', o. split; [exact Hrun|]. rewrite Hcalls.
  split; [|split; [|done]].
  - unfold log_calls in *. rewrite filter_app, Hpre. reflexivity.
  - rewrite !app_assoc, last_app. reflexivity.
Defined.

Lemma modeless_device_keeps_its_size_witness :
  w_devices Corner.unclaimed !! 6%positive = Some Corner.window /\
  output_modes Corner.window = [] /\
  linked server_new_output Corner.unclaimed /\
  exists w',
    handle_new_output server_new_output 6%positive Corner.unclaimed = Ok tt w' /\
    calls_since Corner.unclaimed w' =
      [ wlr_output_layout_add_auto 6%positive;
        wlr_xcursor_manager_load Scenario.scale_2 1;
        wlr_log WLR_ERROR "Cannot load XCursor theme for output '%s' with scale %f";
        wlr_xcursor_manager_set_cursor_image DEFAULT_XCURSOR;
        wlr_cursor_warp 640 360 ] /\
    w_devices w' !! 6%positive = Some Corner.attached.
Proof.
  assert (Hdev : w_devices Corner.unclaimed !! 6%positive = Some Corner.window)
    by (vm_compute; reflexivity).
  assert (Hl : linked server_new_output Corner.unclaimed) by (left; left).
  split; [exact Hdev|]. split; [reflexivity|]. split; [exact Hl|].
  destruct (modeless_device_keeps_its_size 6%positive _ _ Hdev eq_refl Hl)
    as (w' & dev' & Hrun & Hcalls & _).
  exists w'. split; [exact Hrun|]. split; [rewrite Hcalls; reflexivity|].
  assert (w' = Corner.active) as ->; [|vm_compute; reflexivity].
  assert (handle_new_output server_new_output 6%positive Corner.unclaimed
          = Ok tt Corner.active) as Hrun' by (vm_compute; reflexivity).
  rewrite Hrun in Hrun'. by injection Hrun'.
Defined.

Lemma attach_touches_only_its_device_witness :
  handle_new_output server_new_output 5%positive (Scenario.unclaimed Scenario.scale_1)
    = Ok tt (Scenario.active Scenario.scale_1) /\
  views (w_server (Scenario.active Scenario.scale_1))
    = views (w_server (Scenario.unclaimed Scenario.scale_1)) /\
  ~ linked server_new_output (Scenario.active Scenario.scale_1) /\
  handle_new_output server_new_output 5%positive (Scenario.active Scenario.scale_1)
    = Fault invalid_pointer.
Proof.
  assert (Hrun : handle_new_output server_new_output 5%positive
                   (Scenario.unclaimed Scenario.scale_1)
                 = Ok tt (Scenario.active Scenario.scale_1))
    by (vm_compute; reflexivity).
  split; [exact Hrun|].
  destruct (attach_touches_only_its_device _ _ _ Hrun)
    as (o & _ & _ & _ & Hviews & _ & _ & _ & _ & Hlinked & Hagain).
  split; [exact Hviews|]. split; [|apply Hagain].
  rewrite Hlinked. by intros [? _].
Defined.

Lemma only_the_claimed_device_is_driven_witness :
  initial Corner.two_heads /\
  new_output_notify (w_server Corner.two_heads) = Some fn_handle_new_output /\
  w_devices Corner.two_heads !! 6%positive = Some Corner.window /\
  exists w',
    deliver (new_output_event 6%positive) Corner.two_heads = Ok tt w' /\
    deliver (frame_event 6%positive) w' = handle_output_frame (output_frame 1%positive) w' /\
    deliver (frame_event 7%positive) w' = Ok tt w'.
Proof.
  assert (Hinit : initial Corner.two_heads).
  { split; [reflexivity|]. split; [reflexivity|]. split; [reflexivity|].
    apply (bool_decide_unpack _). vm_compute. exact I. }
  assert (Hdev : w_devices Corner.two_heads !! 6%positive = Some Corner.window)
    by (vm_compute; reflexivity).
  split; [exact Hinit|]. split; [reflexivity|]. split; [exact Hdev|].
  destruct (only_the_claimed_device_is_driven _ _ _ Hinit eq_refl Hdev)
    as (w' & o & Hrun & Hout & Hheap & Hframe & _ & Hother).
  exists w'. split; [exact Hrun|].
  assert (o = 1%positive) as ->.
  { assert (deliver (new_output_event 6%positive) Corner.two_heads
            = Ok tt (Scenario.after [new_output_event 6%positive] Corner.two_heads))
      as Hrun' by (vm_compute; reflexivity).
    rewrite Hrun in Hrun'. injection Hrun' as ->.
    assert (output (w_server (Scenario.after [new_output_event 6%positive]
                                Corner.two_heads)) = Some 1%positive)
      as Hout' by (vm_compute; reflexivity).
    rewrite Hout in Hout'. by injection Hout'. }
  split; [exact Hframe|].
  apply (Hother 7%positive); [done|]. vm_compute. by eexists.
Defined.

Lemma claim_then_removal_witness :
  initial Corner.two_heads /\
  new_output_notify (w_server Corner.two_heads) = Some fn_handle_new_output /\
  w_devices Corner.two_heads !! 6%positive = Some Corner.window /\
  exists w1 w2,
    deliver (new_output_event 6%positive) Corner.two_heads = Ok tt w1 /\
    deliver (destroy_event 6%positive) w1 = Ok tt w2 /\
    w_heap w2 = ∅ /\
    w_devices w2 = w_devices Corner.two_heads /\
    output_layout (w_server w2) = [{| lo_output := 6%positive; lo_x := 0; lo_y := 0 |}] /\
    w_display_running w2 = false /\
    deliver (new_output_event 7%positive) w2 = Ok tt w2.
Proof.
  assert (Hinit : initial Corner.two_heads).
  { split; [reflexivity|]. split; [reflexivity|]. split; [reflexivity|].
    apply (bool_decide_unpack _). vm_compute. exact I. }
  assert (Hdev : w_devices Corner.two_heads !! 6%positive = Some Corner.window)
    by (vm_compute; reflexivity).
  split; [exact Hinit|]. split; [reflexivity|]. split; [exact Hdev|].
  destruct (claim_then_removal _ _ _ Hinit eq_refl Hdev)
    as (w1 & w2 & Hrun1 & Hrun2 & Hheap & _ & _ & Hdevs & Hlayout & _ & Hstop & Hnew & _).
  exists w1, w2. split; [exact Hrun1|]. split; [exact Hrun2|].
  split; [exact Hheap|]. split.
  { rewrite Hdevs. apply insert_id. exact Hdev. }
  split; [exact Hlayout|]. split; [exact Hstop|]. apply Hnew.
Defined.

Lemma phases_only_advance_witness :
  in_phase Unclaimed Corner.two_heads /\
  rtc step Corner.two_heads
    (Scenario.after [new_output_event 6%positive; destroy_event 6%positive]
       Corner.two_heads) /\
  exists p',
    in_phase p' (Scenario.after [new_output_event 6%positive; destroy_event 6%positive]
                   Corner.two_heads) /\
    (w_display_running
       (Scenario.after [new_output_event 6%positive; destroy_event 6%positive]
          Corner.two_heads) = false <-> p' = Terminated).
Proof.
  assert (Hp : in_phase Unclaimed Corner.two_heads).
  { split; [reflexivity|]. split; [|reflexivity].
    split; [reflexivity|]. split; [reflexivity|]. split; [reflexivity|].
    apply (bool_decide_unpack _). vm_compute. exact I. }
  assert (Hsteps : rtc step Corner.two_heads
                     (Scenario.after [new_output_event 6%positive; destroy_event 6%positive]
                        Corner.two_heads)).
  { apply rtc_l with (Scenario.after [new_output_event 6%positive] Corner.two_heads).
    - apply (step_deliver (new_output_event 6%positive)). vm_compute. reflexivity.
    - apply rtc_once. apply (step_deliver (destroy_event 6%positive)).
      vm_compute. reflexivity. }
  split; [exact Hp|]. split; [exact Hsteps|].
  destruct (phases_only_advance _ _ _ Hp Hsteps) as (p' & Hp' & _ & Hstop).
  by exists p'.
Defined.

Lemma reachable_states_are_memory_safe_witness :
  initial Corner.unclaimed /\
  new_output_notify (w_server Corner.unclaimed) = Some fn_handle_new_output /\
  w_display_running Corner.unclaimed = true /\
  rtc step Corner.unclaimed Corner.overflowing /\
  is_Some (w_devices Corner.overflowing !! notification_device (frame_event 6%positive)) /\
  ~ reaches_allocation (frame_event 6%positive) Corner.overflowing /\
  ((exists w', deliver (frame_event 6%positive) Corner.overflowing = Ok tt w') \/
   deliver (frame_event 6%positive) Corner.overflowing = Fault undefined_arithmetic).
Proof.
  assert (Hinit : initial Corner.unclaimed).
  { split; [reflexivity|]. split; [reflexivity|]. split; [reflexivity|].
    apply map_Forall_singleton. by split. }
  assert (Hsteps : rtc step Corner.unclaimed Corner.overflowing).
  { apply rtc_l with Corner.active.
    - apply (step_deliver (new_output_event 6%positive)). vm_compute. reflexivity.
    - apply rtc_once. apply step_views. }
  assert (Hdev : is_Some (w_devices Corner.overflowing
                            !! notification_device (frame_event 6%positive)))
    by (vm_compute; by eexists).
  assert (Hframe : ~ reaches_allocation (frame_event 6%positive) Corner.overflowing)
    by (by intros []).
  split; [exact Hinit|]. split; [reflexivity|]. split; [reflexivity|].
  split; [exact Hsteps|]. split; [exact Hdev|]. split; [exact Hframe|].
  exact (reachable_states_are_memory_safe _ _ _ Hinit eq_refl eq_refl Hsteps Hdev Hframe).
Defined.
